(** * proxy_pool: anonymity checker and proxy-source deduplication

    A shallow embedding of [helper/anonymousChecker.py] and of
    [fetcher/freeproxyAdapter.py] (method [fetch_all]).

    Python values are modelled as follows.
    - [str] is [string]; the characters are code points below 256, which is
      what IP addresses, [host:port] pairs and header values need.
    - what [resp.json()] returns is a [json] tree; a [dict] is an association
      list whose first binding of a key is the one [dict.get] sees.
    - [None] for an optional string is [None : option string].
    - an exception is a value of [exn]; code that may raise lives in the
      monad [M], which threads the outside world (network oracle, request
      log, proxy store, standard output) and either returns or raises.
    - logging calls ([self.log.info] and friends) have no effect on any
      value the claims talk about and are left out. *)

From Stdlib Require Import ZArith String Ascii List Bool Lia Permutation DecimalString.
From stdpp Require Import base decidable option list gmap strings.
Import ListNotations.
Local Open Scope string_scope.
Local Open Scope list_scope.
Set Warnings "-register-all,-clear-no-such-hyp".

(** ** Python string primitives *)

Module Py.

(** [c.isspace()] for a code point below 256: the characters removed by
    [str.strip()] called without argument. *)
Definition isspace (c : ascii) : bool :=
  let n := nat_of_ascii c in
  (((9 <=? n) && (n <=? 13)) || ((28 <=? n) && (n <=? 32))
   || (n =? 133) || (n =? 160))%nat.

Fixpoint lstrip (s : string) : string :=
  match s with
  | EmptyString => EmptyString
  | String c s' => if isspace c then lstrip s' else s
  end.

Fixpoint rstrip (s : string) : string :=
  match s with
  | EmptyString => EmptyString
  | String c s' =>
      let r := rstrip s' in
      if isspace c && String.eqb r "" then "" else String c r
  end.

(** [s.strip()] *)
Definition strip (s : string) : string := rstrip (lstrip s).

(** [s.split(sep)] for a one-character separator: never the empty list,
    [''.split(',') == ['']]. *)
Fixpoint split (sep : ascii) (s : string) : list string :=
  match s with
  | EmptyString => [""]
  | String c s' =>
      if Ascii.eqb c sep then "" :: split sep s'
      else match split sep s' with
           | [] => [String c ""]
           | w :: ws => String c w :: ws
           end
  end.

(** [needle in hay] for two strings. *)
Fixpoint contains (needle hay : string) : bool :=
  String.prefix needle hay
  || match hay with
     | EmptyString => false
     | String _ hay' => contains needle hay'
     end.

(** [s.replace(old, new)] for a non-empty [old]: leftmost, non-overlapping
    occurrences.  [skip] counts the characters of a matched occurrence
    that are still to be dropped. *)
Fixpoint replace_from (old new : string) (skip : nat) (s : string) : string :=
  match s with
  | EmptyString => EmptyString
  | String c s' =>
      match skip with
      | S k => replace_from old new k s'
      | O =>
          if String.prefix old s
          then (new ++ replace_from old new (String.length old - 1)%nat s')%string
          else String c (replace_from old new 0 s')
      end
  end.

Definition replace (old new s : string) : string := replace_from old new 0 s.

(** [x in l] for a list of strings. *)
Definition in_list (x : string) (l : list string) : bool :=
  existsb (String.eqb x) l.

End Py.

(** ** JSON values, as [resp.json()] returns them *)

Inductive json : Type :=
| JNull
| JBool (b : bool)
| JNum (n : Z)
| JStr (s : string)
| JArr (l : list json)
| JObj (kv : list (string * json)).

(** ** Exceptions *)

Inductive exn : Type :=
| Timeout            (* requests.exceptions.Timeout *)
| ProxyError         (* requests.exceptions.ProxyError *)
| ConnectionError    (* any other requests.exceptions.ConnectionError *)
| HTTPError          (* raise_for_status *)
| JSONDecodeError    (* resp.json() on a body that is not JSON *)
| AttributeError     (* method looked up on a value that lacks it *)
| TypeError          (* [in] on a value that is not a container *)
| IndexError
| ValueError         (* ThreadPoolExecutor(max_workers=n) with n <= 0 *)
| OtherException (msg : string).

(** ** The outside world *)

(** One call of [requests.get(url, proxies=..., timeout=...)]; a direct
    call has [req_proxy = None]. *)
Record request : Type := mkRequest {
  req_url : string;
  req_proxy : option string;
  req_timeout : Z
}.

Record response : Type := mkResponse {
  status_code : Z;
  text : string;
  json_body : option json   (* [None]: the body does not parse *)
}.

Inductive http_result : Type :=
| Raises (e : exn)
| Responds (r : response).

(** A line written by [print]; one constructor per message format. *)
Inductive printed : Type :=
| GotProxies (name : string) (count : nat)      (* f"[{name}] 获取到 {count} 个代理" *)
| HandlingFailed (name : string) (e : exn)      (* f"[{name}] 处理失败: {e}" *)
| FetchFailed (name : string) (e : exn).        (* f"[{name}] 获取失败: {e}" *)

(** helper.proxy.Proxy: the checker only reads the attribute [proxy]. *)
Record Proxy : Type := mkProxy { proxy : string }.

Record world : Type := mkWorld {
  net : list request -> request -> http_result;  (* answer, given the history *)
  log : list request;                             (* requests sent so far *)
  stored : list Proxy;                            (* what the store holds *)
  anonymous_proxy : list Proxy;                   (* writes to the anonymous table *)
  stdout : list printed
}.

Inductive result (A : Type) : Type :=
| Ok (a : A)
| Raise (e : exn).
Arguments Ok {A} a.
Arguments Raise {A} e.

Definition M (A : Type) : Type := world -> result A * world.

Definition ret {A} (a : A) : M A := fun w => (Ok a, w).

Definition bind {A B} (m : M A) (k : A -> M B) : M B :=
  fun w => match m w with
           | (Ok a, w') => k a w'
           | (Raise e, w') => (Raise e, w')
           end.

Definition raise {A} (e : exn) : M A := fun w => (Raise e, w).

(** [try: body except Exception as e: handler e] *)
Definition try_except {A} (body : M A) (handler : exn -> M A) : M A :=
  fun w => match body w with
           | (Ok a, w') => (Ok a, w')
           | (Raise e, w') => handler e w'
           end.

Declare Scope py_scope.
Delimit Scope py_scope with py.
Notation "x <- m ;; k" := (bind m (fun x => k))
  (at level 100, m at next level, right associativity) : py_scope.
Notation "m ;;; k" := (bind m (fun _ => k))
  (at level 100, right associativity) : py_scope.
Local Open Scope py_scope.

Definition with_log (w : world) (l : list request) : world :=
  mkWorld (net w) l (stored w) (anonymous_proxy w) (stdout w).

(** [requests.get]: the request is sent (logged) and the network answers. *)
Definition requests_get (rq : request) : M response :=
  fun w =>
    let w' := with_log w (log w ++ [rq]) in
    match net w (log w) rq with
    | Raises e => (Raise e, w')
    | Responds r => (Ok r, w')
    end.

(** [resp.raise_for_status()] *)
Definition raise_for_status (r : response) : M unit :=
  if ((400 <=? status_code r) && (status_code r <? 600))%Z
  then raise HTTPError else ret tt.

(** [resp.json()] *)
Definition resp_json (r : response) : M json :=
  match json_body r with
  | Some j => ret j
  | None => raise JSONDecodeError
  end.

Fixpoint assoc (key : string) (kv : list (string * json)) : option json :=
  match kv with
  | [] => None
  | (k, v) :: kv' => if String.eqb k key then Some v else assoc key kv'
  end.

(** [d.get(key, default)]: only a dict has the method. *)
Definition py_get (d : json) (key : string) (default : json) : M json :=
  match d with
  | JObj kv => ret (match assoc key kv with Some v => v | None => default end)
  | _ => raise AttributeError
  end.

(** The receiver of [.split]: only a str has the method. *)
Definition as_str (v : json) : M string :=
  match v with
  | JStr s => ret s
  | _ => raise AttributeError
  end.

(** [l[0]] *)
Definition item0 (l : list string) : M string :=
  match l with
  | x :: _ => ret x
  | [] => raise IndexError
  end.

(** Truth value of a JSON-born Python value. *)
Definition truthy (v : json) : bool :=
  match v with
  | JNull => false
  | JBool b => b
  | JNum n => negb (n =? 0)%Z
  | JStr s => negb (String.eqb s "")
  | JArr l => match l with [] => false | _ => true end
  | JObj kv => match kv with [] => false | _ => true end
  end.

(** Truth value of [real_ip]: [None] and [''] are false. *)
Definition known (real_ip : option string) : bool :=
  match real_ip with
  | Some s => negb (String.eqb s "")
  | None => false
  end.

(** [x in v] for a str [x]: substring of a str, element of a list, key of a
    dict; anything else is not iterable. *)
Definition py_in (x : string) (v : json) : M bool :=
  match v with
  | JStr s => ret (Py.contains x s)
  | JArr l => ret (existsb (fun j => match j with JStr s => String.eqb x s | _ => false end) l)
  | JObj kv => ret (existsb (fun p => String.eqb x (fst p)) kv)
  | _ => raise TypeError
  end.

(** ** helper/anonymousChecker.py *)

Module AnonymousChecker.

(** The fourth component of the tuple [_check_anonymous] returns; one
    constructor per string the function can build. *)
Inductive reason : Type :=
| ExposesRealIP                  (* "透明代理(暴露真实IP)" *)
| MultipleIPs                    (* "普通匿名(多IP)" *)
| TransparentProxy               (* "透明代理" *)
| HeaderExposed (header : string) (* f"头部暴露({header})" *)
| HighAnonymous                  (* "高匿代理" *)
| TimedOut                       (* "超时" *)
| ProxyConnectFailed             (* "代理连接失败" *)
| Exception (e : exn).           (* f"异常: {str(e)[:50]}" *)

Definition PROXY_HEADERS : list string :=
  [ "X-Forwarded-For"; "X-Real-Ip"; "X-Forwarded"; "Forwarded-For";
    "Forwarded"; "Via"; "X-Client-Ip"; "Client-Ip"; "True-Client-Ip";
    "Cf-Connecting-Ip" ].

(** The fields of the object that the methods below read or write. *)
Record t : Type := mk {
  timeout : Z;
  max_workers : Z;
  check_url : string;
  headers_url : string;
  _real_ip : option string
}.

(** [__init__]; [anonymousCheckUrl] is [ConfigHandler().anonymousCheckUrl]. *)
Definition __init__ (anonymousCheckUrl : string) (timeout : Z) (max_workers : Z) : t :=
  mk timeout max_workers anonymousCheckUrl
     (Py.replace "/ip" "/headers" anonymousCheckUrl) None.

Definition set_real_ip (self : t) (v : option string) : t :=
  mk (timeout self) (max_workers self) (check_url self) (headers_url self) v.

(** The right-hand side of the assignment in [_get_real_ip]:
    [resp.json().get("origin", "").split(',')[0].strip()] after the direct
    request and [raise_for_status]. *)
Definition direct_origin (self : t) : M string :=
  resp <- requests_get (mkRequest (check_url self) None (timeout self)) ;;
  raise_for_status resp ;;;
  j <- resp_json resp ;;
  v <- py_get j "origin" (JStr "") ;;
  s <- as_str v ;;
  first <- item0 (Py.split "," s) ;;
  ret (Py.strip first).

(** [_get_real_ip]: the value returned and the object after the call. *)
Definition _get_real_ip (self : t) : M (option string * t) :=
  if known (_real_ip self) then ret (_real_ip self, self)
  else
    try_except
      (ip <- direct_origin self ;;
       ret (Some ip, set_real_ip self (Some ip)))
      (fun _ => ret (None, self)).

(** [real_ip in origin_ips] *)
Definition real_ip_in (real_ip : option string) (origin_ips : list string) : bool :=
  match real_ip with
  | Some ip => Py.in_list ip origin_ips
  | None => false
  end.

(** [origin_ips[0] == real_ip] *)
Definition eq_real_ip (x : string) (real_ip : option string) : bool :=
  match real_ip with
  | Some ip => String.eqb x ip
  | None => false
  end.

(** [header_value and real_ip and real_ip in header_value] *)
Definition header_leaks (header_value : json) (real_ip : option string) : M bool :=
  if truthy header_value then
    match real_ip with
    | Some ip => if negb (String.eqb ip "") then py_in ip header_value else ret false
    | None => ret false
    end
  else ret false.

(** The loop over [PROXY_HEADERS]: the first header that leaks, if any. *)
Fixpoint scan_headers (response_headers : json) (real_ip : option string)
         (headers : list string) : M (option string) :=
  match headers with
  | [] => ret None
  | header :: rest =>
      header_value <- py_get response_headers header (JStr "") ;;
      leak <- header_leaks header_value real_ip ;;
      if leak then ret (Some header)
      else scan_headers response_headers real_ip rest
  end.

(** The body of the inner [try] (step 2). *)
Definition header_probe (self : t) (proxy_str : string) (real_ip : option string)
  : M (option string) :=
  resp_headers <- requests_get (mkRequest (headers_url self) (Some proxy_str) (timeout self)) ;;
  raise_for_status resp_headers ;;;
  j <- resp_json resp_headers ;;
  response_headers <- py_get j "headers" (JObj []) ;;
  scan_headers response_headers real_ip PROXY_HEADERS.

Definition verdict : Type := (Proxy * bool * option string * reason)%type.

(** The first request of the outer [try] (step 1) up to [origin]. *)
Definition origin_probe (self : t) (proxy_str : string) : M string :=
  resp_ip <- requests_get (mkRequest (check_url self) (Some proxy_str) (timeout self)) ;;
  raise_for_status resp_ip ;;;
  j <- resp_json resp_ip ;;
  v <- py_get j "origin" (JStr "") ;;
  as_str v.

(** Lines 104 to 143: what the outer [try] does with [origin]. *)
Definition classify (self : t) (p : Proxy) (proxy_ip : string)
           (real_ip : option string) (origin : string) : M verdict :=
  let origin_ips := map Py.strip (Py.split "," origin) in
  if known real_ip && real_ip_in real_ip origin_ips
  then ret (p, false, Some origin, ExposesRealIP)
  else if negb (length origin_ips =? 1)%nat
  then ret (p, false, Some origin, MultipleIPs)
  else
    first <- item0 origin_ips ;;
    if negb (String.eqb first proxy_ip) && (known real_ip && eq_real_ip first real_ip)
    then ret (p, false, Some origin, TransparentProxy)
    else
      leak <- try_except (header_probe self (proxy p) real_ip)
                         (fun _ => ret None) ;;
      match leak with
      | Some header => ret (p, false, Some origin, HeaderExposed header)
      | None => ret (p, true, Some origin, HighAnonymous)
      end.

(** The reason each of the three outer [except] clauses returns. *)
Definition failure_reason (e : exn) : reason :=
  match e with
  | Timeout => TimedOut
  | ProxyError => ProxyConnectFailed
  | _ => Exception e
  end.

Definition _check_anonymous (self : t) (p : Proxy) (real_ip : option string) : M verdict :=
  let proxy_str := proxy p in
  proxy_ip <- item0 (Py.split ":" proxy_str) ;;
  try_except
    (origin <- origin_probe self proxy_str ;;
     classify self p proxy_ip real_ip origin)
    (fun e => ret (p, false, None, failure_reason e)).

Record counters : Type := mkCounters {
  anonymous : nat;
  transparent : nat;
  failed : nat
}.

(** Modelled from the spec: [handler/proxyHandler.py] is not part of the
    sources.  [getAll() -> sequence of endpoints] reads the persisted pool
    and [put(endpoint, metadata)] is invoked for Anonymous results; the
    model keeps every write, in the order the writes happen. *)
Definition getAll : M (list Proxy) := fun w => (Ok (stored w), w).

Definition putAnonymous (p : Proxy) : M unit :=
  fun w => (Ok tt, mkWorld (net w) (log w) (stored w) (anonymous_proxy w ++ [p]) (stdout w)).

(** The loop [for future in as_completed(futures)].  [futures] lists the
    submitted proxies in the order their workers finish; each probe is
    taken as one step, followed by the bookkeeping for its result. *)
Fixpoint as_completed (self : t) (real_ip : option string) (futures : list Proxy)
         (c : counters) : M counters :=
  match futures with
  | [] => ret c
  | p :: rest =>
      r <- _check_anonymous self p real_ip ;;
      let '(prox, is_anonymous, origin, _) := r in
      match origin with
      | None =>
          as_completed self real_ip rest
            (mkCounters (anonymous c) (transparent c) (failed c + 1))
      | Some _ =>
          if is_anonymous then
            putAnonymous prox ;;;
            as_completed self real_ip rest
              (mkCounters (anonymous c + 1) (transparent c) (failed c))
          else
            as_completed self real_ip rest
              (mkCounters (anonymous c) (transparent c + 1) (failed c))
      end
  end.

(** [run]; [completion] is the order in which the pool finishes the
    submitted probes, any rearrangement of the submission order.
    [ThreadPoolExecutor(max_workers=self.max_workers)] raises [ValueError]
    when the number of workers is not positive; nothing in [run] catches
    it. *)
Definition run (completion : list Proxy -> list Proxy) (self : t) : M (counters * t) :=
  r <- _get_real_ip self ;;
  let '(real_ip, self') := r in
  all_proxies <- getAll ;;
  match all_proxies with
  | [] => ret (mkCounters 0 0 0, self')
  | _ =>
      if (max_workers self' <=? 0)%Z then raise ValueError
      else
        c <- as_completed self' real_ip (completion all_proxies) (mkCounters 0 0 0) ;;
        ret (c, self')
  end.

End AnonymousChecker.

(** ** fetcher/freeproxyAdapter.py *)

Module FreeproxyAdapter.

(** One complete iteration of a generator object: the values it yields,
    in order, and how it ends ([None]: it is exhausted, [Some e]: the
    [next] call after the last value raises [e]). *)
Record gen_run : Type := mkRun {
  yielded : list string;
  ending : option exn
}.

(** A generator function such as [self.fetch_geonode]: iterating what it
    returns may use the network and print. *)
Definition generator : Type := world -> gen_run * world.

Definition print (x : printed) (w : world) : world :=
  mkWorld (net w) (log w) (stored w) (anonymous_proxy w) (stdout w ++ [x]).

(** The inner loop [for proxy in fetcher()] of [fetch_all] over the
    values one generator yields: what [fetch_all] yields in turn, the set
    [seen] and [count] afterwards. *)
Fixpoint consume (items : list string) (seen : gset string) (count : nat)
  : list string * gset string * nat :=
  match items with
  | [] => ([], seen, count)
  | prox :: rest =>
      if decide (prox ∈ seen) then consume rest seen count
      else
        let '(out, seen', count') := consume rest ({[prox]} ∪ seen) (count + 1) in
        (prox :: out, seen', count')
  end.

(** The outer loop [for name, fetcher in sources]; [sleep(0.5)] changes
    no value and is left out.  For every source, in order, the result
    records the run of its generator and what [fetch_all] yielded while
    iterating it. *)
Fixpoint fetch_from (sources : list (string * generator)) (seen : gset string)
         (w : world) : list (gen_run * list string) * world :=
  match sources with
  | [] => ([], w)
  | (name, fetcher) :: rest =>
      let '(g, w1) := fetcher w in
      let '(out, seen', count) := consume (yielded g) seen 0 in
      let w2 :=
        match ending g with
        | None => if (0 <? count)%nat then print (GotProxies name count) w1 else w1
        | Some e => print (HandlingFailed name e) w1
        end in
      let '(trace, w3) := fetch_from rest seen' w2 in
      ((g, out) :: trace, w3)
  end.

(** [fetch_all], iterated to the end, for a given list [sources]: the
    sequence of the values it yields. *)
Definition fetch_all (sources : list (string * generator)) (w : world)
  : list string * world :=
  let '(trace, w') := fetch_from sources ∅ w in
  (concat (map snd trace), w').

(** The list [sources] built in [fetch_all], given the seven generator
    functions of the class. *)
Definition sources_of (fetch_thespeedx fetch_proxyscrape fetch_geonode
                       fetch_freeproxylist fetch_proxylistdownload
                       fetch_sunny9577 fetch_clarketm : generator)
  : list (string * generator) :=
  [ ("TheSpeedX", fetch_thespeedx);
    ("ProxyScrape", fetch_proxyscrape);
    ("Geonode", fetch_geonode);
    ("FreeProxyList", fetch_freeproxylist);
    ("ProxyListDownload", fetch_proxylistdownload);
    ("Sunny9577", fetch_sunny9577);
    ("Clarketm", fetch_clarketm) ].

(** The lines one response contributes in [fetch_proxylistdownload]. *)
Definition proxy_lines (body : string) : list string :=
  filter (fun line => negb (String.eqb line "") && Py.contains ":" line = true)
         (map Py.strip (Py.split "010"%char (Py.strip body))).

(** One turn of the loop [for url in urls] of [fetch_proxylistdownload]:
    the [try] with its handler. *)
Definition download_one (timeout : Z) (url : string) (w : world) : list string * world :=
  match (resp <- requests_get (mkRequest url None timeout) ;;
         raise_for_status resp ;;;
         ret resp)%py w with
  | (Ok resp, w1) => (proxy_lines (text resp), w1)
  | (Raise e, w1) => ([], print (FetchFailed "ProxyListDownload" e) w1)
  end.

Fixpoint download_all (timeout : Z) (urls : list string) (w : world) : list string * world :=
  match urls with
  | [] => ([], w)
  | url :: rest =>
      let '(ls, w1) := download_one timeout url w in
      let '(ls', w2) := download_all timeout rest w1 in
      ((ls ++ ls')%list, w2)
  end.

(** [fetch_proxylistdownload]: its own handler catches every exception,
    so the generator always ends by exhaustion. *)
Definition fetch_proxylistdownload (timeout : Z) : generator :=
  fun w =>
    let '(ls, w1) :=
      download_all timeout
        [ "https://www.proxy-list.download/api/v1/get?type=http";
          "https://www.proxy-list.download/api/v1/get?type=https" ] w in
    (mkRun ls None, w1).

End FreeproxyAdapter.

(** ** Concrete oracles and worlds *)

Module Scenario.
Import AnonymousChecker.

Definition self0 : t := __init__ "http://httpbin.org/ip" 10 10.

Definition reply (j : json) : http_result := Responds (mkResponse 200 "" (Some j)).

Definition origin_reply (s : string) : http_result :=
  reply (JObj [("origin", JStr s)]).

Definition headers_reply (kv : list (string * json)) : http_result :=
  reply (JObj [("headers", JObj kv)]).

(** An oracle that ignores the history: [direct] answers the unproxied
    request, [stage1] and [stage2] answer the two requests sent through
    the proxy named in the request. *)
Definition oracle (direct : http_result) (stage1 stage2 : string -> http_result)
  : list request -> request -> http_result :=
  fun _ rq =>
    match req_proxy rq with
    | None => direct
    | Some ps =>
        if String.eqb (req_url rq) (check_url self0) then stage1 ps else stage2 ps
    end.

Definition fresh (n : list request -> request -> http_result) (ps : list Proxy) : world :=
  mkWorld n [] ps [] [].

Definition clean_headers : list (string * json) :=
  [("Host", JStr "httpbin.org"); ("User-Agent", JStr "Mozilla/5.0")].

Definition identity : string := "203.0.113.9".

(** Scenario A: the proxy reports its own address, clean headers. *)
Definition netA := oracle (origin_reply identity)
                          (fun _ => origin_reply "10.0.0.5")
                          (fun _ => headers_reply clean_headers).

(** Scenario B: two origins, the second one the real identity. *)
Definition netB := oracle (origin_reply identity)
                          (fun _ => origin_reply "10.0.0.6, 203.0.113.9")
                          (fun _ => headers_reply clean_headers).

(** Two origins, none of them the real identity. *)
Definition netB' := oracle (origin_reply identity)
                           (fun _ => origin_reply "10.0.0.6, 10.0.0.7")
                           (fun _ => headers_reply clean_headers).

(** Scenario C: stage 1 times out. *)
Definition netC := oracle (origin_reply identity)
                          (fun _ => Raises Timeout)
                          (fun _ => headers_reply clean_headers).

(** Scenario D: identity resolution fails; the proxy reports one address
    that is not its own. *)
Definition netD := oracle (Raises ConnectionError)
                          (fun _ => origin_reply "10.0.0.99")
                          (fun _ => headers_reply clean_headers).

(** A single foreign origin with the identity known. *)
Definition netE := oracle (origin_reply identity)
                          (fun _ => origin_reply "10.0.0.99")
                          (fun _ => headers_reply clean_headers).

(** Stage 1 passes, the header request times out. *)
Definition netF := oracle (origin_reply identity)
                          (fun _ => origin_reply "10.0.0.5")
                          (fun _ => Raises Timeout).

(** The direct request fails the first time it is sent and succeeds
    afterwards. *)
Definition net_flaky : list request -> request -> http_result :=
  fun history _ =>
    match history with
    | [] => Raises Timeout
    | _ => origin_reply identity
    end.

(** A generator whose run does not depend on the world. *)
Definition const_gen (g : FreeproxyAdapter.gen_run) : FreeproxyAdapter.generator :=
  fun w => (g, w).

(** A generator that yields nothing. *)
Definition silent : FreeproxyAdapter.generator :=
  const_gen (FreeproxyAdapter.mkRun [] None).

(** Two proxies, one per line. *)
Definition two_lines : string :=
  String.append "10.0.0.5:8080"
    (String "010"%char (String.append "10.0.0.6:3128" (String "010"%char ""))).

(** The first download URL answers with two lines, the second times out. *)
Definition net_download : list request -> request -> http_result :=
  fun _ rq =>
    if String.eqb (req_url rq) "https://www.proxy-list.download/api/v1/get?type=http"
    then Responds (mkResponse 200 two_lines None)
    else Raises Timeout.

Definition p5 : Proxy := mkProxy "10.0.0.5:8080".
Definition p6 : Proxy := mkProxy "10.0.0.6:8080".
Definition p7 : Proxy := mkProxy "10.0.0.7:9999".

End Scenario.

(** ** More Python primitives, for the generator functions *)

Module PyMore.

(** [c.isdigit()] for a code point below 256: the ten ASCII digits and the
    superscripts two, three and one. *)
Definition isdigit_char (c : ascii) : bool :=
  let n := nat_of_ascii c in
  (((48 <=? n) && (n <=? 57)) || (n =? 178) || (n =? 179) || (n =? 185))%nat.

Fixpoint all_digits (s : string) : bool :=
  match s with
  | EmptyString => true
  | String c s' => isdigit_char c && all_digits s'
  end.

(** [s.isdigit()]: at least one character, all of them digits. *)
Definition isdigit (s : string) : bool :=
  negb (String.eqb s "") && all_digits s.

(** [str(n)] for an int. *)
Definition str_int (n : Z) : string := NilZero.string_of_int (Z.to_int n).

(** What [\d] matches in a str pattern, for a code point below 256. *)
Definition is_decimal (c : ascii) : bool :=
  let n := nat_of_ascii c in ((48 <=? n) && (n <=? 57))%nat.

(** [s[n:]] *)
Fixpoint drop (n : nat) (s : string) : string :=
  match n, s with
  | S k, String _ s' => drop k s'
  | _, _ => s
  end.

(** The characters of a string, as [for ch in s] sees them. *)
Fixpoint chars (s : string) : list json :=
  match s with
  | EmptyString => []
  | String c s' => JStr (String c "") :: chars s'
  end.

(** The values a [for] loop draws from a JSON-born value: the elements of
    a list, the keys of a dict, the characters of a str; anything else is
    not iterable. *)
Definition py_iter (v : json) : M (list json) :=
  match v with
  | JArr l => ret l
  | JObj kv => ret (map (fun p => JStr (fst p)) kv)
  | JStr s => ret (chars s)
  | _ => raise TypeError
  end.

End PyMore.

(** ** fetcher/freeproxyAdapter.py, the generator functions *)

Module FreeproxySources.
Import FreeproxyAdapter.

(** The test of [fetch_thespeedx], [fetch_sunny9577] and [fetch_clarketm]
    on a stripped line:
    [line and ':' in line] and then
    [len(parts) == 2 and parts[1].isdigit()]. *)
Definition valid_line (line : string) : bool :=
  negb (String.eqb line "") && Py.contains ":" line
  && (let parts := Py.split ":" line in
      (length parts =? 2)%nat && PyMore.isdigit (nth 1 parts "")).

(** The lines those three functions yield for one response body. *)
Definition checked_lines (body : string) : list string :=
  List.filter valid_line (map Py.strip (Py.split "010"%char (Py.strip body))).

(** One [try] around one request, as in every text source: the lines
    yielded, or the failure line printed under [name]. *)
Definition text_turn (name : string) (lines_of : string -> list string)
           (timeout : Z) (url : string) (w : world) : list string * world :=
  match (resp <- requests_get (mkRequest url None timeout) ;;
         raise_for_status resp ;;;
         ret resp)%py w with
  | (Ok resp, w1) => (lines_of (text resp), w1)
  | (Raise e, w1) => ([], print (FetchFailed name e) w1)
  end.

(** The loop [for url in urls] with the [try] inside. *)
Fixpoint text_loop (name : string) (lines_of : string -> list string)
         (timeout : Z) (urls : list string) (w : world) : list string * world :=
  match urls with
  | [] => ([], w)
  | url :: rest =>
      let '(ls, w1) := text_turn name lines_of timeout url w in
      let '(ls', w2) := text_loop name lines_of timeout rest w1 in
      (ls ++ ls', w2)
  end.

Definition thespeedx_urls : list string :=
  [ "https://raw.githubusercontent.com/TheSpeedX/SOCKS-List/master/http.txt" ].

Definition fetch_thespeedx (timeout : Z) : generator :=
  fun w =>
    let '(ls, w1) := text_loop "TheSpeedX" checked_lines timeout thespeedx_urls w in
    (mkRun ls None, w1).

Definition sunny9577_urls : list string :=
  [ "https://raw.githubusercontent.com/sunny9577/proxy-scraper/master/proxies.txt" ].

Definition fetch_sunny9577 (timeout : Z) : generator :=
  fun w =>
    let '(ls, w1) := text_loop "Sunny9577" checked_lines timeout sunny9577_urls w in
    (mkRun ls None, w1).

Definition clarketm_url : string :=
  "https://raw.githubusercontent.com/clarketm/proxy-list/master/proxy-list-raw.txt".

(** [fetch_clarketm]: one request, no loop over URLs. *)
Definition fetch_clarketm (timeout : Z) : generator :=
  fun w =>
    let '(ls, w1) := text_turn "Clarketm" checked_lines timeout clarketm_url w in
    (mkRun ls None, w1).

Section Format.

(** [str(v)] for a non-empty list or dict, which the functions below only
    meet when a source sends one where an address or a port is expected. *)
Variable container_str : json -> string.

(** [str(v)], as an f-string applies it; a number is an int, as in
    [json]. *)
Definition py_str (v : json) : string :=
  match v with
  | JNull => "None"
  | JBool true => "True"
  | JBool false => "False"
  | JNum n => PyMore.str_int n
  | JStr s => s
  | _ => container_str v
  end.

(** [f"{ip}:{port}"] *)
Definition host_port (ip port : json) : string :=
  String.append (py_str ip) (String.append ":" (py_str port)).

(** The body of the loop of [fetch_proxyscrape] for one [item]: what it
    yields, if anything. *)
Definition proxyscrape_item (item : json) : M (option string) :=
  alive <- py_get item "alive" JNull ;;
  if negb (truthy alive) then ret None
  else
    ip <- py_get item "ip" JNull ;;
    port <- py_get item "port" JNull ;;
    if truthy ip && truthy port then ret (Some (host_port ip port)) else ret None.

(** The body of the loop of [fetch_geonode] for one [item]. *)
Definition geonode_item (item : json) : M (option string) :=
  ip <- py_get item "ip" JNull ;;
  port <- py_get item "port" JNull ;;
  if truthy ip && truthy port then ret (Some (host_port ip port)) else ret None.

(** A [for item in items] loop inside a generator: the values yielded up
    to the end of the list or up to the first exception. *)
Fixpoint item_loop (body : json -> M (option string)) (items : list json) (w : world)
  : gen_run * world :=
  match items with
  | [] => (mkRun [] None, w)
  | item :: rest =>
      match body item w with
      | (Ok None, w1) => item_loop body rest w1
      | (Ok (Some y), w1) =>
          let '(g, w2) := item_loop body rest w1 in
          (mkRun (y :: yielded g) (ending g), w2)
      | (Raise e, w1) => (mkRun [] (Some e), w1)
      end
  end.

(** A JSON source: one request, the list under [key] (default [[]]), the
    loop, and the handler that prints the failure under [name]; the
    generator itself always ends by exhaustion. *)
Definition json_source (name url key : string) (body : json -> M (option string))
           (timeout : Z) : generator :=
  fun w =>
    match (resp <- requests_get (mkRequest url None timeout) ;;
           raise_for_status resp ;;;
           data <- resp_json resp ;;
           v <- py_get data key (JArr []) ;;
           PyMore.py_iter v)%py w with
    | (Ok items, w1) =>
        let '(g, w2) := item_loop body items w1 in
        match ending g with
        | None => (mkRun (yielded g) None, w2)
        | Some e => (mkRun (yielded g) None, print (FetchFailed name e) w2)
        end
    | (Raise e, w1) => (mkRun [] None, print (FetchFailed name e) w1)
    end.

Definition proxyscrape_url : string :=
  "https://api.proxyscrape.com/v4/free-proxy-list/get?request=get_proxies&skip=0&proxy_format=protocolipport&format=json&limit=500".

Definition fetch_proxyscrape (timeout : Z) : generator :=
  json_source "ProxyScrape" proxyscrape_url "proxies" proxyscrape_item timeout.

Definition geonode_url : string :=
  "https://proxylist.geonode.com/api/proxy-list?limit=200&page=1&sort_by=lastChecked&sort_type=desc".

Definition fetch_geonode (timeout : Z) : generator :=
  json_source "Geonode" geonode_url "data" geonode_item timeout.

End Format.

(** The longest run of at most [n] decimal digits at the head of [s], and
    what follows it. *)
Fixpoint take_digits (n : nat) (s : string) : string * string :=
  match n, s with
  | S k, String c s' =>
      if PyMore.is_decimal c
      then let '(d, r) := take_digits k s' in (String c d, r)
      else (EmptyString, s)
  | _, _ => (EmptyString, s)
  end.

(** [\d{1,3}] followed by the literal [lit], which starts with no digit:
    the quantifier is greedy, and giving a digit back would leave a digit
    where [lit] must start, so the greedy choice is the only one that can
    match. *)
Definition octet_then (lit : string) (s : string) : option (string * string) :=
  let '(d, r) := take_digits 3 s in
  if String.eqb d "" then None
  else if String.prefix lit r then Some (d, PyMore.drop (String.length lit) r)
  else None.

(** The pattern
    [(\d{1,3}\.\d{1,3}\.\d{1,3}\.\d{1,3})</td><td>(\d+)] tried at the head
    of [s]: the two groups and the rest of [s] after the match. *)
Definition match_at (s : string) : option (string * string * string) :=
  match octet_then "." s with
  | None => None
  | Some (a, s1) =>
  match octet_then "." s1 with
  | None => None
  | Some (b, s2) =>
  match octet_then "." s2 with
  | None => None
  | Some (c, s3) =>
  match octet_then "</td><td>" s3 with
  | None => None
  | Some (d, s4) =>
      let '(port, rest) := take_digits (String.length s4) s4 in
      if String.eqb port "" then None
      else Some (String.append a (String.append "."
                 (String.append b (String.append "."
                 (String.append c (String.append "." d))))),
                 port, rest)
  end end end end.

(** [re.findall(pattern, s)]: leftmost matches, each search starting where
    the previous match ended.  [skip] counts the characters of the last
    match that are still to be passed. *)
Fixpoint findall_from (skip : nat) (s : string) : list (string * string) :=
  match s with
  | EmptyString => []
  | String _ s' =>
      match skip with
      | S k => findall_from k s'
      | O =>
          match match_at s with
          | Some (ip, port, rest) =>
              (ip, port)
              :: findall_from (String.length s - String.length rest - 1)%nat s'
          | None => findall_from 0 s'
          end
      end
  end.

Definition findall (s : string) : list (string * string) := findall_from 0 s.

(** What [fetch_freeproxylist] yields for one page. *)
Definition table_lines (body : string) : list string :=
  map (fun m => String.append (fst m) (String.append ":" (snd m))) (findall body).

Definition freeproxylist_url : string := "https://free-proxy-list.net/".

Definition fetch_freeproxylist (timeout : Z) : generator :=
  fun w =>
    let '(ls, w1) := text_turn "FreeProxyList" table_lines timeout freeproxylist_url w in
    (mkRun ls None, w1).

(** The list [sources] of [fetch_all], for an adapter built with
    [timeout]. *)
Definition sources (container_str : json -> string) (timeout : Z)
  : list (string * generator) :=
  sources_of (fetch_thespeedx timeout)
             (fetch_proxyscrape container_str timeout)
             (fetch_geonode container_str timeout)
             (fetch_freeproxylist timeout)
             (fetch_proxylistdownload timeout)
             (fetch_sunny9577 timeout)
             (fetch_clarketm timeout).

(** [FreeproxyAdapter(timeout).fetch_all()], iterated to the end. *)
Definition adapter_fetch_all (container_str : json -> string) (timeout : Z) (w : world)
  : list string * world :=
  fetch_all (sources container_str timeout) w.

(** [get_freeproxy_proxies()]: a new adapter with the default timeout,
    and every value of its [fetch_all] passed on. *)
Definition get_freeproxy_proxies (container_str : json -> string) (w : world)
  : list string * world :=
  adapter_fetch_all container_str 15 w.

End FreeproxySources.

(** ** Vocabulary of the statements *)

Import AnonymousChecker.


(** The request sent by step 1, the one sent by step 2, and the direct one
    of [_get_real_ip]. *)
Definition stage1_request (self : t) (p : Proxy) : request :=
  mkRequest (check_url self) (Some (proxy p)) (timeout self).

Definition stage2_request (self : t) (p : Proxy) : request :=
  mkRequest (headers_url self) (Some (proxy p)) (timeout self).

Definition direct_request (self : t) : request :=
  mkRequest (check_url self) None (timeout self).

(** A computation that leaves the world as it found it. *)
Definition quiet {A} (m : M A) : Prop := forall w, snd (m w) = w.

(** A computation that sends the request [rq] and does nothing else to the
    world. *)
Definition sends {A} (rq : request) (m : M A) : Prop :=
  forall w, snd (m w) = with_log w (log w ++ [rq]).

(** An oracle whose answers do not depend on the requests sent before. *)
Definition history_free (n : list request -> request -> http_result) : Prop :=
  forall h h' rq, n h rq = n h' rq.

(** A computation whose result does not depend on the world it runs in. *)
Definition world_free {A} (m : M A) : Prop :=
  forall w w', fst (m w) = fst (m w').

(** The status codes [raise_for_status] lets through. *)
Definition status_ok (r : response) : bool :=
  negb ((400 <=? status_code r) && (status_code r <? 600))%Z.

(** [d.get(key, default)] on the bindings of a dict. *)
Definition get_or (kv : list (string * json)) (key : string) (default : json) : json :=
  match assoc key kv with Some v => v | None => default end.

(** The text of header [h] in the dict [kv]; the empty string when the
    header is absent. *)
Definition header_text (kv : list (string * json)) (h : string) : string :=
  match assoc h kv with Some (JStr s) => s | _ => "" end.

(** Every value of the dict is a str. *)
Definition all_text (kv : list (string * json)) : bool :=
  forallb (fun b => match snd b with JStr _ => true | _ => false end) kv.

(** The bookkeeping [run] does for one result. *)
Definition count_result (v : verdict) (c : counters) : counters :=
  let '(_, is_anonymous, origin, _) := v in
  match origin with
  | None => mkCounters (anonymous c) (transparent c) (failed c + 1)
  | Some _ =>
      if is_anonymous
      then mkCounters (anonymous c + 1) (transparent c) (failed c)
      else mkCounters (anonymous c) (transparent c + 1) (failed c)
  end.

(** The write [run] does for one result: an anonymous result with an origin
    is put in the anonymous table. *)
Definition record_result (v : verdict) (w : world) : world :=
  let '(prox, is_anonymous, origin, _) := v in
  match origin with
  | Some _ => if is_anonymous then snd (putAnonymous prox w) else w
  | None => w
  end.

(** The counters of two stretches of the loop, added field by field. *)
Definition add_counters (c d : counters) : counters :=
  mkCounters (anonymous c + anonymous d) (transparent c + transparent d)
             (failed c + failed d).

(** A header value on which the test of step 2 is false without raising
    for the real IP [ip]: a str, list or dict that does not hold [ip], or
    any false value. *)
Definition harmless (ip : string) (v : json) : bool :=
  match v with
  | JStr s => negb (Py.contains ip s)
  | JArr l => negb (existsb (fun j => match j with JStr s => String.eqb ip s | _ => false end) l)
  | JObj kv => negb (existsb (fun b => String.eqb ip (fst b)) kv)
  | _ => negb (truthy v)
  end.

(** A true value that is not a container: [in] raises on it. *)
Definition not_iterable (v : json) : bool :=
  match v with
  | JNum n => negb (n =? 0)%Z
  | JBool b => b
  | _ => false
  end.

(** More oracles for the probe. *)
Module Fixtures.

(** The header answer names the real IP under [Via] and under
    [X-Real-Ip], in that order. *)
Definition leaking_headers : list (string * json) :=
  [ ("Host", JStr "httpbin.org");
    ("Via", JStr "1.1 203.0.113.9");
    ("X-Real-Ip", JStr "203.0.113.9") ].

Definition net_leak := Scenario.oracle (Scenario.origin_reply Scenario.identity)
                                       (fun _ => Scenario.origin_reply "10.0.0.5")
                                       (fun _ => Scenario.headers_reply leaking_headers).

(** The real IP appears under names that are not in the list: one in
    lower case, one unlisted. *)
Definition unlisted_headers : list (string * json) :=
  [ ("x-forwarded-for", JStr "203.0.113.9");
    ("X-Originating-Ip", JStr "203.0.113.9") ].

Definition net_unlisted := Scenario.oracle (Scenario.origin_reply Scenario.identity)
                                           (fun _ => Scenario.origin_reply "10.0.0.5")
                                           (fun _ => Scenario.headers_reply unlisted_headers).

(** A number under the first listed name, the real IP under a later
    one. *)
Definition masked_headers : list (string * json) :=
  [ ("X-Forwarded-For", JNum 1);
    ("Via", JStr "1.1 203.0.113.9") ].

Definition net_masked := Scenario.oracle (Scenario.origin_reply Scenario.identity)
                                         (fun _ => Scenario.origin_reply "10.0.0.5")
                                         (fun _ => Scenario.headers_reply masked_headers).

(** Every request is answered with status 200 and the text [body]. *)
Definition net_text (body : string) : list request -> request -> http_result :=
  fun _ _ => Responds (mkResponse 200 body None).

(** Every request is answered with status 200 and the JSON value [j]. *)
Definition net_json (j : json) : list request -> request -> http_result :=
  fun _ _ => Responds (mkResponse 200 "" (Some j)).

(** Every request raises [e]. *)
Definition net_down (e : exn) : list request -> request -> http_result :=
  fun _ _ => Raises e.

(** Two well-formed items, one of them not alive, then a string where an
    object is expected, then one more well-formed item. *)
Definition scraped_items : list json :=
  [ JObj [("alive", JBool true); ("ip", JStr "10.0.0.5"); ("port", JNum 8080)];
    JObj [("alive", JBool false); ("ip", JStr "10.0.0.6"); ("port", JNum 3128)];
    JStr "not an object";
    JObj [("alive", JBool true); ("ip", JStr "10.0.0.7"); ("port", JNum 80)] ].

(** Two rows of the table of free-proxy-list.net. *)
Definition table_rows : string :=
  "<tr><td>10.0.0.5</td><td>8080</td><td>US</td></tr><tr><td>10.0.0.6</td><td>3128</td></tr>".

(** [str] of a container, for the examples: the value does not matter. *)
Definition container_str (j : json) : string := "[...]".

End Fixtures.

(** What a text source yields for one answer: the lines of the body when
    the request returns with a status that [raise_for_status] lets through,
    nothing otherwise. *)
Definition lines_of_answer (lines_of : string -> list string) (a : http_result)
  : list string :=
  match a with
  | Responds r => if status_ok r then lines_of (text r) else []
  | Raises _ => []
  end.

(** The bindings of the JSON objects at the head of a list, up to the
    first item that is not an object. *)
Fixpoint leading_objects (items : list json) : list (list (string * json)) :=
  match items with
  | JObj kv :: rest => kv :: leading_objects rest
  | _ => []
  end.

(** Every item of the list is a JSON object. *)
Definition all_objects (items : list json) : bool :=
  forallb (fun j => match j with JObj _ => true | _ => false end) items.

(** What the loop of [fetch_proxyscrape] yields for an item that is an
    object with the bindings [kv]. *)
Definition proxyscrape_pick (container_str : json -> string) (kv : list (string * json))
  : option string :=
  if truthy (get_or kv "alive" JNull)
     && truthy (get_or kv "ip" JNull) && truthy (get_or kv "port" JNull)
  then Some (FreeproxySources.host_port container_str
               (get_or kv "ip" JNull) (get_or kv "port" JNull))
  else None.

(** The same for [fetch_geonode], which does not look at [alive]. *)
Definition geonode_pick (container_str : json -> string) (kv : list (string * json))
  : option string :=
  if truthy (get_or kv "ip" JNull) && truthy (get_or kv "port" JNull)
  then Some (FreeproxySources.host_port container_str
               (get_or kv "ip" JNull) (get_or kv "port" JNull))
  else None.

(** A non-empty string of decimal digits. *)
Fixpoint decimal_digits (s : string) : bool :=
  match s with
  | EmptyString => true
  | String c s' => PyMore.is_decimal c && decimal_digits s'
  end.

Definition is_number (s : string) : bool :=
  negb (String.eqb s "") && decimal_digits s.

(** One to three decimal digits. *)
Definition is_octet (s : string) : bool :=
  is_number s && (String.length s <=? 3)%nat.

(** The values of a list, once each, at the place of their first
    occurrence. *)
Fixpoint distinct_in_order (l : list string) : list string :=
  match l with
  | [] => []
  | x :: rest => x :: List.filter (fun y => negb (String.eqb y x)) (distinct_in_order rest)
  end.

(** The eight URLs the seven sources of [fetch_all] ask for, in order. *)
Definition source_urls : list string :=
  FreeproxySources.thespeedx_urls
  ++ [ FreeproxySources.proxyscrape_url;
       FreeproxySources.geonode_url;
       FreeproxySources.freeproxylist_url;
       "https://www.proxy-list.download/api/v1/get?type=http";
       "https://www.proxy-list.download/api/v1/get?type=https" ]
  ++ FreeproxySources.sunny9577_urls
  ++ [ FreeproxySources.clarketm_url ].

(** The requests a probe sends for the reason it returns: the header
    request follows the origin request exactly when step 2 was reached. *)
Definition probe_requests (self : t) (p : Proxy) (r : reason) : list request :=
  stage1_request self p
  :: match r with
     | HighAnonymous | HeaderExposed _ => [stage2_request self p]
     | _ => []
     end.

(** * Properties *)

(** ** Python primitives *)

Example split_two : Py.split "," "10.0.0.6, 203.0.113.9" = ["10.0.0.6"; " 203.0.113.9"].
Proof. reflexivity. Qed.

Example split_empty : Py.split "," "" = [""].
Proof. reflexivity. Qed.

Example strip_both : Py.strip "  203.0.113.9 " = "203.0.113.9".
Proof. reflexivity. Qed.

Example replace_ip : Py.replace "/ip" "/headers" "http://httpbin.org/ip" = "http://httpbin.org/headers".
Proof. reflexivity. Qed.

Example contains_mid : Py.contains "203.0.113.9" "10.0.0.1, 203.0.113.9" = true.
Proof. reflexivity. Qed.

Example split_gaps : Py.split "," "a,b,,c" = ["a"; "b"; ""; "c"].
Proof. reflexivity. Qed.

Example strip_inner_kept : Py.strip " 10.0.0.6 , x  " = "10.0.0.6 , x".
Proof. reflexivity. Qed.

Example replace_every : Py.replace "/ip" "/headers" "http://h/ip/ip" = "http://h/headers/headers".
Proof. reflexivity. Qed.

Example replace_absent : Py.replace "/ip" "/headers" "http://h/get" = "http://h/get".
Proof. reflexivity. Qed.

Lemma split_not_nil (c : ascii) (s : string) : Py.split c s <> [].
Proof.
  induction s as [|a s IH]; simpl; [discriminate|].
  destruct (Ascii.eqb a c); [discriminate|].
  destruct (Py.split c s); discriminate.
Qed.

Lemma item0_split (c : ascii) (s : string) (w : world) :
  item0 (Py.split c s) w = (Ok (hd "" (Py.split c s)), w).
Proof.
  pose proof (split_not_nil c s) as H.
  destruct (Py.split c s); [contradiction|reflexivity].
Qed.

Lemma in_list_true (x : string) (l : list string) :
  Py.in_list x l = true <-> In x l.
Proof.
  unfold Py.in_list. rewrite existsb_exists. split.
  - intros (y & Hin & Heq). apply String.eqb_eq in Heq. now subst.
  - intros Hin. exists x. split; [assumption|apply String.eqb_refl].
Qed.

(** ** The monad *)

Ltac munfold :=
  unfold bind, ret, raise, try_except, raise_for_status, resp_json,
         py_get, as_str, item0, py_in in *.

Lemma quiet_ret {A} (a : A) : quiet (ret a).
Proof. intros w. reflexivity. Qed.

Lemma quiet_raise {A} (e : exn) : quiet (@raise A e).
Proof. intros w. reflexivity. Qed.

Lemma quiet_bind {A B} (m : M A) (k : A -> M B) :
  quiet m -> (forall a, quiet (k a)) -> quiet (bind m k).
Proof.
  intros Hm Hk w. unfold bind. specialize (Hm w).
  destruct (m w) as [[a|e] w1]; simpl in *; subst; [apply Hk|reflexivity].
Qed.

Lemma quiet_try {A} (m : M A) (h : exn -> M A) :
  quiet m -> (forall e, quiet (h e)) -> quiet (try_except m h).
Proof.
  intros Hm Hh w. unfold try_except. specialize (Hm w).
  destruct (m w) as [[a|e] w1]; simpl in *; subst; [reflexivity|apply Hh].
Qed.

Lemma quiet_raise_for_status (r : response) : quiet (raise_for_status r).
Proof. unfold raise_for_status. case_match; [apply quiet_raise|apply quiet_ret]. Qed.

Lemma quiet_resp_json (r : response) : quiet (resp_json r).
Proof. unfold resp_json. case_match; [apply quiet_ret|apply quiet_raise]. Qed.

Lemma quiet_py_get (d : json) (k : string) (dflt : json) : quiet (py_get d k dflt).
Proof. destruct d; simpl; first [apply quiet_ret|apply quiet_raise]. Qed.

Lemma quiet_as_str (v : json) : quiet (as_str v).
Proof. destruct v; simpl; first [apply quiet_ret|apply quiet_raise]. Qed.

Lemma quiet_item0 (l : list string) : quiet (item0 l).
Proof. destruct l; simpl; first [apply quiet_ret|apply quiet_raise]. Qed.

Lemma quiet_py_in (x : string) (v : json) : quiet (py_in x v).
Proof. destruct v; simpl; first [apply quiet_ret|apply quiet_raise]. Qed.

Lemma sends_get {A} (rq : request) (k : response -> M A) :
  (forall r, quiet (k r)) -> sends rq (bind (requests_get rq) k).
Proof.
  intros Hk w. unfold bind, requests_get.
  destruct (net w (log w) rq) as [e|r]; [reflexivity|apply Hk].
Qed.

Lemma sends_try {A} (rq : request) (m : M A) (h : exn -> M A) :
  sends rq m -> (forall e, quiet (h e)) -> sends rq (try_except m h).
Proof.
  intros Hm Hh w. unfold try_except. specialize (Hm w).
  destruct (m w) as [[a|e] w1]; simpl in *; subst; [reflexivity|apply Hh].
Qed.

Create HintDb quiet.
#[local] Hint Resolve quiet_ret quiet_raise quiet_raise_for_status quiet_resp_json
  quiet_py_get quiet_as_str quiet_item0 quiet_py_in : quiet.

Ltac quiet_tac :=
  repeat first
    [ apply quiet_bind; [|intros ?]
    | apply quiet_try; [|intros ?]
    | solve [auto with quiet]
    | progress case_match ].

(** ** The probe: which requests it sends *)

Lemma quiet_header_leaks (v : json) (real_ip : option string) :
  quiet (header_leaks v real_ip).
Proof. unfold header_leaks. quiet_tac. Qed.

Lemma quiet_scan_headers (rh : json) (real_ip : option string) (hs : list string) :
  quiet (scan_headers rh real_ip hs).
Proof.
  induction hs as [|h hs IH]; simpl; [apply quiet_ret|].
  apply quiet_bind; [apply quiet_py_get|intros v].
  apply quiet_bind; [apply quiet_header_leaks|intros [|]]; [apply quiet_ret|apply IH].
Qed.

(** Whatever step 1 yields, it has sent exactly its one request. *)
Lemma origin_probe_sends (self : t) (p : Proxy) :
  sends (stage1_request self p) (origin_probe self (proxy p)).
Proof. unfold origin_probe. apply sends_get. intros r. quiet_tac. Qed.

(** Whatever step 2 yields, it has sent exactly its one request. *)
Lemma header_probe_sends (self : t) (p : Proxy) (real_ip : option string) :
  sends (stage2_request self p) (header_probe self (proxy p) real_ip).
Proof.
  unfold header_probe. apply sends_get. intros r.
  do 3 (apply quiet_bind; [auto with quiet|intros ?]).
  apply quiet_scan_headers.
Qed.

Lemma direct_origin_sends (self : t) :
  sends (direct_request self) (direct_origin self).
Proof. unfold direct_origin. apply sends_get. intros r. quiet_tac. Qed.

(** ** Step 1 and step 2 in terms of what the network answers *)

(** The request itself raises: a timeout, a refused proxy, anything. *)
Lemma origin_probe_raises (self : t) (p : Proxy) (w : world) (e : exn) :
  net w (log w) (stage1_request self p) = Raises e ->
  origin_probe self (proxy p) w
  = (Raise e, with_log w (log w ++ [stage1_request self p])).
Proof.
  intros H. unfold origin_probe, bind, requests_get.
  fold (stage1_request self p). rewrite H. reflexivity.
Qed.

(** The answer carries an error status. *)
Lemma origin_probe_bad_status (self : t) (p : Proxy) (w : world) (r : response) :
  net w (log w) (stage1_request self p) = Responds r ->
  (400 <= status_code r < 600)%Z ->
  origin_probe self (proxy p) w
  = (Raise HTTPError, with_log w (log w ++ [stage1_request self p])).
Proof.
  intros H [Hlo Hhi]. unfold origin_probe, bind, requests_get.
  fold (stage1_request self p). rewrite H. unfold raise_for_status.
  apply Z.leb_le in Hlo. apply Z.ltb_lt in Hhi. rewrite Hlo, Hhi. reflexivity.
Qed.

(** The body of the answer is not JSON. *)
Lemma origin_probe_unparseable (self : t) (p : Proxy) (w : world) (r : response) :
  net w (log w) (stage1_request self p) = Responds r ->
  ((400 <=? status_code r) && (status_code r <? 600))%Z = false ->
  json_body r = None ->
  origin_probe self (proxy p) w
  = (Raise JSONDecodeError, with_log w (log w ++ [stage1_request self p])).
Proof.
  intros H Hs Hj. unfold origin_probe, bind, requests_get.
  fold (stage1_request self p). rewrite H. unfold raise_for_status. rewrite Hs.
  unfold ret, resp_json. rewrite Hj. reflexivity.
Qed.

(** The answer is a JSON object whose [origin], when present, is a string. *)
Lemma origin_probe_parsed (self : t) (p : Proxy) (w : world) (r : response)
      (kv : list (string * json)) (origin : string) :
  net w (log w) (stage1_request self p) = Responds r ->
  ((400 <=? status_code r) && (status_code r <? 600))%Z = false ->
  json_body r = Some (JObj kv) ->
  match assoc "origin" kv with Some v => v | None => JStr "" end = JStr origin ->
  origin_probe self (proxy p) w
  = (Ok origin, with_log w (log w ++ [stage1_request self p])).
Proof.
  intros H Hs Hj Ho. unfold origin_probe, bind, requests_get.
  fold (stage1_request self p). rewrite H. unfold raise_for_status. rewrite Hs.
  unfold ret, resp_json. rewrite Hj. unfold py_get, ret. rewrite Ho. reflexivity.
Qed.

(** The header request itself raises. *)
Lemma header_probe_raises (self : t) (p : Proxy) (real_ip : option string)
      (w : world) (e : exn) :
  net w (log w) (stage2_request self p) = Raises e ->
  header_probe self (proxy p) real_ip w
  = (Raise e, with_log w (log w ++ [stage2_request self p])).
Proof.
  intros H. unfold header_probe, bind, requests_get.
  fold (stage2_request self p). rewrite H. reflexivity.
Qed.

(** The body of the header answer is not JSON. *)
Lemma header_probe_unparseable (self : t) (p : Proxy) (real_ip : option string)
      (w : world) (r : response) :
  net w (log w) (stage2_request self p) = Responds r ->
  ((400 <=? status_code r) && (status_code r <? 600))%Z = false ->
  json_body r = None ->
  header_probe self (proxy p) real_ip w
  = (Raise JSONDecodeError, with_log w (log w ++ [stage2_request self p])).
Proof.
  intros H Hs Hj. unfold header_probe, bind, requests_get.
  fold (stage2_request self p). rewrite H. unfold raise_for_status. rewrite Hs.
  unfold ret, resp_json. rewrite Hj. reflexivity.
Qed.

(** ** The probe: its decision *)

(** The guarded header probe always comes back with an answer. *)
Lemma guarded_header_probe (self : t) (p : Proxy) (real_ip : option string) (w : world) :
  exists leak,
    try_except (header_probe self (proxy p) real_ip) (fun _ => ret None) w
    = (Ok leak, with_log w (log w ++ [stage2_request self p])).
Proof.
  pose proof (header_probe_sends self p real_ip w) as Hw.
  unfold try_except.
  destruct (header_probe self (proxy p) real_ip w) as [[leak|e] w'];
    simpl in Hw; subst w'; eauto.
Qed.

(** Once check 1 has passed on a one-element list, the guard of the nested
    [if] cannot hold. *)
Lemma nested_guard_false (real_ip : option string) (first proxy_ip : string) :
  known real_ip && real_ip_in real_ip [first] = false ->
  negb (String.eqb first proxy_ip) && (known real_ip && eq_real_ip first real_ip) = false.
Proof.
  intros H. destruct real_ip as [ip|]; simpl in *.
  - unfold Py.in_list in H. simpl in H. rewrite orb_false_r in H.
    rewrite (String.eqb_sym first ip), H. apply andb_false_r.
  - apply andb_false_r.
Qed.

Lemma length_one {A} (l : list A) :
  (length l =? 1)%nat = true -> exists x, l = [x].
Proof.
  destruct l as [|x [|y l]]; simpl; try discriminate. eauto.
Qed.

(** [classify] with the dead branch removed. *)
Lemma classify_cases (self : t) (p : Proxy) (proxy_ip : string)
      (real_ip : option string) (origin : string) (w : world) :
  classify self p proxy_ip real_ip origin w =
  if known real_ip && real_ip_in real_ip (map Py.strip (Py.split "," origin))
  then (Ok (p, false, Some origin, ExposesRealIP), w)
  else if negb (length (map Py.strip (Py.split "," origin)) =? 1)%nat
  then (Ok (p, false, Some origin, MultipleIPs), w)
  else match try_except (header_probe self (proxy p) real_ip) (fun _ => ret None) w with
       | (Ok (Some header), w') => (Ok (p, false, Some origin, HeaderExposed header), w')
       | (Ok None, w') => (Ok (p, true, Some origin, HighAnonymous), w')
       | (Raise e, w') => (Raise e, w')
       end.
Proof.
  unfold classify.
  destruct (known real_ip && real_ip_in real_ip _) eqn:H1; [reflexivity|].
  destruct (length _ =? 1)%nat eqn:H2; simpl; [|reflexivity].
  apply length_one in H2 as [first Hf]. rewrite Hf in *.
  unfold bind at 1. simpl.
  rewrite (nested_guard_false _ _ proxy_ip H1).
  unfold bind, ret.
  destruct (try_except _ _ w) as [[[h|]|e] w']; reflexivity.
Qed.

(** The probe never raises. *)
Lemma classify_total (self : t) (p : Proxy) (proxy_ip : string)
      (real_ip : option string) (origin : string) (w : world) :
  exists v w', classify self p proxy_ip real_ip origin w = (Ok v, w').
Proof.
  rewrite classify_cases.
  destruct (guarded_header_probe self p real_ip w) as [leak Hl]. rewrite Hl.
  repeat case_match; eauto.
Qed.

Lemma check_on_failure (self : t) (p : Proxy) (real_ip : option string)
      (w w1 : world) (e : exn) :
  origin_probe self (proxy p) w = (Raise e, w1) ->
  _check_anonymous self p real_ip w = (Ok (p, false, None, failure_reason e), w1).
Proof.
  intros H. unfold _check_anonymous. unfold bind at 1. rewrite item0_split.
  unfold try_except, bind. rewrite H. reflexivity.
Qed.

Lemma check_on_origin (self : t) (p : Proxy) (real_ip : option string)
      (w w1 : world) (origin : string) :
  origin_probe self (proxy p) w = (Ok origin, w1) ->
  _check_anonymous self p real_ip w
  = classify self p (hd "" (Py.split ":" (proxy p))) real_ip origin w1.
Proof.
  intros H. unfold _check_anonymous. unfold bind at 1. rewrite item0_split.
  unfold try_except, bind. rewrite H.
  destruct (classify_total self p (hd "" (Py.split ":" (proxy p))) real_ip origin w1)
    as (v & w' & Hc).
  rewrite Hc. reflexivity.
Qed.

Lemma check_total (self : t) (p : Proxy) (real_ip : option string) (w : world) :
  exists v w', _check_anonymous self p real_ip w = (Ok v, w').
Proof.
  destruct (origin_probe self (proxy p) w) as [[origin|e] w1] eqn:H.
  - rewrite (check_on_origin _ _ _ _ _ _ H). apply classify_total.
  - rewrite (check_on_failure _ _ _ _ _ _ H). eauto.
Qed.

Lemma stage1_log (self : t) (p : Proxy) (w w1 : world) (r : result string) :
  origin_probe self (proxy p) w = (r, w1) ->
  log w1 = log w ++ [stage1_request self p]
  /\ anonymous_proxy w1 = anonymous_proxy w.
Proof.
  intros H. pose proof (origin_probe_sends self p w) as Hs.
  rewrite H in Hs. simpl in Hs. subst w1. split; reflexivity.
Qed.

(** C1: when the real IP is known and is one of the origin IPs reported in
    step 1, the probe returns not anonymous with the reason of check 1
    (it exposes the real IP), whatever the number of origin IPs: check 1 is
    decided before the count of check 2.  The probe has then sent the
    request of step 1 and no other. *)
Theorem C1_real_ip_among_origins (self : t) (p : Proxy) (real_ip : option string)
        (w w1 : world) (origin : string) :
  known real_ip = true ->
  origin_probe self (proxy p) w = (Ok origin, w1) ->
  real_ip_in real_ip (map Py.strip (Py.split "," origin)) = true ->
  _check_anonymous self p real_ip w = (Ok (p, false, Some origin, ExposesRealIP), w1)
  /\ log w1 = log w ++ [stage1_request self p].
Proof.
  intros Hk Ho Hin. split; [|apply (stage1_log _ _ _ _ _ Ho)].
  rewrite (check_on_origin _ _ _ _ _ _ Ho), classify_cases, Hk, Hin. reflexivity.
Qed.

Lemma C1_witness :
  known (Some Scenario.identity) = true
  /\ (1 < length (map Py.strip (Py.split "," "10.0.0.6, 203.0.113.9")))%nat
  /\ _check_anonymous Scenario.self0 Scenario.p6 (Some Scenario.identity)
       (Scenario.fresh Scenario.netB [])
     = (Ok (Scenario.p6, false, Some "10.0.0.6, 203.0.113.9", ExposesRealIP),
        snd (origin_probe Scenario.self0 (proxy Scenario.p6) (Scenario.fresh Scenario.netB []))).
Proof.
  split; [reflexivity|]. split; [vm_compute; lia|].
  apply (C1_real_ip_among_origins Scenario.self0 Scenario.p6 (Some Scenario.identity)
           (Scenario.fresh Scenario.netB []) _ "10.0.0.6, 203.0.113.9");
    reflexivity.
Defined.

(** C2: when step 1 reports more than one origin IP and check 1 did not
    fire, the probe returns not anonymous with the several-IPs reason, and
    the request of step 1 is the only one it has sent: the header request of
    step 2 is not made. *)
Theorem C2_several_origins (self : t) (p : Proxy) (real_ip : option string)
        (w w1 : world) (origin : string) :
  origin_probe self (proxy p) w = (Ok origin, w1) ->
  (1 < length (map Py.strip (Py.split "," origin)))%nat ->
  known real_ip && real_ip_in real_ip (map Py.strip (Py.split "," origin)) = false ->
  _check_anonymous self p real_ip w = (Ok (p, false, Some origin, MultipleIPs), w1)
  /\ log w1 = log w ++ [stage1_request self p].
Proof.
  intros Ho Hlen H1. split; [|apply (stage1_log _ _ _ _ _ Ho)].
  rewrite (check_on_origin _ _ _ _ _ _ Ho), classify_cases, H1.
  destruct (length _ =? 1)%nat eqn:E; [|reflexivity].
  apply Nat.eqb_eq in E. lia.
Qed.

Lemma C2_witness :
  _check_anonymous Scenario.self0 Scenario.p6 (Some Scenario.identity)
    (Scenario.fresh Scenario.netB' [])
  = (Ok (Scenario.p6, false, Some "10.0.0.6, 10.0.0.7", MultipleIPs),
     snd (origin_probe Scenario.self0 (proxy Scenario.p6) (Scenario.fresh Scenario.netB' [])))
  /\ log (snd (origin_probe Scenario.self0 (proxy Scenario.p6) (Scenario.fresh Scenario.netB' [])))
     = [stage1_request Scenario.self0 Scenario.p6].
Proof.
  apply (C2_several_origins Scenario.self0 Scenario.p6 (Some Scenario.identity)
           (Scenario.fresh Scenario.netB' []) _ "10.0.0.6, 10.0.0.7");
    [reflexivity | vm_compute; lia | reflexivity].
Defined.

(** C3, as the claim states it, fails: with the real IP known, a proxy
    [10.0.0.5:8080] whose single reported origin [10.0.0.99] is neither its
    own IP nor the real IP, and clean headers, the probe returns anonymous
    with the ordinary high-anonymity reason. *)
Lemma C3_counterexample :
  map Py.strip (Py.split "," "10.0.0.99") = ["10.0.0.99"]
  /\ "10.0.0.99" <> hd "" (Py.split ":" (proxy Scenario.p5))
  /\ eq_real_ip "10.0.0.99" (Some Scenario.identity) = false
  /\ fst (origin_probe Scenario.self0 (proxy Scenario.p5) (Scenario.fresh Scenario.netE []))
     = Ok "10.0.0.99"
  /\ fst (_check_anonymous Scenario.self0 Scenario.p5 (Some Scenario.identity)
            (Scenario.fresh Scenario.netE []))
     = Ok (Scenario.p5, true, Some "10.0.0.99", HighAnonymous).
Proof. repeat split; try reflexivity. vm_compute. discriminate. Qed.

(** C3, amended: when the single origin IP of step 1 is neither the proxy's
    own IP nor (when known) the real IP, the probe goes on to step 2 as for
    any other single origin: it returns anonymous with the ordinary
    high-anonymity reason unless the guarded header probe names a leaking
    header, in which case it returns not anonymous with that header. *)
Theorem C3_foreign_single_origin (self : t) (p : Proxy) (real_ip : option string)
        (w w1 : world) (origin first : string) :
  origin_probe self (proxy p) w = (Ok origin, w1) ->
  map Py.strip (Py.split "," origin) = [first] ->
  first <> hd "" (Py.split ":" (proxy p)) ->
  (known real_ip = true -> eq_real_ip first real_ip = false) ->
  exists leak w2,
    try_except (header_probe self (proxy p) real_ip) (fun _ => ret None) w1 = (Ok leak, w2)
    /\ _check_anonymous self p real_ip w
       = (Ok (p,
              match leak with Some _ => false | None => true end,
              Some origin,
              match leak with Some header => HeaderExposed header | None => HighAnonymous end),
          w2).
Proof.
  intros Ho Hips _ Hid.
  destruct (guarded_header_probe self p real_ip w1) as [leak Hl].
  exists leak, (with_log w1 (log w1 ++ [stage2_request self p])). split; [exact Hl|].
  rewrite (check_on_origin _ _ _ _ _ _ Ho), classify_cases, Hips, Hl.
  assert (known real_ip && real_ip_in real_ip [first] = false) as ->.
  { destruct (known real_ip) eqn:Hk; [|reflexivity]. specialize (Hid eq_refl).
    destruct real_ip as [ip|]; [|reflexivity]. simpl in *.
    unfold Py.in_list. simpl. rewrite String.eqb_sym, Hid. reflexivity. }
  simpl. destruct leak; reflexivity.
Qed.

Lemma C3_witness :
  exists leak w2,
    try_except (header_probe Scenario.self0 (proxy Scenario.p5) (Some Scenario.identity))
               (fun _ => ret None)
               (snd (origin_probe Scenario.self0 (proxy Scenario.p5)
                       (Scenario.fresh Scenario.netE [])))
    = (Ok leak, w2)
    /\ _check_anonymous Scenario.self0 Scenario.p5 (Some Scenario.identity)
         (Scenario.fresh Scenario.netE [])
       = (Ok (Scenario.p5,
              match leak with Some _ => false | None => true end,
              Some "10.0.0.99",
              match leak with Some header => HeaderExposed header | None => HighAnonymous end),
          w2).
Proof.
  apply (C3_foreign_single_origin Scenario.self0 Scenario.p5 (Some Scenario.identity)
           (Scenario.fresh Scenario.netE []) _ "10.0.0.99" "10.0.0.99").
  - reflexivity.
  - reflexivity.
  - vm_compute. discriminate.
  - intros _. reflexivity.
Defined.

(** C5: when the probe has reached step 2 (one origin IP, check 1 not
    fired) and the header request fails in any way, the probe still returns
    anonymous with the high-anonymity reason. *)
Theorem C5_header_probe_failure (self : t) (p : Proxy) (real_ip : option string)
        (w w1 w2 : world) (origin : string) (e : exn) :
  origin_probe self (proxy p) w = (Ok origin, w1) ->
  length (map Py.strip (Py.split "," origin)) = 1%nat ->
  known real_ip && real_ip_in real_ip (map Py.strip (Py.split "," origin)) = false ->
  header_probe self (proxy p) real_ip w1 = (Raise e, w2) ->
  _check_anonymous self p real_ip w = (Ok (p, true, Some origin, HighAnonymous), w2).
Proof.
  intros Ho Hlen H1 Hh.
  rewrite (check_on_origin _ _ _ _ _ _ Ho), classify_cases, H1, Hlen. simpl.
  unfold try_except. rewrite Hh. reflexivity.
Qed.

Lemma C5_witness :
  _check_anonymous Scenario.self0 Scenario.p5 (Some Scenario.identity)
    (Scenario.fresh Scenario.netF [])
  = (Ok (Scenario.p5, true, Some "10.0.0.5", HighAnonymous),
     snd (header_probe Scenario.self0 (proxy Scenario.p5) (Some Scenario.identity)
            (snd (origin_probe Scenario.self0 (proxy Scenario.p5)
                    (Scenario.fresh Scenario.netF []))))).
Proof.
  apply (C5_header_probe_failure Scenario.self0 Scenario.p5 (Some Scenario.identity)
           (Scenario.fresh Scenario.netF [])
           (snd (origin_probe Scenario.self0 (proxy Scenario.p5)
                   (Scenario.fresh Scenario.netF [])))
           _ "10.0.0.5" Timeout);
    reflexivity.
Defined.

(** ** The probe without a known real IP *)

Lemma header_leaks_unknown (v : json) (real_ip : option string) (w : world) :
  known real_ip = false -> header_leaks v real_ip w = (Ok false, w).
Proof.
  intros Hk. unfold header_leaks.
  destruct (truthy v); [|reflexivity].
  destruct real_ip as [ip|]; [|reflexivity].
  simpl in Hk. rewrite Hk. reflexivity.
Qed.

Lemma scan_headers_unknown (rh : json) (real_ip : option string) (hs : list string)
      (w w' : world) (r : option string) :
  known real_ip = false ->
  scan_headers rh real_ip hs w = (Ok r, w') -> r = None.
Proof.
  intros Hk. revert w w'. induction hs as [|h hs IH]; intros w w'; simpl.
  - unfold ret. intros H; simplify_eq. reflexivity.
  - unfold bind at 1.
    pose proof (quiet_py_get rh h (JStr "") w) as Hq.
    destruct (py_get rh h (JStr "") w) as [[v|e] w1]; simpl in Hq; subst w1;
      [|discriminate].
    unfold bind at 1. rewrite (header_leaks_unknown v real_ip w Hk). apply IH.
Qed.

Lemma header_probe_unknown (self : t) (p : Proxy) (real_ip : option string)
      (w w' : world) (r : option string) :
  known real_ip = false ->
  header_probe self (proxy p) real_ip w = (Ok r, w') -> r = None.
Proof.
  intros Hk. unfold header_probe, bind, requests_get.
  destruct (net w (log w) _) as [e|resp]; [discriminate|].
  destruct (raise_for_status resp _) as [[[]|e] w1]; [|discriminate].
  destruct (resp_json resp w1) as [[j|e] w2]; [|discriminate].
  destruct (py_get j "headers" (JObj []) w2) as [[rh|e] w3]; [|discriminate].
  apply scan_headers_unknown. assumption.
Qed.

(** C6: when the real IP is absent ([None], or the empty string that
    [run] treats alike), the probe always returns, and never with the
    reason of check 1, of the nested check or of a leaking header; a result
    that is not anonymous and has an origin carries the several-IPs reason
    and comes from more than one origin IP; and a single origin IP, equal to
    the proxy's own IP or not, yields anonymous whatever the header probe
    finds. *)
Theorem C6_unknown_real_ip (self : t) (p : Proxy) (real_ip : option string) (w : world) :
  known real_ip = false ->
  exists (b : bool) (o : option string) (r : reason) (w' : world),
    _check_anonymous self p real_ip w = (Ok (p, b, o, r), w')
    /\ r <> ExposesRealIP
    /\ r <> TransparentProxy
    /\ (forall header, r <> HeaderExposed header)
    /\ (forall origin, b = false -> o = Some origin ->
          r = MultipleIPs
          /\ (1 < length (map Py.strip (Py.split "," origin)))%nat)
    /\ (forall origin w1,
          origin_probe self (proxy p) w = (Ok origin, w1) ->
          length (map Py.strip (Py.split "," origin)) = 1%nat ->
          b = true /\ o = Some origin /\ r = HighAnonymous).
Proof.
  intros Hk.
  destruct (origin_probe self (proxy p) w) as [[origin|e] w1] eqn:Ho.
  - rewrite (check_on_origin _ _ _ _ _ _ Ho), classify_cases, Hk. simpl.
    destruct (length _ =? 1)%nat eqn:Hlen; simpl.
    + apply Nat.eqb_eq in Hlen.
      destruct (guarded_header_probe self p real_ip w1) as [leak Hl]. rewrite Hl.
      assert (leak = None) as ->.
      { revert Hl. unfold try_except.
        destruct (header_probe self (proxy p) real_ip w1) as [[r|e] w2] eqn:Hh.
        - intros H; simplify_eq. eapply header_probe_unknown; eassumption.
        - unfold ret. intros H; simplify_eq. reflexivity. }
      exists true, (Some origin), HighAnonymous, (with_log w1 (log w1 ++ [stage2_request self p])).
      split; [reflexivity|]. split; [discriminate|]. split; [discriminate|].
      split; [discriminate|]. split; [discriminate|].
      intros origin' w1' H _. simplify_eq. repeat split.
    + apply Nat.eqb_neq in Hlen.
      exists false, (Some origin), MultipleIPs, w1.
      split; [reflexivity|]. split; [discriminate|]. split; [discriminate|].
      split; [discriminate|]. split.
      * intros origin' _ H. simplify_eq. split; [reflexivity|].
        pose proof (split_not_nil "," origin') as Hn.
        destruct (Py.split "," origin') as [|x [|y l]]; simpl in *;
          [contradiction|contradiction|lia].
      * intros origin' w1' H Hl'. congruence.
  - rewrite (check_on_failure _ _ _ _ _ _ Ho).
    exists false, None, (failure_reason e), w1.
    split; [reflexivity|]. split; [destruct e; discriminate|].
    split; [destruct e; discriminate|]. split; [destruct e; discriminate|].
    split; [discriminate|]. discriminate.
Qed.

Lemma C6_witness :
  exists (b : bool) (o : option string) (r : reason) (w' : world),
    _check_anonymous Scenario.self0 Scenario.p5 None (Scenario.fresh Scenario.netD [])
    = (Ok (Scenario.p5, b, o, r), w')
    /\ r <> ExposesRealIP
    /\ r <> TransparentProxy
    /\ (forall header, r <> HeaderExposed header)
    /\ (forall origin, b = false -> o = Some origin ->
          r = MultipleIPs
          /\ (1 < length (map Py.strip (Py.split "," origin)))%nat)
    /\ (forall origin w1,
          origin_probe Scenario.self0 (proxy Scenario.p5) (Scenario.fresh Scenario.netD [])
          = (Ok origin, w1) ->
          length (map Py.strip (Py.split "," origin)) = 1%nat ->
          b = true /\ o = Some origin /\ r = HighAnonymous).
Proof.
  apply (C6_unknown_real_ip Scenario.self0 Scenario.p5 None (Scenario.fresh Scenario.netD [])).
  reflexivity.
Defined.

(** Scenario D of the specification, evaluated. *)
Example scenario_D :
  fst (_check_anonymous Scenario.self0 Scenario.p5 None (Scenario.fresh Scenario.netD []))
  = Ok (Scenario.p5, true, Some "10.0.0.99", HighAnonymous).
Proof. reflexivity. Qed.

(** C10: the probe always returns, and never with the reason of the nested
    [return] of check 2 (the plain transparent-proxy string, which no other
    statement builds): whenever the single origin IP equals a known real IP,
    check 1 has already returned. *)
Theorem C10_nested_return_unreachable (self : t) (p : Proxy) (real_ip : option string)
        (w : world) :
  exists (v : verdict) (w' : world),
    _check_anonymous self p real_ip w = (Ok v, w') /\ snd v <> TransparentProxy.
Proof.
  destruct (origin_probe self (proxy p) w) as [[origin|e] w1] eqn:Ho.
  - rewrite (check_on_origin _ _ _ _ _ _ Ho), classify_cases.
    destruct (guarded_header_probe self p real_ip w1) as [leak Hl]. rewrite Hl.
    repeat case_match; eexists _, _; (split; [reflexivity|simpl; discriminate]).
  - rewrite (check_on_failure _ _ _ _ _ _ Ho).
    eexists _, _. split; [reflexivity|]. simpl. destruct e; discriminate.
Qed.

(** ** The identity resolver *)

Lemma get_real_ip_cached (self : t) (w : world) :
  known (_real_ip self) = true ->
  _get_real_ip self w = (Ok (_real_ip self, self), w).
Proof. intros H. unfold _get_real_ip. rewrite H. reflexivity. Qed.

Lemma get_real_ip_fetched (self : t) (w w1 : world) (ip : string) :
  known (_real_ip self) = false ->
  direct_origin self w = (Ok ip, w1) ->
  _get_real_ip self w = (Ok (Some ip, set_real_ip self (Some ip)), w1).
Proof.
  intros H Hd. unfold _get_real_ip. rewrite H.
  unfold try_except, bind. rewrite Hd. reflexivity.
Qed.

Lemma get_real_ip_failed (self : t) (w w1 : world) (e : exn) :
  known (_real_ip self) = false ->
  direct_origin self w = (Raise e, w1) ->
  _get_real_ip self w = (Ok (None, self), w1).
Proof.
  intros H Hd. unfold _get_real_ip. rewrite H.
  unfold try_except, bind. rewrite Hd. reflexivity.
Qed.

(** What a call of [_get_real_ip] does to the world: nothing on a cache hit,
    one direct request otherwise. *)
Lemma get_real_ip_world (self : t) (w : world) :
  exists r self',
    _get_real_ip self w
    = (Ok (r, self'),
       if known (_real_ip self) then w
       else with_log w (log w ++ [direct_request self])).
Proof.
  destruct (known (_real_ip self)) eqn:Hk.
  - rewrite (get_real_ip_cached _ _ Hk). eauto.
  - pose proof (direct_origin_sends self w) as Hs.
    destruct (direct_origin self w) as [[ip|e] w1] eqn:Hd; simpl in Hs; subst w1.
    + rewrite (get_real_ip_fetched _ _ _ _ Hk Hd). eauto.
    + rewrite (get_real_ip_failed _ _ _ _ Hk Hd). eauto.
Qed.

(** The resolver changes no field of the object but the cached address. *)
Lemma get_real_ip_fields (self self' : t) (w w' : world) (r : option string) :
  _get_real_ip self w = (Ok (r, self'), w') ->
  max_workers self' = max_workers self
  /\ check_url self' = check_url self
  /\ headers_url self' = headers_url self
  /\ timeout self' = timeout self.
Proof.
  intros H. destruct (known (_real_ip self)) eqn:Hk.
  - rewrite (get_real_ip_cached _ _ Hk) in H. inversion H; subst. repeat split.
  - destruct (direct_origin self w) as [[ip|e] w1] eqn:Hd.
    + rewrite (get_real_ip_fetched _ _ _ _ Hk Hd) in H. inversion H; subst. repeat split.
    + rewrite (get_real_ip_failed _ _ _ _ Hk Hd) in H. inversion H; subst. repeat split.
Qed.

(** C8, as the claim states it, fails: on a fresh checker whose first
    direct request times out, the first call returns [None]; the second call
    sends the request again and returns a different value. *)
Lemma C8_counterexample :
  let w0 := Scenario.fresh Scenario.net_flaky [] in
  let w1 := snd (_get_real_ip Scenario.self0 w0) in
  fst (_get_real_ip Scenario.self0 w0) = Ok (None, Scenario.self0)
  /\ log w1 = [direct_request Scenario.self0]
  /\ fst (_get_real_ip Scenario.self0 w1)
     = Ok (Some Scenario.identity, set_real_ip Scenario.self0 (Some Scenario.identity))
  /\ log (snd (_get_real_ip Scenario.self0 w1))
     = [direct_request Scenario.self0; direct_request Scenario.self0].
Proof. repeat split. Qed.

(** C8, amended: a call of the resolver never raises and sends at most one
    request, the direct one.  With a non-empty address cached it returns
    that address and touches neither the object nor the world.  Otherwise
    it sends exactly the direct request; when the request fails in any way
    the call returns [None] and leaves the object as it was; when the
    request yields an address the call returns it and stores it in the
    object, the empty string included.  Once a call has returned a
    non-empty address, every later call on the resulting object returns the
    same address without touching the world; after a call that returned
    [None] or the empty string the object holds no non-empty address, and
    the next call on it sends the direct request again. *)
Theorem C8_real_ip_resolution (self : t) (w : world) :
  exists (r : option string) (self' : t) (w' : world),
    _get_real_ip self w = (Ok (r, self'), w')
    /\ (log w' = log w \/ log w' = log w ++ [direct_request self])
    /\ (known (_real_ip self) = false -> log w' = log w ++ [direct_request self])
    /\ (forall e w1,
          known (_real_ip self) = false ->
          direct_origin self w = (Raise e, w1) -> r = None /\ self' = self)
    /\ (known r = true ->
        forall w2, _get_real_ip self' w2 = (Ok (r, self'), w2))
    /\ (known (_real_ip self) = true -> r = _real_ip self /\ self' = self /\ w' = w)
    /\ (forall ip w1,
          known (_real_ip self) = false ->
          direct_origin self w = (Ok ip, w1) ->
          r = Some ip /\ self' = set_real_ip self (Some ip))
    /\ (known r = false ->
        known (_real_ip self') = false
        /\ forall w2, exists r2 self2,
             _get_real_ip self' w2
             = (Ok (r2, self2), with_log w2 (log w2 ++ [direct_request self]))).
Proof.
  assert (forall s w2, known (_real_ip s) = false ->
            exists r2 s2, _get_real_ip s w2
                          = (Ok (r2, s2), with_log w2 (log w2 ++ [direct_request s]))) as Hagain.
  { intros s w2 Hs. destruct (get_real_ip_world s w2) as (r2 & s2 & Hg).
    rewrite Hs in Hg. eauto. }
  destruct (known (_real_ip self)) eqn:Hk.
  - exists (_real_ip self), self, w.
    split; [apply get_real_ip_cached; assumption|].
    split; [left; reflexivity|]. split; [discriminate|]. split; [discriminate|].
    split; [intros _ w2; apply get_real_ip_cached; assumption|].
    split; [intros _; repeat split|]. split; [discriminate|].
    intros Hr. congruence.
  - pose proof (direct_origin_sends self w) as Hs.
    destruct (direct_origin self w) as [[ip|e] w1] eqn:Hd; simpl in Hs; subst w1.
    + exists (Some ip), (set_real_ip self (Some ip)), (with_log w (log w ++ [direct_request self])).
      split; [apply get_real_ip_fetched; assumption|].
      split; [right; reflexivity|]. split; [reflexivity|]. split; [discriminate|].
      split; [intros Hr w2; apply get_real_ip_cached; exact Hr|].
      split; [discriminate|].
      split; [intros ip' w1 _ Heq; inversion Heq; subst; split; reflexivity|].
      intros Hr. split; [exact Hr|].
      intros w2. apply (Hagain (set_real_ip self (Some ip)) w2). exact Hr.
    + exists None, self, (with_log w (log w ++ [direct_request self])).
      split; [apply (get_real_ip_failed _ _ _ e); assumption|].
      split; [right; reflexivity|]. split; [reflexivity|].
      split; [intros; split; reflexivity|]. split; [discriminate|].
      split; [discriminate|]. split; [discriminate|].
      intros _. split; [exact Hk|]. intros w2. apply (Hagain self w2). exact Hk.
Qed.

(** An address that is the empty string is stored and still counts as
    unknown: the next call asks again. *)
Example empty_address_is_stored_and_asked_again :
  let net := Scenario.oracle (Scenario.origin_reply "  ")
               (fun _ => Scenario.origin_reply "10.0.0.5")
               (fun _ => Scenario.headers_reply Scenario.clean_headers) in
  let w0 := Scenario.fresh net [] in
  let self1 := set_real_ip Scenario.self0 (Some "") in
  _get_real_ip Scenario.self0 w0
  = (Ok (Some "", self1), with_log w0 [direct_request Scenario.self0])
  /\ log (snd (_get_real_ip self1 (with_log w0 [direct_request Scenario.self0])))
     = [direct_request Scenario.self0; direct_request Scenario.self0].
Proof. split; reflexivity. Qed.

(** Scenario: identity resolved once, then served from the object. *)
Example real_ip_cached_after_success :
  let w0 := Scenario.fresh Scenario.netA [] in
  let '(r1, w1) := _get_real_ip Scenario.self0 w0 in
  exists self1,
    r1 = Ok (Some Scenario.identity, self1)
    /\ _get_real_ip self1 w1 = (Ok (Some Scenario.identity, self1), w1)
    /\ log w1 = [direct_request Scenario.self0].
Proof. simpl. eexists. repeat split. Qed.

(** ** The run *)

(** A probe returns the proxy it was given and leaves store, oracle and
    anonymous table alone. *)
Lemma check_frame (self : t) (p : Proxy) (real_ip : option string) (w : world) :
  exists b o r w',
    _check_anonymous self p real_ip w = (Ok (p, b, o, r), w')
    /\ anonymous_proxy w' = anonymous_proxy w
    /\ stored w' = stored w
    /\ net w' = net w.
Proof.
  pose proof (origin_probe_sends self p w) as Hs.
  destruct (origin_probe self (proxy p) w) as [[origin|e] w1] eqn:Ho; simpl in Hs; subst w1.
  - rewrite (check_on_origin _ _ _ _ _ _ Ho), classify_cases.
    destruct (guarded_header_probe self p real_ip
                (with_log w (log w ++ [stage1_request self p]))) as [leak Hl].
    rewrite Hl. repeat case_match; eexists _, _, _, _; (split; [reflexivity|]); repeat split.
  - rewrite (check_on_failure _ _ _ _ _ _ Ho). eexists _, _, _, _; (split; [reflexivity|]); repeat split.
Qed.

(** The loop over the completed futures always ends; every future adds one
    to exactly one counter, and the writes to the anonymous table are as
    many as the anonymous results, each one a submitted proxy. *)
Lemma as_completed_counts (self : t) (real_ip : option string) (futures : list Proxy) :
  forall (c : counters) (w : world),
  exists c' w' writes,
    as_completed self real_ip futures c w = (Ok c', w')
    /\ (anonymous c' + transparent c' + failed c'
        = anonymous c + transparent c + failed c + length futures)%nat
    /\ anonymous_proxy w' = anonymous_proxy w ++ writes
    /\ (anonymous c' = anonymous c + length writes)%nat
    /\ (forall q, In q writes -> In q futures).
Proof.
  induction futures as [|p rest IH]; intros c w.
  - exists c, w, []. simpl. rewrite app_nil_r. repeat split; try lia; try (intros q []).
  - simpl. unfold bind at 1.
    destruct (check_frame self p real_ip w) as (b & o & r & w1 & Hc & Hs & _ & _).
    rewrite Hc.
    destruct o as [origin|].
    + destruct b.
      * unfold bind at 1, putAnonymous.
        match goal with |- context [as_completed _ _ rest ?c1 ?w2] =>
          destruct (IH c1 w2) as (c' & w' & writes & He & Hsum & Hw & Ha & Hin) end.
        exists c', w', (p :: writes). rewrite He. simpl in *.
        repeat split; try lia.
        -- rewrite Hw, Hs, <- app_assoc. reflexivity.
        -- intros q [->|Hq]; [left; reflexivity|right; apply Hin; assumption].
      * match goal with |- context [as_completed _ _ rest ?c1 ?w2] =>
          destruct (IH c1 w2) as (c' & w' & writes & He & Hsum & Hw & Ha & Hin) end.
        exists c', w', writes. rewrite He. simpl in *.
        repeat split; try lia; [congruence|auto].
    + match goal with |- context [as_completed _ _ rest ?c1 ?w2] =>
        destruct (IH c1 w2) as (c' & w' & writes & He & Hsum & Hw & Ha & Hin) end.
      exists c', w', writes. rewrite He. simpl in *.
      repeat split; try lia; [congruence|auto].
Qed.

(** One turn of the loop of [run], in terms of the result of the probe. *)
Lemma as_completed_cons (self : t) (real_ip : option string) (p : Proxy)
      (rest : list Proxy) (c : counters) (w w1 : world) (v : verdict) :
  _check_anonymous self p real_ip w = (Ok v, w1) ->
  as_completed self real_ip (p :: rest) c w
  = as_completed self real_ip rest (count_result v c) (record_result v w1).
Proof.
  intros H. simpl. unfold bind at 1. rewrite H.
  destruct v as [[[q b] [o|]] r]; simpl; [|reflexivity].
  destruct b; reflexivity.
Qed.

(** The loop adds to the counters it is given: started with [d] more, it
    ends with [d] more, in the same world. *)
Lemma count_result_add (v : verdict) (c d : counters) :
  count_result v (add_counters d c) = add_counters d (count_result v c).
Proof.
  destruct v as [[[q b] [o|]] r]; [destruct b|]; unfold add_counters; simpl;
    f_equal; lia.
Qed.

Lemma as_completed_add (self : t) (real_ip : option string) (futures : list Proxy) :
  forall (c d cr : counters) (w wr : world),
    as_completed self real_ip futures c w = (Ok cr, wr) ->
    as_completed self real_ip futures (add_counters d c) w = (Ok (add_counters d cr), wr).
Proof.
  induction futures as [|p rest IH]; intros c d cr w wr H.
  - simpl in *. unfold ret in *. congruence.
  - destruct (check_frame self p real_ip w) as (b & o & r & w1 & Hc & _).
    rewrite (as_completed_cons _ _ _ rest c _ _ _ Hc) in H.
    rewrite (as_completed_cons _ _ _ rest (add_counters d c) _ _ _ Hc).
    rewrite count_result_add. apply IH. exact H.
Qed.

Lemma add_counters_zero (c : counters) : add_counters c (mkCounters 0 0 0) = c.
Proof. destruct c. unfold add_counters. simpl. f_equal; lia. Qed.

(** The loop from the future [p] on, in terms of the result of its probe:
    the remaining futures go on from the world the result leaves, and what
    they earn is added to the counters that hold the result. *)
Lemma as_completed_after (self : t) (real_ip : option string) (p : Proxy)
      (rest : list Proxy) (c : counters) (w w1 : world) (v : verdict) :
  _check_anonymous self p real_ip w = (Ok v, w1) ->
  exists (cr : counters) (wr : world),
    as_completed self real_ip rest (mkCounters 0 0 0) (record_result v w1) = (Ok cr, wr)
    /\ as_completed self real_ip (p :: rest) c w
       = (Ok (add_counters (count_result v c) cr), wr).
Proof.
  intros Hc.
  destruct (as_completed_counts self real_ip rest (mkCounters 0 0 0) (record_result v w1))
    as (cr & wr & _ & He & _).
  exists cr, wr. split; [exact He|].
  rewrite (as_completed_cons _ _ _ _ _ _ _ _ Hc).
  pose proof (as_completed_add self real_ip rest _ (count_result v c) _ _ _ He) as Ha.
  rewrite add_counters_zero in Ha. exact Ha.
Qed.

(** A run with the identity already resolved over a store that holds one
    proxy: the result of the one probe, counted and recorded. *)
Lemma run_single (completion : list Proxy -> list Proxy) (self : t) (p : Proxy)
      (w w1 : world) (v : verdict) :
  (forall l, Permutation (completion l) l) ->
  stored w = [p] ->
  (0 < max_workers self)%Z ->
  known (_real_ip self) = true ->
  _check_anonymous self p (_real_ip self) w = (Ok v, w1) ->
  run completion self w
  = (Ok (count_result v (mkCounters 0 0 0), self), record_result v w1).
Proof.
  intros Hp Hs Hm Hk Hc. unfold run. unfold bind at 1.
  rewrite (get_real_ip_cached _ _ Hk). unfold bind at 1, getAll. rewrite Hs.
  destruct (Z.leb_spec (max_workers self) 0) as [Hz|_]; [lia|].
  rewrite (Permutation_length_1_inv (Permutation_sym (Hp [p]))).
  unfold bind at 1. rewrite (as_completed_cons _ _ _ _ _ _ _ _ Hc). reflexivity.
Qed.



(** The three transport-level failures of step 1, as the network gives
    them: a timeout, a refused proxy connection, a body that is not JSON. *)
Example stage1_failure_kinds :
  let probe answer :=
    fst (_check_anonymous Scenario.self0 Scenario.p7 (Some Scenario.identity)
           (Scenario.fresh (Scenario.oracle (Scenario.origin_reply Scenario.identity)
                              (fun _ => answer)
                              (fun _ => Scenario.headers_reply Scenario.clean_headers))
              [Scenario.p7])) in
  probe (Raises Timeout) = Ok (Scenario.p7, false, None, TimedOut)
  /\ probe (Raises ProxyError) = Ok (Scenario.p7, false, None, ProxyConnectFailed)
  /\ probe (Responds (mkResponse 200 "<html>" None))
     = Ok (Scenario.p7, false, None, Exception JSONDecodeError).
Proof. repeat split. Qed.

(** C7, as the claim states it, fails: on a fresh checker and an empty
    store, [run] returns the three zero counters, yet it has sent the direct
    request of the identity resolution. *)
Lemma C7_counterexample :
  let w0 := Scenario.fresh Scenario.netA [] in
  stored w0 = []
  /\ log w0 = []
  /\ fst (run (fun l => l) Scenario.self0 w0)
     = Ok (mkCounters 0 0 0, set_real_ip Scenario.self0 (Some Scenario.identity))
  /\ log (snd (run (fun l => l) Scenario.self0 w0)) = [direct_request Scenario.self0].
Proof. repeat split. Qed.

(** C7, amended: when the store holds no proxy, [run] returns the three
    zero counters, writes nothing to the anonymous table and sends no probe
    request: the only request of the run is the direct one of the identity
    resolution, which precedes the reading of the store, and it is not sent
    either when the object already holds a non-empty real IP. *)
Theorem C7_empty_store (completion : list Proxy -> list Proxy) (self : t) (w : world) :
  stored w = [] ->
  exists (self' : t) (w' : world),
    run completion self w = (Ok (mkCounters 0 0 0, self'), w')
    /\ anonymous_proxy w' = anonymous_proxy w
    /\ log w' = log w ++ (if known (_real_ip self) then [] else [direct_request self]).
Proof.
  intros Hs. unfold run. unfold bind at 1.
  destruct (get_real_ip_world self w) as (r & self' & Hg). rewrite Hg.
  unfold bind at 1, getAll.
  destruct (known (_real_ip self)); simpl; rewrite Hs;
    eexists _, _; (split; [reflexivity|]); simpl; rewrite ?app_nil_r;
    split; reflexivity.
Qed.

Lemma C7_witness :
  exists (self' : t) (w' : world),
    run (fun l => l) Scenario.self0 (Scenario.fresh Scenario.netA [])
    = (Ok (mkCounters 0 0 0, self'), w')
    /\ anonymous_proxy w' = []
    /\ log w' = [] ++ (if known (_real_ip Scenario.self0) then []
                       else [direct_request Scenario.self0]).
Proof.
  apply (C7_empty_store (fun l => l) Scenario.self0 (Scenario.fresh Scenario.netA [])).
  reflexivity.
Defined.

(** With at least one worker [run] returns; when the completion order is a
    rearrangement of the store, the three counters add up to the number of
    stored proxies. *)
Lemma run_counts (completion : list Proxy -> list Proxy) (self : t) (w : world) :
  (0 < max_workers self)%Z ->
  (forall l, Permutation (completion l) l) ->
  exists c self' w',
    run completion self w = (Ok (c, self'), w')
    /\ (anonymous c + transparent c + failed c = length (stored w))%nat.
Proof.
  intros Hm Hp. unfold run. unfold bind at 1.
  destruct (get_real_ip_world self w) as (r & self' & Hg).
  destruct (get_real_ip_fields _ _ _ _ _ Hg) as (Hmw & _).
  rewrite Hg.
  set (w1 := if known (_real_ip self) then w else _).
  assert (stored w1 = stored w) as Hst by (subst w1; destruct (known _); reflexivity).
  unfold bind at 1, getAll. rewrite Hst.
  destruct (stored w) as [|p ps] eqn:Hs.
  - eexists _, _, _. split; reflexivity.
  - rewrite Hmw. destruct (Z.leb_spec (max_workers self) 0) as [Hz|_]; [lia|].
    unfold bind at 1.
    destruct (as_completed_counts self' r (completion (p :: ps)) (mkCounters 0 0 0) w1)
      as (c' & w' & writes & He & Hsum & _).
    rewrite He. eexists _, _, _. split; [reflexivity|].
    rewrite Hsum. simpl. rewrite (Permutation_length (Hp (p :: ps))). reflexivity.
Qed.

(** Scenarios A, B and C of the specification, run on a one-proxy store. *)
Example scenario_A :
  let '(r, w') := run (fun l => l) Scenario.self0 (Scenario.fresh Scenario.netA [Scenario.p5]) in
  fst <$> (match r with Ok x => Some x | Raise _ => None end) = Some (mkCounters 1 0 0)
  /\ anonymous_proxy w' = [Scenario.p5].
Proof. split; reflexivity. Qed.

Example scenario_B :
  let '(r, w') := run (fun l => l) Scenario.self0 (Scenario.fresh Scenario.netB [Scenario.p6]) in
  fst <$> (match r with Ok x => Some x | Raise _ => None end) = Some (mkCounters 0 1 0)
  /\ anonymous_proxy w' = [].
Proof. split; reflexivity. Qed.

Example scenario_C :
  let '(r, w') := run (fun l => l) Scenario.self0 (Scenario.fresh Scenario.netC [Scenario.p7]) in
  fst <$> (match r with Ok x => Some x | Raise _ => None end) = Some (mkCounters 0 0 1)
  /\ anonymous_proxy w' = [].
Proof. split; reflexivity. Qed.

(** ** The merged sequence of [fetch_all] *)

Import FreeproxyAdapter.

(** The inner loop lets through, once and in order, the values that are
    not in [seen] yet. *)
Lemma consume_spec (items : list string) :
  forall (seen : gset string) (count : nat) out seen' count',
    consume items seen count = (out, seen', count') ->
    NoDup out
    /\ (forall x, x ∈ out <-> x ∈ items /\ x ∉ seen)
    /\ seen' = seen ∪ list_to_set items
    /\ count' = (count + length out)%nat.
Proof.
  induction items as [|a items IH]; intros seen count out seen' count' H; simpl in H.
  - simplify_eq. split; [constructor|]. split; [set_solver|]. split; [set_solver|simpl; lia].
  - destruct (decide (a ∈ seen)) as [Hin|Hnin].
    + destruct (IH _ _ _ _ _ H) as (Hnd & Hmem & Hseen & Hcount).
      split; [assumption|]. split; [|split; [set_solver|assumption]].
      intros x. rewrite Hmem. set_solver.
    + destruct (consume items ({[a]} ∪ seen) (count + 1)) as [[out1 seen1] count1] eqn:E.
      simplify_eq.
      destruct (IH _ _ _ _ _ E) as (Hnd & Hmem & Hseen & Hcount).
      split; [|split; [|split]].
      * constructor; [|assumption]. rewrite Hmem. set_solver.
      * intros x. rewrite elem_of_cons, Hmem.
        destruct (decide (x = a)) as [->|Hne]; set_solver.
      * set_solver.
      * simpl. lia.
Qed.

(** The outer loop: no value twice, every value of every run that is not in
    [seen], and one entry per source, which is a run of that source. *)
Lemma fetch_from_spec (sources : list (string * generator)) :
  forall (seen : gset string) (w : world) trace w',
    fetch_from sources seen w = (trace, w') ->
    NoDup (concat (map snd trace))
    /\ (forall x, x ∈ concat (map snd trace)
                  <-> (x ∉ seen) /\ (exists g o, (g, o) ∈ trace /\ x ∈ yielded g))
    /\ Forall2 (fun src entry => exists wi, fst (snd src wi) = fst entry) sources trace
    /\ (forall g o, (g, o) ∈ trace -> forall x, x ∈ o -> x ∈ yielded g).
Proof.
  induction sources as [|[name fetcher] rest IH]; intros seen w trace w' H; simpl in H.
  - simplify_eq. simpl. split; [constructor|]. split; [|split; [constructor|]].
    + intros x. split; [intros Hx; inversion Hx|].
      intros (_ & g & o & Hin & _). inversion Hin.
    + intros g o Hin. inversion Hin.
  - destruct (fetcher w) as [g w1] eqn:Hf.
    destruct (consume (yielded g) seen 0) as [[out seen1] count] eqn:Hc.
    destruct (fetch_from rest seen1 _) as [trace1 w3] eqn:Hr.
    simplify_eq. simpl.
    destruct (consume_spec _ _ _ _ _ _ Hc) as (Hnd & Hmem & Hseen & _).
    destruct (IH _ _ _ _ Hr) as (Hnd1 & Hmem1 & Hall1 & Hsub1).
    split; [|split; [|split]].
    + apply NoDup_app. split; [assumption|]. split; [|assumption].
      intros x Hx Hx1. apply Hmem in Hx. apply Hmem1 in Hx1. set_solver.
    + intros x. rewrite elem_of_app, Hmem, Hmem1. split.
      * intros [[Hy Hs]|[Hs (g1 & o1 & Hin & Hy)]].
        -- split; [assumption|]. exists g, out. split; [left|assumption].
        -- split; [set_solver|]. exists g1, o1. split; [right; assumption|assumption].
      * intros (Hs & g1 & o1 & Hin & Hy).
        destruct (decide (x ∈ yielded g)) as [Hyg|Hnyg]; [left; split; assumption|].
        right. split; [set_solver|].
        apply elem_of_cons in Hin as [Heq|Hin]; [simplify_eq; contradiction|].
        exists g1, o1. split; assumption.
    + constructor; [|assumption]. exists w. simpl. rewrite Hf. reflexivity.
    + intros g1 o1 Hin x Hx.
      apply elem_of_cons in Hin as [Heq|Hin]; [simplify_eq; apply Hmem in Hx; tauto|].
      eapply Hsub1; eassumption.
Qed.

(** C9, as the claim states it, fails in its last part: a generator that
    yields one address and then raises has failed, and [fetch_all] has
    yielded that address all the same; likewise
    [fetch_proxylistdownload], whose second request times out, prints its
    failure line and still contributes the two addresses of the first
    response. *)
Lemma C9_counterexample :
  let failing := Scenario.const_gen (mkRun ["10.0.0.5:8080"] (Some Timeout)) in
  let w0 := Scenario.fresh Scenario.net_download [] in
  ending (fst (failing w0)) = Some Timeout
  /\ fst (fetch_all [("Geonode", failing)] w0) = ["10.0.0.5:8080"]
  /\ stdout (snd (fetch_all [("Geonode", failing)] w0)) = [HandlingFailed "Geonode" Timeout]
  /\ fst (fetch_all [("ProxyListDownload", fetch_proxylistdownload 15)] w0)
     = ["10.0.0.5:8080"; "10.0.0.6:3128"]
  /\ stdout (snd (fetch_all [("ProxyListDownload", fetch_proxylistdownload 15)] w0))
     = [FetchFailed "ProxyListDownload" Timeout; GotProxies "ProxyListDownload" 2].
Proof. vm_compute. repeat split. Qed.

(** C9, amended: the sequence [fetch_all] yields holds no string twice,
    and holds exactly the strings that some source's generator yielded, so
    a string emitted by several sources, or several times, is there once;
    every source is iterated, whether or not an earlier one failed; and what
    is yielded while a source is iterated was yielded by that source before
    it failed or ended, hence nothing when it failed before its first
    value. *)
Theorem C9_fetch_all_unique (sources : list (string * generator)) (w : world) :
  let trace := fst (fetch_from sources ∅ w) in
  let merged := fst (fetch_all sources w) in
  merged = concat (map snd trace)
  /\ NoDup merged
  /\ (forall x, x ∈ merged <-> exists g o, (g, o) ∈ trace /\ x ∈ yielded g)
  /\ Forall2 (fun src entry => exists wi, fst (snd src wi) = fst entry) sources trace
  /\ (forall g o, (g, o) ∈ trace ->
        (forall x, x ∈ o -> x ∈ yielded g) /\ (yielded g = [] -> o = [])).
Proof.
  unfold fetch_all.
  destruct (fetch_from sources ∅ w) as [trace w'] eqn:H. simpl.
  destruct (fetch_from_spec _ _ _ _ _ H) as (Hnd & Hmem & Hall & Hsub).
  split; [reflexivity|]. split; [assumption|]. split; [|split; [assumption|]].
  - intros x. rewrite Hmem. set_solver.
  - intros g o Hin. split; [apply Hsub; assumption|].
    intros Hy. destruct o as [|x o]; [reflexivity|].
    assert (x ∈ yielded g) as Hx by (eapply Hsub; [eassumption|left]).
    rewrite Hy in Hx. inversion Hx.
Qed.

(** Two sources that both emit the same address, one of them twice:
    the merged sequence holds it once. *)
Example same_address_once :
  fst (fetch_all
         [ ("TheSpeedX", Scenario.const_gen (mkRun ["10.0.0.5:8080"; "10.0.0.5:8080"] None));
           ("Geonode", Scenario.const_gen (mkRun ["10.0.0.5:8080"] None)) ]
         (Scenario.fresh Scenario.net_download []))
  = ["10.0.0.5:8080"].
Proof. vm_compute. reflexivity. Qed.

(** A source that fails before its first value contributes nothing and the
    source after it is still iterated. *)
Example failing_source_skipped :
  fst (fetch_all
         [ ("TheSpeedX", Scenario.const_gen (mkRun [] (Some ConnectionError)));
           ("Geonode", Scenario.const_gen (mkRun ["10.0.0.5:8080"] None)) ]
         (Scenario.fresh Scenario.net_download []))
  = ["10.0.0.5:8080"].
Proof. vm_compute. reflexivity. Qed.

(** * Further properties of the checker *)

(** ** What a probe sends *)

Lemma probe_effect (self : t) (p : Proxy) (real_ip : option string) (w : world) :
  exists (b : bool) (o : option string) (r : reason) (w' : world),
    _check_anonymous self p real_ip w = (Ok (p, b, o, r), w')
    /\ log w' = log w ++ probe_requests self p r
    /\ anonymous_proxy w' = anonymous_proxy w
    /\ stored w' = stored w
    /\ net w' = net w.
Proof.
  pose proof (origin_probe_sends self p w) as Hs.
  destruct (origin_probe self (proxy p) w) as [[origin|e] w1] eqn:Ho; simpl in Hs; subst w1.
  - rewrite (check_on_origin _ _ _ _ _ _ Ho), classify_cases.
    destruct (guarded_header_probe self p real_ip
                (with_log w (log w ++ [stage1_request self p]))) as [leak Hl].
    rewrite Hl.
    repeat case_match; eexists _, _, _, _; (split; [reflexivity|]);
      simpl; rewrite <- ?app_assoc; repeat split.
  - rewrite (check_on_failure _ _ _ _ _ _ Ho).
    eexists _, _, _, _; (split; [reflexivity|]).
    destruct e; repeat split.
Qed.

(** X1: A probe always returns a tuple for the proxy it was given; it has sent
    the origin request through that proxy, followed by the header request
    exactly when its reason is the high-anonymity one or names a header;
    it has sent nothing else and has not touched the store or the anonymous
    table. *)
Theorem probe_footprint (self : t) (p : Proxy) (real_ip : option string) (w : world) :
  exists (b : bool) (o : option string) (r : reason) (w' : world),
    _check_anonymous self p real_ip w = (Ok (p, b, o, r), w')
    /\ log w' = log w ++ probe_requests self p r
    /\ anonymous_proxy w' = anonymous_proxy w
    /\ stored w' = stored w
    /\ net w' = net w.
Proof. apply probe_effect. Qed.

(** ** A stage-1 answer without the origin field *)

(** X2: When the answer of step 1 is a JSON object that has no [origin] key,
    the probe does not fail: it takes the origin to be the empty string,
    goes on to the header request and returns that empty origin, anonymous
    with the high-anonymity reason or not anonymous with the name of a
    header.  Whatever counters [c] the loop of [run] holds when this future
    completes and whatever futures [rest] are still to come, the loop ends
    with the counters of [c] plus those the remaining futures earn on their
    own plus exactly one anonymous or one transparent proxy and no failure,
    and the proxy is written to the anonymous table exactly when it is
    anonymous.  In particular a run with the identity already resolved over
    a store that holds this proxy alone returns one anonymous or one
    transparent proxy and no failed one. *)
Theorem missing_origin_is_not_a_failure (self : t) (p : Proxy) (real_ip : option string)
        (w : world) (r1 : response) (kv : list (string * json)) :
  net w (log w) (stage1_request self p) = Responds r1 ->
  status_ok r1 = true ->
  json_body r1 = Some (JObj kv) ->
  assoc "origin" kv = None ->
  exists (b : bool) (r : reason) (w' : world),
    _check_anonymous self p real_ip w = (Ok (p, b, Some "", r), w')
    /\ ((b = true /\ r = HighAnonymous)
        \/ (b = false /\ exists header, r = HeaderExposed header))
    /\ log w' = log w ++ [stage1_request self p; stage2_request self p]
    /\ anonymous_proxy w' = anonymous_proxy w
    /\ (forall (rest : list Proxy) (c : counters),
          exists (cr : counters) (wr : world),
            as_completed self real_ip rest (mkCounters 0 0 0)
              (if b then snd (putAnonymous p w') else w') = (Ok cr, wr)
            /\ as_completed self real_ip (p :: rest) c w
               = (Ok (mkCounters
                        (anonymous c + (if b then 1 else 0) + anonymous cr)
                        (transparent c + (if b then 0 else 1) + transparent cr)
                        (failed c + failed cr)), wr))
    /\ (forall (completion : list Proxy -> list Proxy),
          (forall l, Permutation (completion l) l) ->
          stored w = [p] ->
          (0 < max_workers self)%Z ->
          known (_real_ip self) = true ->
          real_ip = _real_ip self ->
          run completion self w
          = (Ok (mkCounters (if b then 1 else 0) (if b then 0 else 1) 0, self),
             if b then snd (putAnonymous p w') else w')).
Proof.
  intros Hn Hs Hj Ha.
  assert (origin_probe self (proxy p) w
          = (Ok "", with_log w (log w ++ [stage1_request self p]))) as Ho.
  { apply (origin_probe_parsed self p w r1 kv ""); try assumption.
    - unfold status_ok in Hs. apply negb_true_iff in Hs. exact Hs.
    - rewrite Ha. reflexivity. }
  set (w1 := with_log w (log w ++ [stage1_request self p])) in *.
  destruct (guarded_header_probe self p real_ip w1) as [leak Hl].
  assert (known real_ip && real_ip_in real_ip (map Py.strip (Py.split "," "")) = false) as H1.
  { destruct real_ip as [ip|]; [|reflexivity]. simpl.
    unfold Py.in_list. simpl. rewrite orb_false_r.
    destruct ip; reflexivity || (simpl; apply andb_false_r). }
  assert (_check_anonymous self p real_ip w
          = (Ok (p, match leak with Some _ => false | None => true end, Some "",
                 match leak with Some h => HeaderExposed h | None => HighAnonymous end),
             with_log w1 (log w1 ++ [stage2_request self p]))) as Hc.
  { rewrite (check_on_origin _ _ _ _ _ _ Ho), classify_cases, H1. simpl. rewrite Hl.
    destruct leak; reflexivity. }
  eexists _, _, _. split; [exact Hc|].
  split; [destruct leak; [right|left]; eauto|].
  split; [simpl; rewrite <- app_assoc; reflexivity|].
  split; [reflexivity|]. split.
  - intros rest c.
    destruct (as_completed_after self real_ip p rest c _ _ _ Hc) as (cr & wr & He & Hloop).
    exists cr, wr. rewrite Hloop.
    destruct leak; simpl in He |- *; (split; [exact He|]);
      unfold add_counters; simpl; do 3 f_equal; lia.
  - intros completion Hp Hst Hm Hk ->.
    rewrite (run_single completion self p w _ _ Hp Hst Hm Hk Hc).
    destruct leak; reflexivity.
Qed.

Lemma missing_origin_witness :
  let self := set_real_ip Scenario.self0 (Some Scenario.identity) in
  let w := Scenario.fresh (Scenario.oracle (Scenario.origin_reply Scenario.identity)
                             (fun _ => Scenario.reply (JObj [("ip", JStr "10.0.0.5")]))
                             (fun _ => Scenario.headers_reply Scenario.clean_headers))
             [Scenario.p5] in
  let w' := with_log w [stage1_request self Scenario.p5; stage2_request self Scenario.p5] in
  _check_anonymous self Scenario.p5 (Some Scenario.identity) w
  = (Ok (Scenario.p5, true, Some "", HighAnonymous), w')
  /\ run (fun l => l) self w = (Ok (mkCounters 1 0 0, self), snd (putAnonymous Scenario.p5 w'))
  /\ anonymous_proxy (snd (run (fun l => l) self w)) = [Scenario.p5].
Proof.
  intros self w w'.
  destruct (missing_origin_is_not_a_failure self Scenario.p5 (Some Scenario.identity)
              w (mkResponse 200 "" (Some (JObj [("ip", JStr "10.0.0.5")])))
              [("ip", JStr "10.0.0.5")])
    as (b & r & w2 & Hc & _ & _ & _ & _ & Hrun);
    try reflexivity.
  assert (b = true /\ r = HighAnonymous /\ w2 = w') as (-> & -> & ->).
  { vm_compute in Hc. inversion Hc. repeat split. }
  split; [exact Hc|].
  assert (run (fun l => l) self w = (Ok (mkCounters 1 0 0, self), snd (putAnonymous Scenario.p5 w')))
    as Hr by (apply Hrun; first [reflexivity | discriminate | intros l; apply Permutation_refl]).
  split; [exact Hr|]. rewrite Hr. reflexivity.
Defined.

(** ** The header scan of step 2 *)

Lemma contains_in_empty (x : string) : x <> "" -> Py.contains x "" = false.
Proof. destruct x; [contradiction|reflexivity]. Qed.

Lemma assoc_all_text (kv : list (string * json)) (h : string) (v : json) :
  all_text kv = true -> assoc h kv = Some v -> exists s, v = JStr s.
Proof.
  induction kv as [|[k v'] kv IH]; simpl; [discriminate|].
  intros Hall. apply andb_true_iff in Hall as [Hv Hall].
  destruct (String.eqb k h).
  - intros H; simplify_eq. destruct v; try discriminate. eauto.
  - apply IH. assumption.
Qed.

(** The test on one header, for a known real IP. *)
Lemma header_leaks_harmless (ip : string) (v : json) (w : world) :
  ip <> "" -> harmless ip v = true -> header_leaks v (Some ip) w = (Ok false, w).
Proof.
  intros Hip Hv. unfold header_leaks.
  apply String.eqb_neq in Hip. rewrite Hip. simpl.
  destruct v as [|b|n|s|l|kv]; simpl in *.
  - reflexivity.
  - apply negb_true_iff in Hv. rewrite Hv. reflexivity.
  - apply negb_true_iff in Hv. rewrite Hv. reflexivity.
  - destruct (String.eqb s ""); [reflexivity|]. simpl. unfold ret.
    apply negb_true_iff in Hv. rewrite Hv. reflexivity.
  - destruct l; [reflexivity|]. unfold ret. apply negb_true_iff in Hv. rewrite Hv. reflexivity.
  - destruct kv; [reflexivity|]. unfold ret. apply negb_true_iff in Hv. rewrite Hv. reflexivity.
Qed.

Lemma header_leaks_text (ip s : string) (w : world) :
  ip <> "" -> header_leaks (JStr s) (Some ip) w = (Ok (Py.contains ip s), w).
Proof.
  intros Hip. unfold header_leaks. simpl.
  destruct (String.eqb s "") eqn:Hs; simpl.
  - apply String.eqb_eq in Hs. subst s. rewrite (contains_in_empty _ Hip). reflexivity.
  - apply String.eqb_neq in Hip. rewrite Hip. reflexivity.
Qed.

Lemma header_leaks_not_iterable (ip : string) (v : json) (w : world) :
  ip <> "" -> not_iterable v = true -> header_leaks v (Some ip) w = (Raise TypeError, w).
Proof.
  intros Hip Hv. unfold header_leaks. apply String.eqb_neq in Hip. rewrite Hip.
  destruct v; simpl in *; try discriminate; rewrite Hv; reflexivity.
Qed.

(** On a dict of strings the scan returns the first listed header whose
    text holds the real IP. *)
Lemma scan_headers_text (kv : list (string * json)) (ip : string) (hs : list string)
      (w : world) :
  ip <> "" -> all_text kv = true ->
  scan_headers (JObj kv) (Some ip) hs w
  = (Ok (List.find (fun h => Py.contains ip (header_text kv h)) hs), w).
Proof.
  intros Hip Hall. induction hs as [|h hs IH]; simpl; [reflexivity|].
  unfold bind at 1. simpl. unfold ret at 1. unfold bind at 1.
  unfold header_text at 1.
  destruct (assoc h kv) as [v|] eqn:Ha.
  - destruct (assoc_all_text _ _ _ Hall Ha) as [s ->].
    rewrite (header_leaks_text _ _ _ Hip).
    destruct (Py.contains ip s); [reflexivity|apply IH].
  - rewrite (header_leaks_text _ _ _ Hip), (contains_in_empty _ Hip). apply IH.
Qed.

(** Headers that are not keys of the dict never leak. *)
Lemma scan_headers_absent (kv : list (string * json)) (real_ip : option string)
      (hs : list string) (w : world) :
  (forall h, In h hs -> assoc h kv = None) ->
  scan_headers (JObj kv) real_ip hs w = (Ok None, w).
Proof.
  induction hs as [|h hs IH]; intros Hab; simpl; [reflexivity|].
  unfold bind at 1. simpl. rewrite (Hab h (or_introl eq_refl)).
  unfold ret at 1. unfold bind at 1.
  change (header_leaks (JStr "") real_ip w) with (@ret bool false w).
  unfold ret at 1.
  apply IH. intros h' Hin. apply Hab. right. assumption.
Qed.

(** A true value that is not a container stops the scan with an
    exception, whatever follows. *)
Lemma scan_headers_not_iterable (kv : list (string * json)) (ip : string)
      (pre post : list string) (h : string) (w : world) :
  ip <> "" ->
  forallb (fun h' => harmless ip (get_or kv h' (JStr ""))) pre = true ->
  not_iterable (get_or kv h (JStr "")) = true ->
  scan_headers (JObj kv) (Some ip) (pre ++ h :: post) w = (Raise TypeError, w).
Proof.
  intros Hip Hpre Hh. induction pre as [|h' pre IH]; simpl in *.
  - unfold bind at 1. simpl. unfold ret at 1. unfold bind at 1.
    fold (get_or kv h (JStr "")).
    rewrite (header_leaks_not_iterable _ _ _ Hip Hh). reflexivity.
  - apply andb_true_iff in Hpre as [Hh' Hpre].
    unfold bind at 1. simpl. unfold ret at 1. unfold bind at 1.
    fold (get_or kv h' (JStr "")).
    rewrite (header_leaks_harmless _ _ _ Hip Hh'). apply IH. assumption.
Qed.

(** Step 2 when the header answer parses: the scan runs on the value
    under [headers], an empty dict when the key is absent. *)
Lemma header_probe_parsed (self : t) (p : Proxy) (real_ip : option string)
      (w : world) (r : response) (top : list (string * json)) :
  net w (log w) (stage2_request self p) = Responds r ->
  status_ok r = true ->
  json_body r = Some (JObj top) ->
  header_probe self (proxy p) real_ip w
  = scan_headers (get_or top "headers" (JObj [])) real_ip PROXY_HEADERS
      (with_log w (log w ++ [stage2_request self p])).
Proof.
  intros Hn Hs Hj. unfold header_probe. unfold bind at 1. unfold requests_get.
  fold (stage2_request self p). rewrite Hn.
  unfold status_ok in Hs. apply negb_true_iff in Hs.
  unfold bind at 1. unfold raise_for_status. rewrite Hs. unfold ret at 1.
  unfold bind at 1. unfold resp_json. rewrite Hj. unfold ret at 1.
  unfold bind at 1. simpl. unfold ret at 1. reflexivity.
Qed.

(** The verdict of a probe that reaches step 2 with a parsed header
    answer, in terms of what the scan returns. *)
Lemma verdict_of_scan (self : t) (p : Proxy) (real_ip : option string)
      (w w1 : world) (origin : string) (r2 : response) (top : list (string * json))
      (res : result (option string)) :
  origin_probe self (proxy p) w = (Ok origin, w1) ->
  length (map Py.strip (Py.split "," origin)) = 1%nat ->
  known real_ip && real_ip_in real_ip (map Py.strip (Py.split "," origin)) = false ->
  net w1 (log w1) (stage2_request self p) = Responds r2 ->
  status_ok r2 = true ->
  json_body r2 = Some (JObj top) ->
  fst (scan_headers (get_or top "headers" (JObj [])) real_ip PROXY_HEADERS
         (with_log w1 (log w1 ++ [stage2_request self p]))) = res ->
  fst (_check_anonymous self p real_ip w)
  = Ok (match res with
        | Ok (Some header) => (p, false, Some origin, HeaderExposed header)
        | _ => (p, true, Some origin, HighAnonymous)
        end).
Proof.
  intros Ho Hlen H1 Hn Hs Hj Hres.
  rewrite (check_on_origin _ _ _ _ _ _ Ho), classify_cases, H1, Hlen. simpl.
  unfold try_except. rewrite (header_probe_parsed _ _ _ _ _ _ Hn Hs Hj).
  destruct (scan_headers _ _ _ _) as [[[h|]|e] w2]; simpl in Hres; subst res; reflexivity.
Qed.

(** X3: When the header answer is a dict of strings and the real IP is
    known, a probe that reached step 2 returns not anonymous with the first
    name of [PROXY_HEADERS], in the order of that list, whose text holds the
    real IP, and anonymous when there is none. *)
Theorem first_listed_leak_is_reported (self : t) (p : Proxy) (ip : string)
        (w w1 : world) (origin : string) (r2 : response)
        (top kv : list (string * json)) :
  ip <> "" ->
  origin_probe self (proxy p) w = (Ok origin, w1) ->
  length (map Py.strip (Py.split "," origin)) = 1%nat ->
  Py.in_list ip (map Py.strip (Py.split "," origin)) = false ->
  net w1 (log w1) (stage2_request self p) = Responds r2 ->
  status_ok r2 = true ->
  json_body r2 = Some (JObj top) ->
  get_or top "headers" (JObj []) = JObj kv ->
  all_text kv = true ->
  fst (_check_anonymous self p (Some ip) w)
  = Ok (match List.find (fun h => Py.contains ip (header_text kv h)) PROXY_HEADERS with
        | Some header => (p, false, Some origin, HeaderExposed header)
        | None => (p, true, Some origin, HighAnonymous)
        end).
Proof.
  intros Hip Ho Hlen Hin Hn Hs Hj Hh Hall.
  rewrite (verdict_of_scan self p (Some ip) w w1 origin r2 top _ Ho Hlen
             ltac:(simpl; rewrite Hin; apply andb_false_r) Hn Hs Hj eq_refl).
  rewrite Hh, (scan_headers_text _ _ _ _ Hip Hall). simpl.
  destruct (List.find (fun h => Py.contains ip (header_text kv h)) PROXY_HEADERS);
    reflexivity.
Qed.

Lemma first_listed_leak_witness :
  fst (_check_anonymous Scenario.self0 Scenario.p5 (Some Scenario.identity)
         (Scenario.fresh Fixtures.net_leak []))
  = Ok (Scenario.p5, false, Some "10.0.0.5", HeaderExposed "X-Real-Ip").
Proof.
  apply (first_listed_leak_is_reported Scenario.self0 Scenario.p5 Scenario.identity
           (Scenario.fresh Fixtures.net_leak [])
           (snd (origin_probe Scenario.self0 (proxy Scenario.p5)
                   (Scenario.fresh Fixtures.net_leak [])))
           "10.0.0.5"
           (mkResponse 200 "" (Some (JObj [("headers", JObj Fixtures.leaking_headers)])))
           [("headers", JObj Fixtures.leaking_headers)]
           Fixtures.leaking_headers);
    try reflexivity.
  discriminate.
Defined.

(** X4: When none of the ten names of [PROXY_HEADERS] is a key of the header
    dict, a probe that reached step 2 returns anonymous whatever the dict
    holds under other names: a name in another case, or a name that is not
    listed, is not looked at. *)
Theorem unlisted_headers_are_ignored (self : t) (p : Proxy) (real_ip : option string)
        (w w1 : world) (origin : string) (r2 : response)
        (top kv : list (string * json)) :
  origin_probe self (proxy p) w = (Ok origin, w1) ->
  length (map Py.strip (Py.split "," origin)) = 1%nat ->
  known real_ip && real_ip_in real_ip (map Py.strip (Py.split "," origin)) = false ->
  net w1 (log w1) (stage2_request self p) = Responds r2 ->
  status_ok r2 = true ->
  json_body r2 = Some (JObj top) ->
  get_or top "headers" (JObj []) = JObj kv ->
  (forall h, In h PROXY_HEADERS -> assoc h kv = None) ->
  fst (_check_anonymous self p real_ip w) = Ok (p, true, Some origin, HighAnonymous).
Proof.
  intros Ho Hlen H1 Hn Hs Hj Hh Hab.
  rewrite (verdict_of_scan self p real_ip w w1 origin r2 top _ Ho Hlen H1 Hn Hs Hj eq_refl).
  rewrite Hh, (scan_headers_absent _ _ _ _ Hab). reflexivity.
Qed.

Lemma unlisted_headers_witness :
  Py.contains Scenario.identity (header_text Fixtures.unlisted_headers "x-forwarded-for") = true
  /\ fst (_check_anonymous Scenario.self0 Scenario.p5 (Some Scenario.identity)
            (Scenario.fresh Fixtures.net_unlisted []))
     = Ok (Scenario.p5, true, Some "10.0.0.5", HighAnonymous).
Proof.
  split; [reflexivity|].
  apply (unlisted_headers_are_ignored Scenario.self0 Scenario.p5 (Some Scenario.identity)
           (Scenario.fresh Fixtures.net_unlisted [])
           (snd (origin_probe Scenario.self0 (proxy Scenario.p5)
                   (Scenario.fresh Fixtures.net_unlisted [])))
           "10.0.0.5"
           (mkResponse 200 "" (Some (JObj [("headers", JObj Fixtures.unlisted_headers)])))
           [("headers", JObj Fixtures.unlisted_headers)]
           Fixtures.unlisted_headers);
    try reflexivity.
  intros h Hin. simpl in Hin.
  repeat (destruct Hin as [<-|Hin]; [reflexivity|]). destruct Hin.
Defined.

(** X5: When a listed header holds a number other than zero or [true], and
    the listed headers before it are harmless, the membership test raises,
    the inner handler swallows the exception, and the probe returns
    anonymous: the listed headers after it are not looked at, even if one
    of them holds the real IP. *)
Theorem non_text_header_masks_later_leak (self : t) (p : Proxy) (ip : string)
        (w w1 : world) (origin : string) (r2 : response)
        (top kv : list (string * json)) (pre post : list string) (h : string) :
  ip <> "" ->
  origin_probe self (proxy p) w = (Ok origin, w1) ->
  length (map Py.strip (Py.split "," origin)) = 1%nat ->
  Py.in_list ip (map Py.strip (Py.split "," origin)) = false ->
  net w1 (log w1) (stage2_request self p) = Responds r2 ->
  status_ok r2 = true ->
  json_body r2 = Some (JObj top) ->
  get_or top "headers" (JObj []) = JObj kv ->
  PROXY_HEADERS = pre ++ h :: post ->
  forallb (fun h' => harmless ip (get_or kv h' (JStr ""))) pre = true ->
  not_iterable (get_or kv h (JStr "")) = true ->
  fst (_check_anonymous self p (Some ip) w) = Ok (p, true, Some origin, HighAnonymous).
Proof.
  intros Hip Ho Hlen Hin Hn Hs Hj Hh Hsplit Hpre Hni.
  rewrite (verdict_of_scan self p (Some ip) w w1 origin r2 top _ Ho Hlen
             ltac:(simpl; rewrite Hin; apply andb_false_r) Hn Hs Hj eq_refl).
  rewrite Hh, Hsplit, (scan_headers_not_iterable _ _ _ _ _ _ Hip Hpre Hni). reflexivity.
Qed.

Lemma non_text_header_witness :
  Py.contains Scenario.identity (header_text Fixtures.masked_headers "Via") = true
  /\ fst (_check_anonymous Scenario.self0 Scenario.p5 (Some Scenario.identity)
            (Scenario.fresh Fixtures.net_masked []))
     = Ok (Scenario.p5, true, Some "10.0.0.5", HighAnonymous).
Proof.
  split; [reflexivity|].
  apply (non_text_header_masks_later_leak Scenario.self0 Scenario.p5 Scenario.identity
           (Scenario.fresh Fixtures.net_masked [])
           (snd (origin_probe Scenario.self0 (proxy Scenario.p5)
                   (Scenario.fresh Fixtures.net_masked [])))
           "10.0.0.5"
           (mkResponse 200 "" (Some (JObj [("headers", JObj Fixtures.masked_headers)])))
           [("headers", JObj Fixtures.masked_headers)]
           Fixtures.masked_headers
           [] (tl PROXY_HEADERS) "X-Forwarded-For");
    try reflexivity.
  discriminate.
Defined.

(** ** Probes do not depend on each other *)

Lemma world_free_ret {A} (a : A) : world_free (ret a).
Proof. intros w w'. reflexivity. Qed.

Lemma world_free_raise {A} (e : exn) : world_free (@raise A e).
Proof. intros w w'. reflexivity. Qed.

Lemma world_free_bind {A B} (m : M A) (k : A -> M B) :
  world_free m -> (forall a, world_free (k a)) -> world_free (bind m k).
Proof.
  intros Hm Hk w w'. unfold bind. specialize (Hm w w').
  destruct (m w) as [[a|e] w1], (m w') as [[a'|e'] w1']; simpl in Hm; simplify_eq;
    [apply Hk|reflexivity].
Qed.

Lemma world_free_raise_for_status (r : response) : world_free (raise_for_status r).
Proof. unfold raise_for_status. case_match; [apply world_free_raise|apply world_free_ret]. Qed.

Lemma world_free_resp_json (r : response) : world_free (resp_json r).
Proof. unfold resp_json. case_match; [apply world_free_ret|apply world_free_raise]. Qed.

Lemma world_free_py_get (d : json) (k : string) (dflt : json) : world_free (py_get d k dflt).
Proof. destruct d; simpl; first [apply world_free_ret|apply world_free_raise]. Qed.

Lemma world_free_as_str (v : json) : world_free (as_str v).
Proof. destruct v; simpl; first [apply world_free_ret|apply world_free_raise]. Qed.

Lemma world_free_py_in (x : string) (v : json) : world_free (py_in x v).
Proof. destruct v; simpl; first [apply world_free_ret|apply world_free_raise]. Qed.

Lemma world_free_header_leaks (v : json) (real_ip : option string) :
  world_free (header_leaks v real_ip).
Proof.
  unfold header_leaks.
  repeat case_match; first [apply world_free_ret|apply world_free_py_in].
Qed.

Lemma world_free_scan_headers (rh : json) (real_ip : option string) (hs : list string) :
  world_free (scan_headers rh real_ip hs).
Proof.
  induction hs as [|h hs IH]; simpl; [apply world_free_ret|].
  apply world_free_bind; [apply world_free_py_get|intros v].
  apply world_free_bind; [apply world_free_header_leaks|intros [|]];
    [apply world_free_ret|apply IH].
Qed.

(** A request followed by world-free steps gives the same result in two
    worlds that share a history-free oracle. *)
Lemma get_history_free {A} (rq : request) (k : response -> M A) (w w' : world) :
  history_free (net w) -> net w' = net w ->
  (forall r, world_free (k r)) ->
  fst (bind (requests_get rq) k w) = fst (bind (requests_get rq) k w').
Proof.
  intros Hf Hn Hk. unfold bind, requests_get. rewrite Hn, (Hf (log w') (log w) rq).
  destruct (net w (log w) rq) as [e|r]; [reflexivity|apply Hk].
Qed.

Lemma origin_probe_history_free (self : t) (p : Proxy) (w w' : world) :
  history_free (net w) -> net w' = net w ->
  fst (origin_probe self (proxy p) w) = fst (origin_probe self (proxy p) w').
Proof.
  intros Hf Hn. unfold origin_probe. apply get_history_free; try assumption.
  intros r.
  do 3 (apply world_free_bind;
        [auto using world_free_raise_for_status, world_free_resp_json,
                    world_free_py_get|intros ?]).
  apply world_free_as_str.
Qed.

Lemma header_probe_history_free (self : t) (p : Proxy) (real_ip : option string)
      (w w' : world) :
  history_free (net w) -> net w' = net w ->
  fst (header_probe self (proxy p) real_ip w) = fst (header_probe self (proxy p) real_ip w').
Proof.
  intros Hf Hn. unfold header_probe. apply get_history_free; try assumption.
  intros r.
  do 3 (apply world_free_bind;
        [auto using world_free_raise_for_status, world_free_resp_json,
                    world_free_py_get|intros ?]).
  apply world_free_scan_headers.
Qed.

(** With a history-free oracle the tuple a probe returns is the same in
    every world that has this oracle. *)
Lemma probe_history_free (self : t) (p : Proxy) (real_ip : option string) (w w' : world) :
  history_free (net w) -> net w' = net w ->
  fst (_check_anonymous self p real_ip w) = fst (_check_anonymous self p real_ip w').
Proof.
  intros Hf Hn.
  pose proof (origin_probe_history_free self p w w' Hf Hn) as Ho.
  pose proof (origin_probe_sends self p w) as Hs.
  pose proof (origin_probe_sends self p w') as Hs'.
  destruct (origin_probe self (proxy p) w) as [[origin|e] w1] eqn:E;
    destruct (origin_probe self (proxy p) w') as [[origin'|e'] w1'] eqn:E';
    simpl in Ho, Hs, Hs'; simplify_eq.
  - rewrite (check_on_origin _ _ _ _ _ _ E), (check_on_origin _ _ _ _ _ _ E').
    rewrite !classify_cases.
    destruct (known real_ip && _); [reflexivity|].
    destruct (negb _); [reflexivity|].
    unfold try_except.
    pose proof (header_probe_history_free self p real_ip
                  (with_log w (log w ++ [stage1_request self p]))
                  (with_log w' (log w' ++ [stage1_request self p])) Hf Hn) as Hh.
    destruct (header_probe self (proxy p) real_ip (with_log w _)) as [[[h|]|eh] w2];
      destruct (header_probe self (proxy p) real_ip (with_log w' _)) as [[[h'|]|eh'] w2'];
      simpl in Hh; simplify_eq; reflexivity.
  - rewrite (check_on_failure _ _ _ _ _ _ E), (check_on_failure _ _ _ _ _ _ E').
    reflexivity.
Qed.

Lemma record_result_net (v : verdict) (w : world) : net (record_result v w) = net w.
Proof. destruct v as [[[q b] [o|]] r]; simpl; [destruct b|]; reflexivity. Qed.

Lemma count_result_comm (v1 v2 : verdict) (c : counters) :
  count_result v1 (count_result v2 c) = count_result v2 (count_result v1 c).
Proof.
  destruct v1 as [[[q1 b1] [o1|]] r1], v2 as [[[q2 b2] [o2|]] r2];
    try destruct b1; try destruct b2; reflexivity.
Qed.

(** The loop of [run] over the same futures, in two worlds that share a
    history-free oracle, ends with the same counters. *)
Lemma as_completed_same_net (self : t) (real_ip : option string) (futures : list Proxy) :
  forall (c : counters) (w w' : world),
    history_free (net w) -> net w' = net w ->
    fst (as_completed self real_ip futures c w)
    = fst (as_completed self real_ip futures c w').
Proof.
  induction futures as [|p rest IH]; intros c w w' Hf Hn; [reflexivity|].
  destruct (probe_effect self p real_ip w) as (b & o & r & w1 & Hc & _ & _ & _ & Hn1).
  destruct (probe_effect self p real_ip w') as (b' & o' & r' & w1' & Hc' & _ & _ & _ & Hn1').
  pose proof (probe_history_free self p real_ip w w' Hf Hn) as Heq.
  rewrite Hc, Hc' in Heq. simpl in Heq. simplify_eq.
  rewrite (as_completed_cons _ _ _ _ _ _ _ _ Hc), (as_completed_cons _ _ _ _ _ _ _ _ Hc').
  apply IH; rewrite !record_result_net; [rewrite Hn1; exact Hf|congruence].
Qed.

(** With a history-free oracle the counters of the loop of [run] do not
    depend on the order in which the futures complete. *)
Lemma as_completed_permutation (self : t) (real_ip : option string)
      (n : list request -> request -> http_result) (l1 l2 : list Proxy) :
  history_free n -> Permutation l1 l2 ->
  forall (c : counters) (w w' : world),
    net w = n -> net w' = n ->
    fst (as_completed self real_ip l1 c w) = fst (as_completed self real_ip l2 c w').
Proof.
  intros Hf Hp. induction Hp as [|x l l' Hp IH|x y l|l l' l'' Hp1 IH1 Hp2 IH2];
    intros c w w' Hw Hw'.
  - reflexivity.
  - destruct (probe_effect self x real_ip w) as (b & o & r & w1 & Hc & _ & _ & _ & Hn1).
    destruct (probe_effect self x real_ip w') as (b' & o' & r' & w1' & Hc' & _ & _ & _ & Hn1').
    assert (history_free (net w)) as Hfw by (rewrite Hw; exact Hf).
    pose proof (probe_history_free self x real_ip w w' Hfw ltac:(congruence)) as Heq.
    rewrite Hc, Hc' in Heq. simpl in Heq. simplify_eq.
    rewrite (as_completed_cons _ _ _ _ _ _ _ _ Hc), (as_completed_cons _ _ _ _ _ _ _ _ Hc').
    apply IH; rewrite record_result_net; congruence.
  - (* y :: x :: l on the left, x :: y :: l on the right *)
    assert (history_free (net w)) as Hfw by (rewrite Hw; exact Hf).
    destruct (probe_effect self y real_ip w) as (by1 & oy1 & ry1 & wa & Hy1 & _ & _ & _ & Hna).
    set (wa' := record_result (y, by1, oy1, ry1) wa).
    destruct (probe_effect self x real_ip wa') as (bx1 & ox1 & rx1 & wb & Hx1 & _ & _ & _ & Hnb).
    destruct (probe_effect self x real_ip w') as (bx2 & ox2 & rx2 & wc & Hx2 & _ & _ & _ & Hnc).
    set (wc' := record_result (x, bx2, ox2, rx2) wc).
    destruct (probe_effect self y real_ip wc') as (by2 & oy2 & ry2 & wd & Hy2 & _ & _ & _ & Hnd).
    assert (net wa' = net w) as Hnwa by (subst wa'; rewrite record_result_net; congruence).
    assert (net wc' = net w) as Hnwc by (subst wc'; rewrite record_result_net; congruence).
    pose proof (probe_history_free self y real_ip w wc' Hfw Hnwc) as Ey.
    rewrite Hy1, Hy2 in Ey. simpl in Ey.
    pose proof (probe_history_free self x real_ip w wa' Hfw Hnwa) as Ex1.
    pose proof (probe_history_free self x real_ip w w' Hfw ltac:(congruence)) as Ex2.
    rewrite Hx1 in Ex1. rewrite Hx2 in Ex2. rewrite Ex1 in Ex2. simpl in Ex2.
    simplify_eq.
    rewrite (as_completed_cons _ _ _ _ _ _ _ _ Hy1).
    fold wa'. rewrite (as_completed_cons _ _ _ _ _ _ _ _ Hx1).
    rewrite (as_completed_cons _ _ _ _ _ _ _ _ Hx2).
    fold wc'. rewrite (as_completed_cons _ _ _ _ _ _ _ _ Hy2).
    rewrite count_result_comm.
    apply as_completed_same_net; rewrite !record_result_net;
      [rewrite Hnb, Hnwa; exact Hfw|congruence].
  - rewrite (IH1 c w w Hw Hw). apply IH2; assumption.
Qed.

(** [run] in terms of the resolver and of the loop. *)
Lemma run_unfold (completion : list Proxy -> list Proxy) (self : t) (w : world)
      (r : option string) (self' : t) (w1 : world) :
  _get_real_ip self w = (Ok (r, self'), w1) ->
  run completion self w
  = match stored w1 with
    | [] => (Ok (mkCounters 0 0 0, self'), w1)
    | _ :: _ =>
        if (max_workers self <=? 0)%Z then (Raise ValueError, w1)
        else
          match as_completed self' r (completion (stored w1)) (mkCounters 0 0 0) w1 with
          | (Ok c, w') => (Ok (c, self'), w')
          | (Raise e, w') => (Raise e, w')
          end
    end.
Proof.
  intros Hg. destruct (get_real_ip_fields _ _ _ _ _ Hg) as (Hm & _).
  unfold run. unfold bind at 1. rewrite Hg.
  unfold bind at 1. unfold getAll.
  destruct (stored w1); [reflexivity|]. rewrite Hm.
  destruct (max_workers self <=? 0)%Z; [reflexivity|]. unfold bind.
  destruct (as_completed _ _ _ _ _) as [[c|e] w']; reflexivity.
Qed.

(** X6: With an oracle whose answers do not depend on the requests sent
    before, what [run] returns does not depend on the order in which the
    pool completes the probes. *)
Theorem run_order_independent (completion1 completion2 : list Proxy -> list Proxy)
        (self : t) (w : world) :
  history_free (net w) ->
  (forall l, Permutation (completion1 l) l) ->
  (forall l, Permutation (completion2 l) l) ->
  fst (run completion1 self w) = fst (run completion2 self w).
Proof.
  intros Hf Hp1 Hp2.
  destruct (get_real_ip_world self w) as (r & self' & Hg).
  set (w1 := if known (_real_ip self) then w else _) in Hg.
  assert (net w1 = net w) as Hn1 by (subst w1; destruct (known _); reflexivity).
  rewrite (run_unfold completion1 _ _ _ _ _ Hg), (run_unfold completion2 _ _ _ _ _ Hg).
  destruct (stored w1) as [|q qs]; [reflexivity|].
  destruct (max_workers self <=? 0)%Z; [reflexivity|].
  destruct (as_completed_counts self' r (completion1 (q :: qs)) (mkCounters 0 0 0) w1)
    as (c1 & wa & ? & H1 & _).
  destruct (as_completed_counts self' r (completion2 (q :: qs)) (mkCounters 0 0 0) w1)
    as (c2 & wb & ? & H2 & _).
  assert (Permutation (completion1 (q :: qs)) (completion2 (q :: qs))) as Hp
    by (etransitivity; [apply Hp1|symmetry; apply Hp2]).
  pose proof (as_completed_permutation self' r (net w) _ _ Hf Hp
                (mkCounters 0 0 0) w1 w1 Hn1 Hn1) as Heq.
  rewrite H1, H2 in Heq |- *. simpl in Heq. simplify_eq. reflexivity.
Qed.

Lemma run_order_independent_witness :
  fst (run (fun l => l) Scenario.self0
         (Scenario.fresh Scenario.netA [Scenario.p5; Scenario.p6; Scenario.p7]))
  = fst (run (@rev Proxy) Scenario.self0
           (Scenario.fresh Scenario.netA [Scenario.p5; Scenario.p6; Scenario.p7])).
Proof.
  apply (run_order_independent (fun l => l) (@rev Proxy) Scenario.self0
           (Scenario.fresh Scenario.netA [Scenario.p5; Scenario.p6; Scenario.p7])).
  - intros h h' rq. reflexivity.
  - intros l. apply Permutation_refl.
  - intros l. apply Permutation_sym, Permutation_rev.
Defined.

(** ** The bookkeeping and the requests of a run *)




(** X7: With at least one worker [run] returns.  When the completion order
    rearranges the store, the three counters add up to the number of stored
    proxies, and the anonymous table has received as many writes as the
    [anonymous] counter says, each of them a stored proxy. *)
Theorem run_accounting (completion : list Proxy -> list Proxy) (self : t) (w : world) :
  (0 < max_workers self)%Z ->
  (forall l, Permutation (completion l) l) ->
  exists (c : counters) (self' : t) (w' : world) (writes : list Proxy),
    run completion self w = (Ok (c, self'), w')
    /\ (anonymous c + transparent c + failed c = length (stored w))%nat
    /\ anonymous_proxy w' = anonymous_proxy w ++ writes
    /\ length writes = anonymous c
    /\ (forall q, In q writes -> In q (stored w)).
Proof.
  intros Hm Hp.
  destruct (get_real_ip_world self w) as (r & self' & Hg).
  set (w1 := if known (_real_ip self) then w else _) in Hg.
  assert (stored w1 = stored w /\ anonymous_proxy w1 = anonymous_proxy w) as [Hst Han]
    by (subst w1; destruct (known _); split; reflexivity).
  rewrite (run_unfold completion _ _ _ _ _ Hg), Hst.
  destruct (stored w) as [|q qs] eqn:Hs.
  - exists (mkCounters 0 0 0), self', w1, []. rewrite app_nil_r.
    repeat split; try assumption. intros ? [].
  - destruct (Z.leb_spec (max_workers self) 0) as [Hz|_]; [lia|].
    destruct (as_completed_counts self' r (completion (q :: qs)) (mkCounters 0 0 0) w1)
      as (c' & w' & writes & He & Hsum & Hw & Ha & Hin).
    rewrite He. exists c', self', w', writes.
    split; [reflexivity|]. split; [|split; [|split]].
    + rewrite Hsum. simpl. rewrite (Permutation_length (Hp (q :: qs))). reflexivity.
    + rewrite Hw, Han. reflexivity.
    + simpl in Ha. lia.
    + intros x Hx. eapply Permutation_in; [apply Hp|]. apply Hin. assumption.
Qed.

Lemma run_accounting_witness :
  exists (c : counters) (self' : t) (w' : world) (writes : list Proxy),
    run (@rev Proxy) Scenario.self0
      (Scenario.fresh Scenario.netA [Scenario.p5; Scenario.p6])
    = (Ok (c, self'), w')
    /\ (anonymous c + transparent c + failed c = 2)%nat
    /\ anonymous_proxy w' = [] ++ writes
    /\ length writes = anonymous c
    /\ (forall q, In q writes -> In q [Scenario.p5; Scenario.p6]).
Proof.
  apply (run_accounting (@rev Proxy) Scenario.self0
           (Scenario.fresh Scenario.netA [Scenario.p5; Scenario.p6])).
  - reflexivity.
  - intros l. apply Permutation_sym, Permutation_rev.
Defined.





(** The run of scenario B over two proxies, completed in reverse order:
    one request for the proxy whose origin gives the real IP away at
    step 1, in the order of completion. *)
Example run_requests_in_completion_order :
  log (snd (run (@rev Proxy) Scenario.self0
              (Scenario.fresh Scenario.netB [Scenario.p5; Scenario.p6])))
  = [direct_request Scenario.self0;
     stage1_request Scenario.self0 Scenario.p6;
     stage1_request Scenario.self0 Scenario.p5].
Proof. reflexivity. Qed.

(** X25: Without a positive number of workers the pool cannot be built:
    over a store that is
    not empty [run] raises [ValueError] after the identity resolution and
    the reading of the store, before any probe is sent and with nothing
    written to the anonymous table. *)
Theorem run_without_workers (completion : list Proxy -> list Proxy) (self : t) (w : world) :
  (max_workers self <= 0)%Z ->
  stored w <> [] ->
  exists (w' : world),
    run completion self w = (Raise ValueError, w')
    /\ log w' = log w ++ (if known (_real_ip self) then [] else [direct_request self])
    /\ anonymous_proxy w' = anonymous_proxy w.
Proof.
  intros Hm Hs.
  destruct (get_real_ip_world self w) as (r & self' & Hg).
  set (w1 := if known (_real_ip self) then w else _) in Hg.
  assert (stored w1 = stored w /\ anonymous_proxy w1 = anonymous_proxy w) as [Hst Han]
    by (subst w1; destruct (known _); split; reflexivity).
  assert (log w1 = log w ++ (if known (_real_ip self) then [] else [direct_request self]))
    as Hl1 by (subst w1; destruct (known _); simpl; rewrite ?app_nil_r; reflexivity).
  rewrite (run_unfold completion _ _ _ _ _ Hg), Hst.
  destruct (stored w) as [|q qs]; [contradiction|].
  rewrite (proj2 (Z.leb_le _ _) Hm). exists w1. split; [reflexivity|]. split; assumption.
Qed.

Lemma run_without_workers_witness :
  exists (w' : world),
    run (fun l => l) (__init__ "http://httpbin.org/ip" 10 0)
      (Scenario.fresh Scenario.netA [Scenario.p5])
    = (Raise ValueError, w')
    /\ log w' = [] ++ (if known (_real_ip (__init__ "http://httpbin.org/ip" 10 0)) then []
                       else [direct_request (__init__ "http://httpbin.org/ip" 10 0)])
    /\ anonymous_proxy w' = [].
Proof.
  apply (run_without_workers (fun l => l) (__init__ "http://httpbin.org/ip" 10 0)
           (Scenario.fresh Scenario.netA [Scenario.p5])).
  - simpl; lia.
  - discriminate.
Defined.

(** ** Strings: [strip], [split], [replace] *)

Lemma rstrip_idempotent (s : string) : Py.rstrip (Py.rstrip s) = Py.rstrip s.
Proof.
  induction s as [|c s IH]; [reflexivity|]. simpl.
  destruct (Py.isspace c && (Py.rstrip s =? "")%string) eqn:E; [reflexivity|].
  simpl. rewrite IH, E. reflexivity.
Qed.

Lemma lstrip_head (s : string) :
  match Py.lstrip s with
  | EmptyString => True
  | String c _ => Py.isspace c = false
  end.
Proof.
  induction s as [|c s IH]; simpl; [exact I|].
  destruct (Py.isspace c) eqn:E; [exact IH|exact E].
Qed.

Lemma rstrip_keeps_head (s : string) :
  match s with
  | EmptyString => True
  | String c _ => Py.isspace c = false
  end ->
  Py.lstrip (Py.rstrip s) = Py.rstrip s.
Proof.
  destruct s as [|c s]; [reflexivity|]. intros Hc. simpl. rewrite Hc. simpl.
  rewrite Hc. reflexivity.
Qed.

(** Stripping a stripped string changes nothing. *)
Lemma strip_idempotent (s : string) : Py.strip (Py.strip s) = Py.strip s.
Proof.
  unfold Py.strip. rewrite (rstrip_keeps_head _ (lstrip_head s)).
  apply rstrip_idempotent.
Qed.

Lemma contains_char_cons (c a : ascii) (s : string) :
  Py.contains (String c "") (String a s)
  = Ascii.eqb c a || Py.contains (String c "") s.
Proof.
  simpl. destruct (ascii_dec c a) as [->|Hne].
  - rewrite Ascii.eqb_refl. destruct s; reflexivity.
  - apply Ascii.eqb_neq in Hne. rewrite Hne. reflexivity.
Qed.

(** No part of a split holds the separator. *)
Lemma split_parts_without_separator (c : ascii) (s x : string) :
  In x (Py.split c s) -> Py.contains (String c "") x = false.
Proof.
  revert x. induction s as [|a s IH]; intros x; simpl.
  - intros [<-|[]]. reflexivity.
  - destruct (Ascii.eqb a c) eqn:E.
    + intros [<-|Hin]; [reflexivity|apply IH; assumption].
    + pose proof (split_not_nil c s) as Hn.
      destruct (Py.split c s) as [|w ws]; [contradiction|].
      intros [<-|Hin].
      * rewrite contains_char_cons, (Ascii.eqb_sym c a), E. simpl.
        apply IH. left. reflexivity.
      * apply IH. right. assumption.
Qed.

Lemma lstrip_without (c : ascii) (s : string) :
  Py.contains (String c "") s = false -> Py.contains (String c "") (Py.lstrip s) = false.
Proof.
  induction s as [|a s IH]; [trivial|]. intros H. simpl Py.lstrip.
  destruct (Py.isspace a); [|exact H].
  rewrite contains_char_cons in H. apply orb_false_elim in H as [_ H]. apply IH, H.
Qed.

Lemma rstrip_without (c : ascii) (s : string) :
  Py.contains (String c "") s = false -> Py.contains (String c "") (Py.rstrip s) = false.
Proof.
  induction s as [|a s IH]; [trivial|]. intros H. simpl Py.rstrip.
  rewrite contains_char_cons in H. apply orb_false_elim in H as [Ha H].
  destruct (Py.isspace a && _); [reflexivity|].
  rewrite contains_char_cons, Ha. simpl. apply IH, H.
Qed.

Lemma strip_without (c : ascii) (s : string) :
  Py.contains (String c "") s = false -> Py.contains (String c "") (Py.strip s) = false.
Proof. intros H. unfold Py.strip. apply rstrip_without, lstrip_without, H. Qed.

(** Replacing a substring that does not occur changes nothing. *)
Lemma replace_absent_pattern (old new s : string) :
  Py.contains old s = false -> Py.replace old new s = s.
Proof.
  unfold Py.replace. induction s as [|a s IH]; [reflexivity|].
  intros H.
  change (String.prefix old (String a s) || Py.contains old s = false) in H.
  apply orb_false_elim in H as [Hp Hc].
  change (Py.replace_from old new 0 (String a s))
    with (if String.prefix old (String a s)
          then (new ++ Py.replace_from old new (String.length old - 1) s)%string
          else String a (Py.replace_from old new 0 s)).
  rewrite Hp, (IH Hc). reflexivity.
Qed.

(** ** The identity resolver, continued *)

Lemma direct_origin_value (self : t) (w w1 : world) (ip : string) :
  direct_origin self w = (Ok ip, w1) ->
  exists s, ip = Py.strip (hd "" (Py.split "," s)).
Proof.
  unfold direct_origin, bind, requests_get.
  destruct (net w (log w) _) as [e|resp]; [discriminate|].
  destruct (raise_for_status resp _) as [[[]|e] w2]; [|discriminate].
  destruct (resp_json resp w2) as [[j|e] w3]; [|discriminate].
  destruct (py_get j "origin" (JStr "") w3) as [[v|e] w4]; [|discriminate].
  destruct (as_str v w4) as [[s|e] w5]; [|discriminate].
  rewrite item0_split. unfold ret. intros H; simplify_eq. eauto.
Qed.

(** The first part of a split is the text before the first separator, or
    the whole text when there is no separator. *)
Lemma split_head (c : ascii) (s : string) :
  s = hd "" (Py.split c s)
  \/ exists tail, s = (hd "" (Py.split c s) ++ String c tail)%string.
Proof.
  induction s as [|a s IH]; simpl; [left; reflexivity|].
  destruct (Ascii.eqb a c) eqn:E.
  - apply Ascii.eqb_eq in E. subst a. right. exists s. reflexivity.
  - pose proof (split_not_nil c s) as Hn.
    destruct (Py.split c s) as [|x xs]; [contradiction|]. simpl in *.
    destruct IH as [->|[tail ->]]; [left; reflexivity|].
    right. exists tail. reflexivity.
Qed.

(** The direct request answered with a JSON object whose origin is the
    text [origin]. *)
Lemma direct_origin_parsed (self : t) (w : world) (r : response)
      (kv : list (string * json)) (origin : string) :
  net w (log w) (direct_request self) = Responds r ->
  status_ok r = true ->
  json_body r = Some (JObj kv) ->
  get_or kv "origin" (JStr "") = JStr origin ->
  direct_origin self w
  = (Ok (Py.strip (hd "" (Py.split "," origin))),
     with_log w (log w ++ [direct_request self])).
Proof.
  intros H Hs Hj Ho. unfold status_ok in Hs. apply negb_true_iff in Hs.
  unfold get_or in Ho.
  unfold direct_origin, bind, requests_get.
  fold (direct_request self). rewrite H. unfold raise_for_status. rewrite Hs.
  unfold ret, resp_json. rewrite Hj. unfold py_get, ret. rewrite Ho.
  unfold as_str, ret. rewrite item0_split. reflexivity.
Qed.

(** X9: When no non-empty address is cached and the oracle answers the
    direct request with a good status and a JSON object whose origin is a
    text, the resolver returns, and keeps in the object, the stripped first
    comma-separated part of that text: the text up to its first comma, or
    all of it when it has none, without its leading and trailing white
    space.  The address therefore holds no comma and stripping it again
    changes nothing. *)
Theorem resolved_ip_is_normalised (self : t) (w : world) (r : response)
        (kv : list (string * json)) (origin : string) :
  known (_real_ip self) = false ->
  net w (log w) (direct_request self) = Responds r ->
  status_ok r = true ->
  json_body r = Some (JObj kv) ->
  get_or kv "origin" (JStr "") = JStr origin ->
  exists (first : string),
    (origin = first \/ exists tail, origin = (first ++ "," ++ tail)%string)
    /\ Py.contains "," first = false
    /\ _get_real_ip self w
       = (Ok (Some (Py.strip first), set_real_ip self (Some (Py.strip first))),
          with_log w (log w ++ [direct_request self]))
    /\ Py.strip (Py.strip first) = Py.strip first
    /\ Py.contains "," (Py.strip first) = false.
Proof.
  intros Hk Hn Hs Hj Ho.
  pose proof (direct_origin_parsed self w r kv origin Hn Hs Hj Ho) as Hd.
  exists (hd "" (Py.split "," origin)).
  assert (Py.contains "," (hd "" (Py.split "," origin)) = false) as Hc.
  { apply (split_parts_without_separator "," origin).
    pose proof (split_not_nil "," origin) as Hnil.
    destruct (Py.split "," origin); [contradiction|left; reflexivity]. }
  split; [exact (split_head "," origin)|]. split; [exact Hc|].
  split; [exact (get_real_ip_fetched _ _ _ _ Hk Hd)|].
  split; [apply strip_idempotent|].
  apply (strip_without "," _ Hc).
Qed.

Lemma resolved_ip_witness :
  let w := Scenario.fresh
             (Scenario.oracle (Scenario.origin_reply " 203.0.113.9 , 10.0.0.1")
                (fun _ => Scenario.origin_reply "10.0.0.5")
                (fun _ => Scenario.headers_reply Scenario.clean_headers)) [] in
  exists (first : string),
    (" 203.0.113.9 , 10.0.0.1" = first
     \/ exists tail, " 203.0.113.9 , 10.0.0.1" = (first ++ "," ++ tail)%string)
    /\ Py.contains "," first = false
    /\ _get_real_ip Scenario.self0 w
       = (Ok (Some (Py.strip first), set_real_ip Scenario.self0 (Some (Py.strip first))),
          with_log w (log w ++ [direct_request Scenario.self0]))
    /\ Py.strip (Py.strip first) = Py.strip first
    /\ Py.contains "," (Py.strip first) = false.
Proof.
  apply (resolved_ip_is_normalised Scenario.self0 _
           (mkResponse 200 "" (Some (JObj [("origin", JStr " 203.0.113.9 , 10.0.0.1")])))
           [("origin", JStr " 203.0.113.9 , 10.0.0.1")] " 203.0.113.9 , 10.0.0.1");
    reflexivity.
Defined.

(** The resolver on an origin with two parts and white space around the
    first. *)
Example resolved_ip_first_part :
  fst (_get_real_ip Scenario.self0
         (Scenario.fresh
            (Scenario.oracle (Scenario.origin_reply " 203.0.113.9 , 10.0.0.1")
               (fun _ => Scenario.origin_reply "10.0.0.5")
               (fun _ => Scenario.headers_reply Scenario.clean_headers)) []))
  = Ok (Some "203.0.113.9", set_real_ip Scenario.self0 (Some "203.0.113.9")).
Proof. reflexivity. Qed.

(** X10: When the direct answer is a JSON object without an [origin] key, the
    resolver does not fail: it returns the empty string and stores it; the
    empty string counts as unknown, so the next call on that object sends
    the direct request again. *)
Theorem resolver_without_origin (self : t) (w : world) (r : response)
        (kv : list (string * json)) :
  known (_real_ip self) = false ->
  net w (log w) (direct_request self) = Responds r ->
  status_ok r = true ->
  json_body r = Some (JObj kv) ->
  assoc "origin" kv = None ->
  _get_real_ip self w
  = (Ok (Some "", set_real_ip self (Some "")), with_log w (log w ++ [direct_request self]))
  /\ known (Some "") = false
  /\ forall w2,
       log (snd (_get_real_ip (set_real_ip self (Some "")) w2))
       = log w2 ++ [direct_request self].
Proof.
  intros Hk Hn Hs Hj Ha. split; [|split; [reflexivity|]].
  - apply get_real_ip_fetched; [assumption|].
    unfold direct_origin, bind, requests_get. fold (direct_request self). rewrite Hn.
    unfold status_ok in Hs. apply negb_true_iff in Hs.
    unfold raise_for_status. rewrite Hs. unfold ret at 1.
    unfold resp_json. rewrite Hj. unfold ret at 1.
    simpl. rewrite Ha. reflexivity.
  - intros w2.
    destruct (get_real_ip_world (set_real_ip self (Some "")) w2) as (r2 & s2 & Hg).
    rewrite Hg. reflexivity.
Qed.

Lemma resolver_without_origin_witness :
  _get_real_ip Scenario.self0
    (Scenario.fresh (Scenario.oracle (Scenario.reply (JObj [("ip", JStr "203.0.113.9")]))
                       (fun _ => Scenario.origin_reply "10.0.0.5")
                       (fun _ => Scenario.headers_reply Scenario.clean_headers)) [])
  = (Ok (Some "", set_real_ip Scenario.self0 (Some "")),
     with_log (Scenario.fresh (Scenario.oracle (Scenario.reply (JObj [("ip", JStr "203.0.113.9")]))
                                 (fun _ => Scenario.origin_reply "10.0.0.5")
                                 (fun _ => Scenario.headers_reply Scenario.clean_headers)) [])
       ([] ++ [direct_request Scenario.self0]))
  /\ known (Some "") = false
  /\ forall w2,
       log (snd (_get_real_ip (set_real_ip Scenario.self0 (Some "")) w2))
       = log w2 ++ [direct_request Scenario.self0].
Proof.
  apply (resolver_without_origin Scenario.self0 (Scenario.fresh _ [])
           (mkResponse 200 "" (Some (JObj [("ip", JStr "203.0.113.9")])))
           [("ip", JStr "203.0.113.9")]);
    reflexivity.
Defined.

(** ** The URL of the header request *)

(** X11: When the configured URL does not hold [/ip], [__init__] leaves it
    unchanged as the URL of the header request: step 2 then sends the very
    request of step 1 again. *)
Theorem headers_url_without_ip (url : string) (timeout : Z) (max_workers : Z) :
  Py.contains "/ip" url = false ->
  headers_url (__init__ url timeout max_workers) = url
  /\ forall p, stage2_request (__init__ url timeout max_workers) p
               = stage1_request (__init__ url timeout max_workers) p.
Proof.
  intros H.
  assert (headers_url (__init__ url timeout max_workers) = url) as Hu
    by (simpl; apply replace_absent_pattern, H).
  split; [exact Hu|]. intros p. unfold stage2_request, stage1_request.
  rewrite Hu. reflexivity.
Qed.

Lemma headers_url_without_ip_witness :
  headers_url (__init__ "http://example.org/get" 10 10) = "http://example.org/get"
  /\ forall p, stage2_request (__init__ "http://example.org/get" 10 10) p
               = stage1_request (__init__ "http://example.org/get" 10 10) p.
Proof.
  apply (headers_url_without_ip "http://example.org/get" 10 10). reflexivity.
Defined.

(** * The generator functions of the adapter *)

Import FreeproxySources.

(** ** Text sources *)

(** One guarded request of a text source: what it yields, and what it
    does to the world. *)
Lemma text_turn_spec (name : string) (lines_of : string -> list string)
      (timeout : Z) (url : string) (w : world) :
  fst (text_turn name lines_of timeout url w)
  = lines_of_answer lines_of (net w (log w) (mkRequest url None timeout))
  /\ log (snd (text_turn name lines_of timeout url w))
     = log w ++ [mkRequest url None timeout]
  /\ net (snd (text_turn name lines_of timeout url w)) = net w.
Proof.
  unfold text_turn, bind, requests_get, lines_of_answer, status_ok, raise_for_status.
  destruct (net w (log w) _) as [e|r]; [repeat split|].
  destruct ((400 <=? status_code r)%Z && (status_code r <? 600)%Z); repeat split.
Qed.

Lemma download_one_is_text_turn (timeout : Z) (url : string) (w : world) :
  download_one timeout url w = text_turn "ProxyListDownload" proxy_lines timeout url w.
Proof. reflexivity. Qed.

Lemma download_two_urls (timeout : Z) (w : world) :
  let rq1 := mkRequest "https://www.proxy-list.download/api/v1/get?type=http" None timeout in
  let rq2 := mkRequest "https://www.proxy-list.download/api/v1/get?type=https" None timeout in
  yielded (fst (fetch_proxylistdownload timeout w))
  = lines_of_answer proxy_lines (net w (log w) rq1)
    ++ lines_of_answer proxy_lines (net w (log w ++ [rq1]) rq2)
  /\ ending (fst (fetch_proxylistdownload timeout w)) = None
  /\ log (snd (fetch_proxylistdownload timeout w)) = log w ++ [rq1; rq2].
Proof.
  intros rq1 rq2. unfold fetch_proxylistdownload. simpl download_all.
  rewrite !download_one_is_text_turn.
  destruct (text_turn_spec "ProxyListDownload" proxy_lines timeout
              "https://www.proxy-list.download/api/v1/get?type=http" w)
    as (H1 & Hl1 & Hn1).
  destruct (text_turn _ _ _ "https://www.proxy-list.download/api/v1/get?type=http" w)
    as [ls1 w1].
  simpl in H1, Hl1, Hn1. rewrite download_one_is_text_turn.
  destruct (text_turn_spec "ProxyListDownload" proxy_lines timeout
              "https://www.proxy-list.download/api/v1/get?type=https" w1)
    as (H2 & Hl2 & Hn2).
  destruct (text_turn _ _ _ "https://www.proxy-list.download/api/v1/get?type=https" w1)
    as [ls2 w2].
  simpl in H2, Hl2, Hn2. simpl.
  rewrite app_nil_r, H1, H2, Hn1, Hl1. subst rq1 rq2.
  split; [reflexivity|]. split; [reflexivity|].
  rewrite Hl2, Hl1, <- app_assoc. reflexivity.
Qed.

(** X12: [fetch_proxylistdownload] asks for its two URLs one after the other,
    each inside its own [try]: what it yields is what the first answer
    gives followed by what the second answer gives, and an answer that is
    an exception or an error status gives nothing without stopping the
    other. *)
Theorem proxylistdownload_urls_independent (timeout : Z) (w : world) :
  let rq1 := mkRequest "https://www.proxy-list.download/api/v1/get?type=http" None timeout in
  let rq2 := mkRequest "https://www.proxy-list.download/api/v1/get?type=https" None timeout in
  yielded (fst (fetch_proxylistdownload timeout w))
  = lines_of_answer proxy_lines (net w (log w) rq1)
    ++ lines_of_answer proxy_lines (net w (log w ++ [rq1]) rq2)
  /\ ending (fst (fetch_proxylistdownload timeout w)) = None
  /\ log (snd (fetch_proxylistdownload timeout w)) = log w ++ [rq1; rq2].
Proof. apply download_two_urls. Qed.

(** The second URL is asked and its lines are yielded when the first
    request times out. *)
Example download_after_failure :
  yielded (fst (fetch_proxylistdownload 15
                  (Scenario.fresh
                     (fun history _ =>
                        match history with
                        | [] => Raises Timeout
                        | _ => Responds (mkResponse 200 Scenario.two_lines None)
                        end) [])))
  = ["10.0.0.5:8080"; "10.0.0.6:3128"].
Proof. vm_compute. reflexivity. Qed.

(** ** The lines the validated sources accept *)

Lemma split_one (c : ascii) (s b : string) : Py.split c s = [b] -> s = b.
Proof.
  revert b. induction s as [|a s IH]; intros b; simpl.
  - intros H; simplify_eq. reflexivity.
  - pose proof (split_not_nil c s) as Hn.
    destruct (Ascii.eqb a c).
    + destruct (Py.split c s); [contradiction|discriminate].
    + destruct (Py.split c s) as [|x xs]; [contradiction|].
      intros H; simplify_eq. rewrite (IH x eq_refl). reflexivity.
Qed.

(** A string that splits in two is the two parts around one separator. *)
Lemma split_two_parts (c : ascii) (s a b : string) :
  Py.split c s = [a; b] -> s = (a ++ String c b)%string.
Proof.
  revert a b. induction s as [|x s IH]; intros a b; simpl; [discriminate|].
  pose proof (split_not_nil c s) as Hn.
  destruct (Ascii.eqb x c) eqn:E.
  - intros H; simplify_eq. apply Ascii.eqb_eq in E. subst x.
    match goal with H : Py.split c s = [_] |- _ => rewrite (split_one _ _ _ H) end.
    reflexivity.
  - destruct (Py.split c s) as [|y ys]; [contradiction|].
    intros H; simplify_eq. rewrite (IH y b eq_refl). reflexivity.
Qed.

Lemma valid_line_format (x : string) :
  valid_line x = true ->
  exists host port,
    x = (host ++ ":" ++ port)%string
    /\ Py.contains ":" host = false
    /\ Py.contains ":" port = false
    /\ PyMore.isdigit port = true.
Proof.
  unfold valid_line. intros H.
  apply andb_true_iff in H as [_ H]. apply andb_true_iff in H as [Hlen Hd].
  apply Nat.eqb_eq in Hlen.
  destruct (Py.split ":" x) as [|host [|port [|z zs]]] eqn:Hs; simpl in Hlen; try lia.
  simpl in Hd. exists host, port.
  split; [apply (split_two_parts ":"%char), Hs|].
  split; [|split; [|exact Hd]];
    apply (split_parts_without_separator ":"%char x); rewrite Hs; simpl; auto.
Qed.

Lemma checked_lines_format (body x : string) :
  In x (checked_lines body) ->
  Py.strip x = x
  /\ exists host port,
       x = (host ++ ":" ++ port)%string
       /\ Py.contains ":" host = false
       /\ Py.contains ":" port = false
       /\ PyMore.isdigit port = true.
Proof.
  unfold checked_lines. intros H. apply List.filter_In in H as [Hin Hv].
  split; [|apply valid_line_format, Hv].
  apply List.in_map_iff in Hin as (y & <- & _). apply strip_idempotent.
Qed.

Lemma text_loop_lines (name : string) (lines_of : string -> list string)
      (timeout : Z) (urls : list string) :
  forall (w : world) (x : string),
    In x (fst (text_loop name lines_of timeout urls w)) ->
    exists body, In x (lines_of body).
Proof.
  induction urls as [|url rest IH]; intros w x; simpl; [intros []|].
  pose proof (text_turn_spec name lines_of timeout url w) as (H1 & _).
  destruct (text_turn name lines_of timeout url w) as [ls w1]. simpl in H1.
  specialize (IH w1 x).
  destruct (text_loop name lines_of timeout rest w1) as [ls' w2]. simpl in *.
  intros Hin. apply List.in_app_or in Hin as [Hin|Hin]; [|apply IH, Hin].
  subst ls. unfold lines_of_answer in Hin.
  destruct (net w (log w) _) as [e|r]; [destruct Hin|].
  destruct (status_ok r); [eauto|destruct Hin].
Qed.

(** X13: Every value that [fetch_thespeedx], [fetch_sunny9577] or
    [fetch_clarketm] yields is a stripped line of the form [host:port]
    with exactly one colon and a port that [isdigit] accepts. *)
Theorem validated_sources_yield_host_port (timeout : Z) (w : world) (x : string) :
  In x (yielded (fst (fetch_thespeedx timeout w)))
  \/ In x (yielded (fst (fetch_sunny9577 timeout w)))
  \/ In x (yielded (fst (fetch_clarketm timeout w))) ->
  Py.strip x = x
  /\ exists host port,
       x = (host ++ ":" ++ port)%string
       /\ Py.contains ":" host = false
       /\ Py.contains ":" port = false
       /\ PyMore.isdigit port = true.
Proof.
  intros [H|[H|H]].
  - unfold fetch_thespeedx in H.
    pose proof (text_loop_lines "TheSpeedX" checked_lines timeout thespeedx_urls w x) as Hl.
    destruct (text_loop _ _ _ _ w) as [ls w1]. simpl in H, Hl.
    destruct (Hl H) as [body Hb]. eapply checked_lines_format, Hb.
  - unfold fetch_sunny9577 in H.
    pose proof (text_loop_lines "Sunny9577" checked_lines timeout sunny9577_urls w x) as Hl.
    destruct (text_loop _ _ _ _ w) as [ls w1]. simpl in H, Hl.
    destruct (Hl H) as [body Hb]. eapply checked_lines_format, Hb.
  - unfold fetch_clarketm in H.
    pose proof (text_turn_spec "Clarketm" checked_lines timeout clarketm_url w) as (H1 & _).
    destruct (text_turn _ _ _ _ w) as [ls w1]. simpl in H, H1. subst ls.
    unfold lines_of_answer in H.
    destruct (net w (log w) _) as [e|r]; [destruct H|].
    destruct (status_ok r); [|destruct H].
    eapply checked_lines_format, H.
Qed.

Lemma validated_sources_witness :
  Py.strip "10.0.0.5:8080" = "10.0.0.5:8080"
  /\ exists host port,
       "10.0.0.5:8080" = (host ++ ":" ++ port)%string
       /\ Py.contains ":" host = false
       /\ Py.contains ":" port = false
       /\ PyMore.isdigit port = true.
Proof.
  apply (validated_sources_yield_host_port 15
           (Scenario.fresh (Fixtures.net_text Scenario.two_lines) []) "10.0.0.5:8080").
  left. vm_compute. left. reflexivity.
Defined.

(** ** JSON sources *)

(** The loop over the items when the body of the loop reads an object
    without raising and raises [AttributeError] on anything else: the
    objects at the head of the list are processed, and the first item that
    is not an object ends the loop. *)
Lemma item_loop_objects (body : json -> M (option string))
      (pick : list (string * json) -> option string) (items : list json) (w : world) :
  (forall kv w', body (JObj kv) w' = (Ok (pick kv), w')) ->
  (forall j w', match j with JObj _ => True | _ => body j w' = (Raise AttributeError, w') end) ->
  item_loop body items w
  = (mkRun (omap pick (leading_objects items))
           (if all_objects items then None else Some AttributeError), w).
Proof.
  intros Hobj Hbad. induction items as [|item rest IH]; [reflexivity|].
  destruct item as [|b|n|s|l|kv]; simpl;
    try (match goal with
         | |- context [body ?j w] =>
             let H := fresh in pose proof (Hbad j w) as H; simpl in H; rewrite H
         end; reflexivity).
  rewrite Hobj, IH. destruct (pick kv); reflexivity.
Qed.

Lemma proxyscrape_item_object (cs : json -> string) (kv : list (string * json)) (w : world) :
  proxyscrape_item cs (JObj kv) w = (Ok (proxyscrape_pick cs kv), w).
Proof.
  unfold proxyscrape_item, proxyscrape_pick, bind, get_or. simpl. unfold ret at 1.
  destruct (truthy match assoc "alive" kv with Some v => v | None => JNull end);
    [|reflexivity].
  simpl. unfold ret at 1 2.
  destruct (truthy _ && truthy _); reflexivity.
Qed.

Lemma geonode_item_object (cs : json -> string) (kv : list (string * json)) (w : world) :
  geonode_item cs (JObj kv) w = (Ok (geonode_pick cs kv), w).
Proof.
  unfold geonode_item, geonode_pick, bind, get_or. simpl. unfold ret at 1 2.
  destruct (truthy _ && truthy _); reflexivity.
Qed.

(** A JSON source whose answer parses to an object holding a list under
    its key. *)
Lemma json_source_spec (name url key : string) (body : json -> M (option string))
      (pick : list (string * json) -> option string) (timeout : Z) (w : world)
      (r : response) (top : list (string * json)) (items : list json) :
  (forall kv w', body (JObj kv) w' = (Ok (pick kv), w')) ->
  (forall j w', match j with JObj _ => True | _ => body j w' = (Raise AttributeError, w') end) ->
  net w (log w) (mkRequest url None timeout) = Responds r ->
  status_ok r = true ->
  json_body r = Some (JObj top) ->
  get_or top key (JArr []) = JArr items ->
  fst (json_source name url key body timeout w)
  = mkRun (omap pick (leading_objects items)) None
  /\ stdout (snd (json_source name url key body timeout w))
     = stdout w ++ (if all_objects items then [] else [FetchFailed name AttributeError]).
Proof.
  intros Hobj Hbad Hn Hs Hj Hk.
  unfold status_ok in Hs. apply negb_true_iff in Hs.
  assert (json_source name url key body timeout w
          = (mkRun (omap pick (leading_objects items)) None,
             if all_objects items
             then with_log w (log w ++ [mkRequest url None timeout])
             else print (FetchFailed name AttributeError)
                    (with_log w (log w ++ [mkRequest url None timeout])))) as Heq.
  { unfold json_source, bind, requests_get. rewrite Hn.
    unfold raise_for_status. rewrite Hs. unfold ret, resp_json. rewrite Hj.
    unfold py_get, ret. fold (get_or top key (JArr [])). rewrite Hk.
    unfold PyMore.py_iter, ret.
    rewrite (item_loop_objects body pick items _ Hobj Hbad). simpl.
    destruct (all_objects items); reflexivity. }
  rewrite Heq. simpl.
  destruct (all_objects items); simpl; rewrite ?app_nil_r; split; reflexivity.
Qed.

(** X14: When the answer of ProxyScrape is an object whose [proxies] is a
    list, [fetch_proxyscrape] yields [ip:port] for the items that are
    objects with true [alive], [ip] and [port], in order, up to the first
    item that is not an object: that item ends the loop with an exception,
    which the function prints, and the items after it are not looked at. *)
Theorem proxyscrape_yields (cs : json -> string) (timeout : Z) (w : world)
        (r : response) (top : list (string * json)) (items : list json) :
  net w (log w) (mkRequest proxyscrape_url None timeout) = Responds r ->
  status_ok r = true ->
  json_body r = Some (JObj top) ->
  get_or top "proxies" (JArr []) = JArr items ->
  fst (fetch_proxyscrape cs timeout w)
  = mkRun (omap (proxyscrape_pick cs) (leading_objects items)) None
  /\ stdout (snd (fetch_proxyscrape cs timeout w))
     = stdout w ++ (if all_objects items then []
                    else [FetchFailed "ProxyScrape" AttributeError]).
Proof.
  apply json_source_spec.
  - apply proxyscrape_item_object.
  - intros j w'. destruct j; first [reflexivity|exact I].
Qed.

Lemma proxyscrape_yields_witness :
  fst (fetch_proxyscrape Fixtures.container_str 15
         (Scenario.fresh (Fixtures.net_json (JObj [("proxies", JArr Fixtures.scraped_items)])) []))
  = mkRun ["10.0.0.5:8080"] None
  /\ stdout (snd (fetch_proxyscrape Fixtures.container_str 15
                    (Scenario.fresh
                       (Fixtures.net_json (JObj [("proxies", JArr Fixtures.scraped_items)])) [])))
     = [] ++ [FetchFailed "ProxyScrape" AttributeError].
Proof.
  apply (proxyscrape_yields Fixtures.container_str 15
           (Scenario.fresh (Fixtures.net_json (JObj [("proxies", JArr Fixtures.scraped_items)])) [])
           (mkResponse 200 "" (Some (JObj [("proxies", JArr Fixtures.scraped_items)])))
           [("proxies", JArr Fixtures.scraped_items)]
           Fixtures.scraped_items);
    reflexivity.
Defined.

(** X15: When the answer of Geonode is an object whose [data] is a list,
    [fetch_geonode] yields [ip:port] for the items that are objects with
    true [ip] and [port], without looking at [alive], in order, up to the
    first item that is not an object: that item ends the loop with an
    exception, which the function prints. *)
Theorem geonode_yields (cs : json -> string) (timeout : Z) (w : world)
        (r : response) (top : list (string * json)) (items : list json) :
  net w (log w) (mkRequest geonode_url None timeout) = Responds r ->
  status_ok r = true ->
  json_body r = Some (JObj top) ->
  get_or top "data" (JArr []) = JArr items ->
  fst (fetch_geonode cs timeout w)
  = mkRun (omap (geonode_pick cs) (leading_objects items)) None
  /\ stdout (snd (fetch_geonode cs timeout w))
     = stdout w ++ (if all_objects items then []
                    else [FetchFailed "Geonode" AttributeError]).
Proof.
  apply json_source_spec.
  - apply geonode_item_object.
  - intros j w'. destruct j; first [reflexivity|exact I].
Qed.

Lemma geonode_yields_witness :
  fst (fetch_geonode Fixtures.container_str 15
         (Scenario.fresh (Fixtures.net_json (JObj [("data", JArr Fixtures.scraped_items)])) []))
  = mkRun ["10.0.0.5:8080"; "10.0.0.6:3128"] None
  /\ stdout (snd (fetch_geonode Fixtures.container_str 15
                    (Scenario.fresh
                       (Fixtures.net_json (JObj [("data", JArr Fixtures.scraped_items)])) [])))
     = [] ++ [FetchFailed "Geonode" AttributeError].
Proof.
  apply (geonode_yields Fixtures.container_str 15
           (Scenario.fresh (Fixtures.net_json (JObj [("data", JArr Fixtures.scraped_items)])) [])
           (mkResponse 200 "" (Some (JObj [("data", JArr Fixtures.scraped_items)])))
           [("data", JArr Fixtures.scraped_items)]
           Fixtures.scraped_items);
    reflexivity.
Defined.

(** ** The table source *)

Lemma take_digits_spec (n : nat) :
  forall (s d r : string),
    take_digits n s = (d, r) ->
    s = (d ++ r)%string /\ decimal_digits d = true /\ (String.length d <= n)%nat.
Proof.
  induction n as [|n IH]; intros s d r H.
  - destruct s; simpl in H; simplify_eq; repeat split; simpl; lia.
  - destruct s as [|c s]; simpl in H; [simplify_eq; repeat split; simpl; lia|].
    destruct (PyMore.is_decimal c) eqn:Hc.
    + destruct (take_digits n s) as [d' r'] eqn:E. simplify_eq.
      destruct (IH _ _ _ E) as (-> & Hd & Hl).
      repeat split; simpl; [rewrite Hc, Hd; reflexivity|lia].
    + simplify_eq. repeat split; simpl; lia.
Qed.

Lemma prefix_drop (lit r : string) :
  String.prefix lit r = true -> r = (lit ++ PyMore.drop (String.length lit) r)%string.
Proof.
  revert r. induction lit as [|a lit IH]; intros r H; [reflexivity|].
  destruct r as [|b r]; [discriminate|]. simpl in H.
  destruct (ascii_dec a b) as [->|]; [|discriminate].
  change (String b r = String b (lit ++ PyMore.drop (String.length lit) r)%string).
  f_equal. apply IH. exact H.
Qed.

Lemma octet_then_spec (lit s d r : string) :
  octet_then lit s = Some (d, r) ->
  is_octet d = true /\ s = (d ++ lit ++ r)%string.
Proof.
  unfold octet_then. destruct (take_digits 3 s) as [d' r'] eqn:E.
  destruct (take_digits_spec _ _ _ _ E) as (-> & Hd & Hl).
  destruct (String.eqb d' "") eqn:He; [discriminate|].
  destruct (String.prefix lit r') eqn:Hp; [|discriminate].
  intros H; simplify_eq. split.
  - unfold is_octet, is_number. rewrite He, Hd. simpl. apply Nat.leb_le. exact Hl.
  - rewrite <- (prefix_drop _ _ Hp). reflexivity.
Qed.

Lemma append_assoc (a b c : string) : ((a ++ b) ++ c = a ++ (b ++ c))%string.
Proof.
  induction a as [|x a IH]; [reflexivity|].
  change (String x ((a ++ b) ++ c) = String x (a ++ (b ++ c)))%string.
  f_equal. exact IH.
Qed.

Lemma match_at_spec (s ip port rest : string) :
  match_at s = Some (ip, port, rest) ->
  exists a b c d,
    ip = (a ++ "." ++ b ++ "." ++ c ++ "." ++ d)%string
    /\ is_octet a = true /\ is_octet b = true
    /\ is_octet c = true /\ is_octet d = true
    /\ is_number port = true.
Proof.
  unfold match_at.
  destruct (octet_then "." s) as [[a s1]|] eqn:Ea; [|discriminate].
  destruct (octet_then "." s1) as [[b s2]|] eqn:Eb; [|discriminate].
  destruct (octet_then "." s2) as [[c s3]|] eqn:Ec; [|discriminate].
  destruct (octet_then "</td><td>" s3) as [[d s4]|] eqn:Ed; [|discriminate].
  destruct (take_digits (String.length s4) s4) as [p r] eqn:Ep.
  destruct (String.eqb p "") eqn:He; [discriminate|].
  intros H; simplify_eq.
  apply octet_then_spec in Ea as [Ha _]. apply octet_then_spec in Eb as [Hb _].
  apply octet_then_spec in Ec as [Hc _]. apply octet_then_spec in Ed as [Hd _].
  destruct (take_digits_spec _ _ _ _ Ep) as (_ & Hp & _).
  exists a, b, c, d. repeat split; try assumption.
  unfold is_number. rewrite He, Hp. reflexivity.
Qed.

Lemma findall_from_spec (s : string) :
  forall (skip : nat) (m : string * string),
    In m (findall_from skip s) ->
    exists s' rest, match_at s' = Some (fst m, snd m, rest).
Proof.
  induction s as [|c s IH]; intros skip m; simpl; [intros []|].
  destruct skip as [|k]; [|apply IH].
  destruct (match_at (String c s)) as [[[ip port] rest]|] eqn:E; [|apply IH].
  intros [<-|Hin]; [eauto|eapply IH, Hin].
Qed.

(** X16: Every value [fetch_freeproxylist] yields is four groups of one to
    three decimal digits joined by dots, a colon, and a non-empty run of
    decimal digits. *)
Theorem freeproxylist_yields_dotted_quads (timeout : Z) (w : world) (x : string) :
  In x (yielded (fst (fetch_freeproxylist timeout w))) ->
  exists a b c d port,
    x = (a ++ "." ++ b ++ "." ++ c ++ "." ++ d ++ ":" ++ port)%string
    /\ is_octet a = true /\ is_octet b = true
    /\ is_octet c = true /\ is_octet d = true
    /\ is_number port = true.
Proof.
  unfold fetch_freeproxylist.
  pose proof (text_turn_spec "FreeProxyList" table_lines timeout freeproxylist_url w)
    as (H1 & _).
  destruct (text_turn _ _ _ _ w) as [ls w1]. simpl in *. subst ls.
  unfold lines_of_answer.
  destruct (net w (log w) _) as [e|r]; [intros []|].
  destruct (status_ok r); [|intros []].
  unfold table_lines. intros Hin.
  apply List.in_map_iff in Hin as ([ip port] & <- & Hin).
  destruct (findall_from_spec _ _ _ Hin) as (s' & rest & Hm). simpl in Hm.
  destruct (match_at_spec _ _ _ _ Hm) as (a & b & c & d & -> & Ha & Hb & Hc & Hd & Hp).
  exists a, b, c, d, port. simpl fst. simpl snd.
  split; [|repeat split; assumption].
  rewrite !append_assoc. reflexivity.
Qed.

Lemma freeproxylist_witness :
  exists a b c d port,
    "10.0.0.6:3128" = (a ++ "." ++ b ++ "." ++ c ++ "." ++ d ++ ":" ++ port)%string
    /\ is_octet a = true /\ is_octet b = true
    /\ is_octet c = true /\ is_octet d = true
    /\ is_number port = true.
Proof.
  apply (freeproxylist_yields_dotted_quads 15
           (Scenario.fresh (Fixtures.net_text Fixtures.table_rows) []) "10.0.0.6:3128").
  vm_compute. right. left. reflexivity.
Defined.

(** The page of the example gives its two rows. *)
Example table_rows_found :
  table_lines Fixtures.table_rows = ["10.0.0.5:8080"; "10.0.0.6:3128"].
Proof. vm_compute. reflexivity. Qed.

(** A run of four digits is entered after its first digit; a match ends
    where the digits of the port end. *)
Example findall_inside_a_run :
  findall "1234.5.6.7</td><td>80x 1.2.3</td><td>9" = [("234.5.6.7", "80")].
Proof. vm_compute. reflexivity. Qed.

(** ** The requests of [fetch_all] *)

Lemma text_loop_log (name : string) (lines_of : string -> list string)
      (timeout : Z) (urls : list string) :
  forall w,
    log (snd (text_loop name lines_of timeout urls w))
    = log w ++ map (fun u => mkRequest u None timeout) urls.
Proof.
  induction urls as [|url rest IH]; intros w; simpl; [rewrite app_nil_r; reflexivity|].
  pose proof (text_turn_spec name lines_of timeout url w) as (_ & Hl & _).
  destruct (text_turn name lines_of timeout url w) as [ls w1]. simpl in Hl.
  specialize (IH w1).
  destruct (text_loop name lines_of timeout rest w1) as [ls' w2]. simpl in *.
  rewrite IH, Hl, <- app_assoc. reflexivity.
Qed.

Lemma item_loop_quiet (body : json -> M (option string)) (items : list json) :
  (forall item, quiet (body item)) ->
  forall w, snd (item_loop body items w) = w.
Proof.
  intros Hq. induction items as [|item rest IH]; intros w; [reflexivity|]. simpl.
  pose proof (Hq item w) as Hw.
  destruct (body item w) as [[[y|]|e] w1]; simpl in Hw; subst w1.
  - specialize (IH w). destruct (item_loop body rest w) as [g w2]. exact IH.
  - apply IH.
  - reflexivity.
Qed.

Lemma json_source_log (name url key : string) (body : json -> M (option string))
      (timeout : Z) (w : world) :
  (forall item, quiet (body item)) ->
  log (snd (json_source name url key body timeout w))
  = log w ++ [mkRequest url None timeout].
Proof.
  intros Hq. unfold json_source.
  set (m := bind (requests_get (mkRequest url None timeout)) _).
  assert (sends (mkRequest url None timeout) m) as Hs.
  { subst m. apply sends_get. intros r.
    do 3 (apply quiet_bind; [auto with quiet|intros ?]).
    unfold PyMore.py_iter. case_match; auto with quiet. }
  specialize (Hs w). destruct (m w) as [[items|e] w1]; simpl in Hs; subst w1.
  - pose proof (item_loop_quiet body items Hq
                  (with_log w (log w ++ [mkRequest url None timeout]))) as Hi.
    destruct (item_loop body items _) as [g w2]. simpl in Hi. subst w2.
    destruct (ending g); reflexivity.
  - reflexivity.
Qed.

Lemma quiet_proxyscrape_item (cs : json -> string) (item : json) :
  quiet (proxyscrape_item cs item).
Proof. unfold proxyscrape_item. quiet_tac. Qed.

Lemma quiet_geonode_item (cs : json -> string) (item : json) :
  quiet (geonode_item cs item).
Proof. unfold geonode_item. quiet_tac. Qed.

(** The outer loop of [fetch_all] sends what its generators send, one
    after the other. *)
Lemma fetch_from_log (sources : list (string * generator)) (reqs : list (list request)) :
  Forall2 (fun src rs => forall w, log (snd (snd src w)) = log w ++ rs) sources reqs ->
  forall seen w,
    log (snd (fetch_from sources seen w)) = log w ++ concat reqs.
Proof.
  induction 1 as [|[name fetcher] rs sources reqs Hsrc _ IH]; intros seen w; simpl.
  - rewrite app_nil_r. reflexivity.
  - specialize (Hsrc w). simpl in Hsrc.
    destruct (fetcher w) as [g w1]. simpl in Hsrc.
    destruct (consume (yielded g) seen 0) as [[out seen'] count].
    match goal with |- context [fetch_from sources seen' ?w2] =>
      specialize (IH seen' w2); destruct (fetch_from sources seen' w2) as [trace w3];
      assert (log w2 = log w1) as Hw2 by (destruct (ending g); [reflexivity|];
                                          destruct (0 <? count)%nat; reflexivity)
    end.
    simpl in *. rewrite IH, Hw2, Hsrc, <- app_assoc. reflexivity.
Qed.

Lemma adapter_log (cs : json -> string) (timeout : Z) (w : world) :
  log (snd (adapter_fetch_all cs timeout w))
  = log w ++ map (fun u => mkRequest u None timeout) source_urls.
Proof.
  unfold adapter_fetch_all, fetch_all.
  pose proof (fetch_from_log (sources cs timeout)
    [ [mkRequest "https://raw.githubusercontent.com/TheSpeedX/SOCKS-List/master/http.txt" None timeout];
      [mkRequest proxyscrape_url None timeout];
      [mkRequest geonode_url None timeout];
      [mkRequest freeproxylist_url None timeout];
      [mkRequest "https://www.proxy-list.download/api/v1/get?type=http" None timeout;
       mkRequest "https://www.proxy-list.download/api/v1/get?type=https" None timeout];
      [mkRequest "https://raw.githubusercontent.com/sunny9577/proxy-scraper/master/proxies.txt" None timeout];
      [mkRequest clarketm_url None timeout] ]) as H.
  assert (forall w0, log (snd (fetch_from (sources cs timeout) ∅ w0))
                     = log w0 ++ map (fun u => mkRequest u None timeout) source_urls) as Hlog.
  { intros w0. rewrite H; [reflexivity|].
    unfold sources, sources_of. repeat constructor; intros w1; simpl.
    - unfold fetch_thespeedx.
      pose proof (text_loop_log "TheSpeedX" checked_lines timeout thespeedx_urls w1) as Hl.
      destruct (text_loop _ _ _ _ w1) as [ls w2]. exact Hl.
    - apply json_source_log, quiet_proxyscrape_item.
    - apply json_source_log, quiet_geonode_item.
    - unfold fetch_freeproxylist.
      pose proof (text_turn_spec "FreeProxyList" table_lines timeout freeproxylist_url w1)
        as (_ & Hl & _).
      destruct (text_turn _ _ _ _ w1) as [ls w2]. exact Hl.
    - apply (download_two_urls timeout w1).
    - unfold fetch_sunny9577.
      pose proof (text_loop_log "Sunny9577" checked_lines timeout sunny9577_urls w1) as Hl.
      destruct (text_loop _ _ _ _ w1) as [ls w2]. exact Hl.
    - unfold fetch_clarketm.
      pose proof (text_turn_spec "Clarketm" checked_lines timeout clarketm_url w1)
        as (_ & Hl & _).
      destruct (text_turn _ _ _ _ w1) as [ls w2]. exact Hl. }
  specialize (Hlog w).
  destruct (fetch_from (sources cs timeout) ∅ w) as [trace w']. exact Hlog.
Qed.

(** X17: Whatever the sources answer, [fetch_all] of an adapter sends the same
    eight direct requests, in the order of the list [sources], each with
    the adapter's timeout: a source that fails does not keep the later ones
    from being asked. *)
Theorem adapter_fetch_all_requests (cs : json -> string) (timeout : Z) (w : world) :
  log (snd (adapter_fetch_all cs timeout w))
  = log w ++ map (fun u => mkRequest u None timeout) source_urls.
Proof. apply adapter_log. Qed.

(** ** When no source can be reached *)

(** X18: When every request raises [e], [fetch_all] of an adapter yields
    nothing and ends normally, after each source has printed its failure
    line, one per request. *)
Theorem adapter_fetch_all_offline (cs : json -> string) (timeout : Z) (w : world) (e : exn) :
  (forall history rq, net w history rq = Raises e) ->
  fst (adapter_fetch_all cs timeout w) = []
  /\ stdout (snd (adapter_fetch_all cs timeout w))
     = stdout w
       ++ [ FetchFailed "TheSpeedX" e; FetchFailed "ProxyScrape" e;
            FetchFailed "Geonode" e; FetchFailed "FreeProxyList" e;
            FetchFailed "ProxyListDownload" e; FetchFailed "ProxyListDownload" e;
            FetchFailed "Sunny9577" e; FetchFailed "Clarketm" e ].
Proof.
  destruct w as [n l st an so]. simpl. intros H.
  unfold adapter_fetch_all, fetch_all, sources, sources_of, fetch_from.
  unfold fetch_thespeedx, fetch_proxyscrape, fetch_geonode, fetch_freeproxylist,
         fetch_proxylistdownload, fetch_sunny9577, fetch_clarketm,
         json_source, text_loop, thespeedx_urls, sunny9577_urls, download_all,
         download_one, text_turn, bind, requests_get.
  simpl. repeat (rewrite H; simpl).
  split; [reflexivity|].
  rewrite <- !app_assoc. reflexivity.
Qed.

Lemma adapter_fetch_all_offline_witness :
  fst (adapter_fetch_all Fixtures.container_str 15
         (Scenario.fresh (Fixtures.net_down ConnectionError) [])) = []
  /\ stdout (snd (adapter_fetch_all Fixtures.container_str 15
                    (Scenario.fresh (Fixtures.net_down ConnectionError) [])))
     = [] ++ [ FetchFailed "TheSpeedX" ConnectionError;
               FetchFailed "ProxyScrape" ConnectionError;
               FetchFailed "Geonode" ConnectionError;
               FetchFailed "FreeProxyList" ConnectionError;
               FetchFailed "ProxyListDownload" ConnectionError;
               FetchFailed "ProxyListDownload" ConnectionError;
               FetchFailed "Sunny9577" ConnectionError;
               FetchFailed "Clarketm" ConnectionError ].
Proof.
  apply (adapter_fetch_all_offline Fixtures.container_str 15
           (Scenario.fresh (Fixtures.net_down ConnectionError) []) ConnectionError).
  intros history rq. reflexivity.
Defined.

(** ** The order of the merged sequence *)

Lemma filter_twice {A} (f g : A -> bool) (l : list A) :
  List.filter f (List.filter g l) = List.filter (fun x => g x && f x) l.
Proof.
  induction l as [|a l IH]; [reflexivity|]. simpl.
  destruct (g a); simpl; [destruct (f a)|]; rewrite IH; reflexivity.
Qed.

Lemma filter_all {A} (l : list A) : List.filter (fun _ => true) l = l.
Proof. induction l as [|a l IH]; [reflexivity|]. simpl. rewrite IH. reflexivity. Qed.

Lemma not_seen_insert (x y : string) (seen : gset string) :
  negb (bool_decide (y ∈ {[x]} ∪ seen))
  = negb (String.eqb y x) && negb (bool_decide (y ∈ seen)).
Proof.
  destruct (String.eqb_spec y x) as [->|Hne]; simpl.
  - rewrite bool_decide_true; [reflexivity|set_solver].
  - destruct (decide (y ∈ seen)).
    + rewrite !bool_decide_true; [reflexivity|assumption|set_solver].
    + rewrite !bool_decide_false; [reflexivity|assumption|set_solver].
Qed.

Lemma not_seen_union (y : string) (seen : gset string) (l : list string) :
  negb (bool_decide (y ∈ seen ∪ list_to_set l))
  = negb (Py.in_list y l) && negb (bool_decide (y ∈ seen)).
Proof.
  destruct (Py.in_list y l) eqn:E; simpl.
  - apply in_list_true in E. rewrite bool_decide_true; [reflexivity|].
    apply elem_of_union. right. apply elem_of_list_to_set, list_elem_of_In, E.
  - assert (~ In y l) as Hn by (rewrite <- in_list_true, E; discriminate).
    destruct (decide (y ∈ seen)).
    + rewrite !bool_decide_true; [reflexivity|assumption|set_solver].
    + rewrite !bool_decide_false; [reflexivity|assumption|].
      intros Hu. apply elem_of_union in Hu as [?|Hu]; [contradiction|].
      apply elem_of_list_to_set, list_elem_of_In in Hu. contradiction.
Qed.

(** The inner loop lets through the distinct values of its input, in the
    order of their first occurrence, that are not in [seen]. *)
Lemma consume_distinct (items : list string) :
  forall (seen : gset string) (count : nat),
    fst (fst (consume items seen count))
    = List.filter (fun y => negb (bool_decide (y ∈ seen))) (distinct_in_order items).
Proof.
  induction items as [|x items IH]; intros seen count; [reflexivity|].
  simpl consume. simpl distinct_in_order.
  destruct (decide (x ∈ seen)) as [Hin|Hnin].
  - rewrite IH. simpl. rewrite bool_decide_true by assumption. simpl.
    rewrite filter_twice. apply List.filter_ext. intros y.
    destruct (String.eqb_spec y x) as [->|]; simpl; [|reflexivity].
    rewrite bool_decide_true by assumption. reflexivity.
  - specialize (IH ({[x]} ∪ seen) (count + 1)%nat).
    destruct (consume items ({[x]} ∪ seen) (count + 1)) as [[out seen'] count'].
    simpl in IH |- *. rewrite bool_decide_false by assumption. simpl.
    f_equal. rewrite IH, filter_twice. apply List.filter_ext. intros y.
    apply not_seen_insert.
Qed.

Lemma distinct_in_order_app (l1 l2 : list string) :
  distinct_in_order (l1 ++ l2)
  = distinct_in_order l1
    ++ List.filter (fun y => negb (Py.in_list y l1)) (distinct_in_order l2).
Proof.
  induction l1 as [|x l1 IH]; simpl.
  - rewrite filter_all. reflexivity.
  - f_equal. rewrite IH, List.filter_app, filter_twice. f_equal.
    apply List.filter_ext. intros y. unfold Py.in_list. simpl.
    rewrite negb_orb. apply andb_comm.
Qed.

Lemma fetch_from_distinct (sources : list (string * generator)) :
  forall (seen : gset string) (w : world) trace w',
    fetch_from sources seen w = (trace, w') ->
    concat (map snd trace)
    = List.filter (fun y => negb (bool_decide (y ∈ seen)))
        (distinct_in_order (concat (map (fun entry => yielded (fst entry)) trace))).
Proof.
  induction sources as [|[name fetcher] rest IH]; intros seen w trace w' H; simpl in H.
  - simplify_eq. reflexivity.
  - destruct (fetcher w) as [g w1].
    pose proof (consume_distinct (yielded g) seen 0) as Hd.
    destruct (consume (yielded g) seen 0) as [[out seen1] count] eqn:Hc.
    destruct (consume_spec _ _ _ _ _ _ Hc) as (_ & _ & Hseen & _).
    destruct (fetch_from rest seen1 _) as [trace1 w3] eqn:Hr.
    simplify_eq. simpl in Hd |- *.
    rewrite (IH _ _ _ _ Hr), Hd, distinct_in_order_app, List.filter_app, filter_twice.
    f_equal. apply List.filter_ext. intros y. apply not_seen_union.
Qed.

(** X19: The sequence [fetch_all] yields is the sequence of everything its
    sources yield, source after source, with every value kept at the place
    of its first occurrence and dropped afterwards: the order of the sources
    and the order inside each source are preserved. *)
Theorem fetch_all_keeps_first_occurrences (sources : list (string * generator)) (w : world) :
  fst (fetch_all sources w)
  = distinct_in_order
      (concat (map (fun entry => yielded (fst entry)) (fst (fetch_from sources ∅ w)))).
Proof.
  unfold fetch_all.
  destruct (fetch_from sources ∅ w) as [trace w'] eqn:H. simpl.
  rewrite (fetch_from_distinct _ _ _ _ _ H).
  rewrite <- (filter_all (distinct_in_order _)) at 2.
  apply List.filter_ext. intros y. rewrite bool_decide_false; [reflexivity|set_solver].
Qed.

(** Three sources with values in common. *)
Example merged_in_source_order :
  fst (fetch_all
         [ ("TheSpeedX", Scenario.const_gen (mkRun ["b:2"; "a:1"; "b:2"] None));
           ("Geonode", Scenario.const_gen (mkRun ["c:3"; "a:1"] (Some Timeout)));
           ("Clarketm", Scenario.const_gen (mkRun ["d:4"; "c:3"] None)) ]
         (Scenario.fresh Scenario.net_download []))
  = ["b:2"; "a:1"; "c:3"; "d:4"].
Proof. vm_compute. reflexivity. Qed.

(** * More on the checker *)

(** ** The proxy's own address plays no part *)

(** X20: The address [proxy_ip] cut out of the proxy string is compared with
    the reported origin only in the guard of the nested check, which can
    never hold: what the probe makes of an origin is the same for every
    value of [proxy_ip]. *)
Theorem own_ip_is_never_compared (self : t) (p : Proxy) (proxy_ip proxy_ip' : string)
        (real_ip : option string) (origin : string) (w : world) :
  classify self p proxy_ip real_ip origin w = classify self p proxy_ip' real_ip origin w.
Proof. rewrite !classify_cases. reflexivity. Qed.

(** ** Origins that are not text, answers that are errors *)

(** X21: When the answer of step 1 parses to something that is not an object,
    or to an object whose [origin] is not a string, reading the origin
    raises [AttributeError] and the probe returns the failure tuple with
    that exception, after the one request of step 1. *)
Theorem non_text_origin_is_a_failure (self : t) (p : Proxy) (real_ip : option string)
        (w : world) (r1 : response) (j : json) :
  net w (log w) (stage1_request self p) = Responds r1 ->
  status_ok r1 = true ->
  json_body r1 = Some j ->
  match j with
  | JObj kv => match assoc "origin" kv with
               | Some (JStr _) | None => False
               | Some _ => True
               end
  | _ => True
  end ->
  _check_anonymous self p real_ip w
  = (Ok (p, false, None, Exception AttributeError),
     with_log w (log w ++ [stage1_request self p])).
Proof.
  intros Hn Hs Hj Hbad. apply (check_on_failure self p real_ip w _ AttributeError).
  unfold origin_probe, bind, requests_get. fold (stage1_request self p). rewrite Hn.
  unfold status_ok in Hs. apply negb_true_iff in Hs.
  unfold raise_for_status. rewrite Hs. unfold ret at 1. unfold resp_json. rewrite Hj.
  unfold ret at 1.
  destruct j as [|b|n|s|l|kv]; try reflexivity.
  simpl. destruct (assoc "origin" kv) as [[|b|n|s|l|kv']|]; simpl; try reflexivity;
    contradiction.
Qed.

Lemma non_text_origin_witness :
  _check_anonymous Scenario.self0 Scenario.p5 (Some Scenario.identity)
    (Scenario.fresh (Scenario.oracle (Scenario.origin_reply Scenario.identity)
                       (fun _ => Scenario.reply (JObj [("origin", JArr [JStr "10.0.0.5"])]))
                       (fun _ => Scenario.headers_reply Scenario.clean_headers)) [])
  = (Ok (Scenario.p5, false, None, Exception AttributeError),
     with_log (Scenario.fresh (Scenario.oracle (Scenario.origin_reply Scenario.identity)
                       (fun _ => Scenario.reply (JObj [("origin", JArr [JStr "10.0.0.5"])]))
                       (fun _ => Scenario.headers_reply Scenario.clean_headers)) [])
       ([] ++ [stage1_request Scenario.self0 Scenario.p5])).
Proof.
  apply (non_text_origin_is_a_failure Scenario.self0 Scenario.p5 (Some Scenario.identity)
           (Scenario.fresh _ [])
           (mkResponse 200 "" (Some (JObj [("origin", JArr [JStr "10.0.0.5"])])))
           (JObj [("origin", JArr [JStr "10.0.0.5"])]));
    first [reflexivity|exact I].
Defined.

(** X22: An answer of step 1 with a status from 400 to 599 is a failure with the
    HTTP error as its reason, whatever its body holds; the statuses next to
    that range, 399 and 600, are let through. *)
Theorem error_status_is_a_failure (self : t) (p : Proxy) (real_ip : option string)
        (w : world) (r1 : response) :
  net w (log w) (stage1_request self p) = Responds r1 ->
  (400 <= status_code r1 < 600)%Z ->
  _check_anonymous self p real_ip w
  = (Ok (p, false, None, Exception HTTPError),
     with_log w (log w ++ [stage1_request self p]))
  /\ (forall body j w', raise_for_status (mkResponse 399 body j) w' = (Ok tt, w'))
  /\ (forall body j w', raise_for_status (mkResponse 600 body j) w' = (Ok tt, w')).
Proof.
  intros Hn Hst. split; [|split; reflexivity].
  apply (check_on_failure self p real_ip w _ HTTPError).
  apply (origin_probe_bad_status self p w r1 Hn Hst).
Qed.

Lemma error_status_witness :
  _check_anonymous Scenario.self0 Scenario.p5 None
    (Scenario.fresh (Scenario.oracle (Scenario.origin_reply Scenario.identity)
                       (fun _ => Responds (mkResponse 407 "" (Some (JObj [("origin", JStr "10.0.0.5")]))))
                       (fun _ => Scenario.headers_reply Scenario.clean_headers)) [])
  = (Ok (Scenario.p5, false, None, Exception HTTPError),
     with_log (Scenario.fresh (Scenario.oracle (Scenario.origin_reply Scenario.identity)
                       (fun _ => Responds (mkResponse 407 "" (Some (JObj [("origin", JStr "10.0.0.5")]))))
                       (fun _ => Scenario.headers_reply Scenario.clean_headers)) [])
       ([] ++ [stage1_request Scenario.self0 Scenario.p5]))
  /\ (forall body j w', raise_for_status (mkResponse 399 body j) w' = (Ok tt, w'))
  /\ (forall body j w', raise_for_status (mkResponse 600 body j) w' = (Ok tt, w')).
Proof.
  apply (error_status_is_a_failure Scenario.self0 Scenario.p5 None
           (Scenario.fresh _ [])
           (mkResponse 407 "" (Some (JObj [("origin", JStr "10.0.0.5")])))).
  - reflexivity.
  - simpl. lia.
Defined.

(** ** The two entry points *)



(** X24: [get_freeproxy_proxies] yields no value twice, and what it sends are
    the eight requests of the sources with the default timeout of 15. *)
Theorem get_freeproxy_proxies_unique (cs : json -> string) (w : world) :
  NoDup (fst (get_freeproxy_proxies cs w))
  /\ log (snd (get_freeproxy_proxies cs w))
     = log w ++ map (fun u => mkRequest u None 15) source_urls.
Proof.
  split.
  - unfold get_freeproxy_proxies, adapter_fetch_all, fetch_all.
    destruct (fetch_from (sources cs 15) ∅ w) as [trace w'] eqn:H. simpl.
    apply (fetch_from_spec _ _ _ _ _ H).
  - apply adapter_log.
Qed.
